(** * ZenMon agent v2.0: credential lifecycle, transmission and agent loop

    A shallow embedding of [zenmon-agent-python-v2.0.py]:
    [AgentConfig.update_from_api], [TokenManager], [AuthenticatedApiClient]
    and [ZenMonAgent], followed by the properties of the specification that
    concern them.

    Modelling conventions.
    - Values decoded from JSON are [pyval]s; numbers are restricted to
      integers (no floating point numbers in payloads).
    - [datetime] values are integers counting microseconds; a [timedelta] is a
      difference of such integers.  A float is the rational it stands for:
      [total_seconds_float] is the float that [total_seconds()] returns, and
      the divisions by 60 of [refresh_token_if_needed] are rounded as Python
      rounds them.  [total_seconds] is the exact number of seconds.
    - The remote service is a function [transport] from the requests sent so
      far through the session and the current request to an outcome (a
      response or a raised exception, and the time the call took).  The
      health probe of [collect_network_metric] does not go through the
      session: it is a sampler of the host, and no entry of the request log.
    - The logger is taken to have been built: what [AgentLogger()] can raise
      while [main] builds the agent (the log directory, the log file) is not
      modelled.
    - Log output is not modelled, but an expression evaluated for a log
      message that can raise is.
    - A shutdown signal is due at a given time; its handler has run by the
      end of the blocking call (a request, a one-second sleep) during which
      that time is reached.  [KeyboardInterrupt] and [SystemExit] are not
      modelled: both signals are handled by [_shutdown_handler].
    - Loops and the recursion of [send_metrics] take fuel; a run that needs
      more is [None].  The interpreter's recursion limit is not modelled: what
      is said of [send_metrics] holds of runs that stay below it. *)

From Stdlib Require Import ZArith List String Bool Lia QArith.
Import ListNotations.
Set Warnings "-register-all".
Local Open Scope string_scope.
Local Open Scope list_scope.
Local Open Scope Z_scope.

(** ** Python values and exceptions *)

Inductive pyval : Type :=
| PNone
| PBool (b : bool)
| PInt (z : Z)
| PStr (s : string)
| PList (l : list pyval)
| PDict (items : list (string * pyval)).

Inductive exn : Type :=
| KeyError
| TypeError
| AttributeError
| JSONDecodeError
| Timeout
| ConnectionError
| RequestException
| OtherException.

Definition result (A : Type) : Type := (exn + A)%type.

(** [bool(v)] *)
Definition truthy (v : pyval) : bool :=
  match v with
  | PNone => false
  | PBool b => b
  | PInt z => negb (z =? 0)
  | PStr s => negb (String.eqb s "")
  | PList l => match l with [] => false | _ => true end
  | PDict items => match items with [] => false | _ => true end
  end.

(** Lookup in the items of a dict, first binding of the key. *)
Fixpoint dict_lookup (key : string) (items : list (string * pyval)) : option pyval :=
  match items with
  | [] => None
  | (k, v) :: rest => if String.eqb key k then Some v else dict_lookup key rest
  end.

(** [v[key]] for a string key. *)
Definition getitem (v : pyval) (key : string) : result pyval :=
  match v with
  | PDict items =>
      match dict_lookup key items with
      | Some x => inr x
      | None => inl KeyError
      end
  | _ => inl TypeError
  end.

(** [v.get(key, default)] *)
Definition dict_get (v : pyval) (key : string) (default : pyval) : result pyval :=
  match v with
  | PDict items =>
      match dict_lookup key items with
      | Some x => inr x
      | None => inr default
      end
  | _ => inl AttributeError
  end.

(** [v[:20]] and [v[-10:]]: only the success of slicing matters (the slice is
    used in a log message). *)
Definition slice (v : pyval) : result unit :=
  match v with
  | PStr _ | PList _ => inr tt
  | _ => inl TypeError
  end.

Fixpoint mem_key (key : string) (keys : list string) : bool :=
  match keys with
  | [] => false
  | k :: rest => String.eqb key k || mem_key key rest
  end.

(** [a == b] on decoded JSON values: booleans compare as the integers 0 and 1,
    lists element-wise, dicts as mappings. *)
Fixpoint py_eq (a b : pyval) {struct a} : bool :=
  match a, b with
  | PNone, PNone => true
  | PBool x, PBool y => Bool.eqb x y
  | PBool x, PInt y => Z.b2z x =? y
  | PInt x, PBool y => x =? Z.b2z y
  | PInt x, PInt y => x =? y
  | PStr x, PStr y => String.eqb x y
  | PList xs, PList ys =>
      (fix go (xs ys : list pyval) {struct xs} : bool :=
         match xs, ys with
         | [], [] => true
         | x :: xs', y :: ys' => py_eq x y && go xs' ys'
         | _, _ => false
         end) xs ys
  | PDict xs, PDict ys =>
      (fix go (seen : list string) (xs : list (string * pyval)) {struct xs} : bool :=
         match xs with
         | [] => true
         | (k, v) :: xs' =>
             (if mem_key k seen then true
              else match dict_lookup k ys with
                   | Some w => py_eq v w
                   | None => false
                   end)
             && go (k :: seen) xs'
         end) [] xs
      && forallb (fun kv => mem_key (fst kv) (map fst xs)) ys
  | _, _ => false
  end.

(** [a != b] *)
Definition py_ne (a b : pyval) : bool := negb (py_eq a b).

(** [x < v] for an integer [x]: a number on the right, else [TypeError]. *)
Definition int_lt (x : Z) (v : pyval) : result bool :=
  match v with
  | PInt n => inr (x <? n)
  | PBool b => inr (x <? Z.b2z b)
  | _ => inl TypeError
  end.

(** ** Configuration and token records *)

Record AgentConfig : Type := mkAgentConfig {
  api_url : string;
  host_id : Z;
  login : string;
  password : string;
  collection_interval : pyval;
  timeout : Z;
  token_refresh_margin : Z;
  enable_cpu_monitoring : pyval;
  enable_ram_monitoring : pyval;
  enable_disk_monitoring : pyval;
  enable_network_monitoring : pyval
}.

(** The dataclass defaults, as [main] builds the configuration. *)
Definition default_config (url : string) (host : Z) (user pw : string) : AgentConfig :=
  mkAgentConfig url host user pw (PInt 120) 30 300
    (PBool true) (PBool true) (PBool true) (PBool true).

Record AuthToken : Type := mkAuthToken {
  token : pyval;
  expires_at : Z;
  user_id : pyval;
  username : pyval
}.

(** ** Time *)

Definition microseconds_per_second : Z := 1000000.
Definition seconds (n : Z) : Z := n * microseconds_per_second.
Definition minutes (n : Z) : Z := seconds (60 * n).

(** The exact number of seconds of a [timedelta]. *)
Definition total_seconds (td : Z) : Q := Qmake td 1000000.

Definition Qlt_bool (x y : Q) : bool := negb (Qle_bool y x).

(** ** Floats

    A binary64 float is taken as the rational it stands for.  Python's true
    division of two integers returns the float nearest to the quotient, ties
    going to the one with an even significand.  The exponent range is not
    modelled: the quotients taken here are durations in seconds, far from
    its ends. *)

(** The integer nearest to [n / d], ties to the even one ([0 < d]). *)
Definition round_half_even (n d : Z) : Z :=
  let q := n / d in
  let r := 2 * (n mod d) in
  if r <? d then q
  else if d <? r then q + 1
  else if Z.even q then q else q + 1.

(** [floor (log2 (n / d))], for positive [n] and [d]. *)
Definition ratio_log2 (n d : Z) : Z :=
  if d <=? n then Z.log2 (n / d) else - Z.log2_up ((d + n - 1) / n).

(** The float nearest to [n / d], for positive [n] and [d]: a significand of
    53 bits, scaled by a power of two. *)
Definition nearest_double_pos (n d : Z) : Q :=
  let k := 52 - ratio_log2 n d in
  if 0 <=? k then Qmake (round_half_even (n * 2 ^ k) d) (Z.to_pos (2 ^ k))
  else inject_Z (round_half_even n (d * 2 ^ (- k)) * 2 ^ (- k)).

(** [n / d] in true division ([0 < d]). *)
Definition nearest_double (n d : Z) : Q :=
  match n with
  | 0 => 0%Q
  | Zpos _ => nearest_double_pos n d
  | Zneg p => Qopp (nearest_double_pos (Zpos p) d)
  end.

(** [timedelta.total_seconds()]: the microseconds divided by [10**6] in true
    division. *)
Definition total_seconds_float (td : Z) : Q := nearest_double td 1000000.

(** [x / d] for a float [x] and a positive integer [d]: the float nearest to
    the quotient. *)
Definition float_div_int (x : Q) (d : Z) : Q :=
  nearest_double (Qnum x) (Zpos (Qden x) * d).

(** ** The remote service *)

Inductive Endpoint : Type :=
| Login
| MetricsBatch
| Heartbeat (host : Z)
| Configuration (host : Z)
| MonitoredDirectories (host : Z).

Inductive Method : Type := GET | POST.

(** A request through [TokenManager.session]; [req_auth] is the session's
    Authorization header when the request is sent, [Some v] standing for
    ['Bearer ' + str(v)], and [req_metrics] the metric list of a batch payload
    (empty for the other requests; the rest of a payload is not recorded). *)
Record Request : Type := mkRequest {
  req_method : Method;
  req_endpoint : Endpoint;
  req_auth : option pyval;
  req_metrics : list pyval
}.

(** [json_body = None]: the body is not JSON, [response.json()] raises. *)
Record Response : Type := mkResponse {
  status_code : Z;
  json_body : option pyval
}.

Record Outcome : Type := mkOutcome {
  elapsed : nat;
  outcome : result Response
}.

Definition Transport : Type := list Request -> Request -> Outcome.

(** ** The agent's state

    The fields of [TokenManager] and [ZenMonAgent] that the code mutates,
    with the environment: the clock, the time of a shutdown signal not yet
    delivered, and the requests sent so far through the session ([calls]). *)

Record Agent : Type := mkAgent {
  config : AgentConfig;
  current_token : option AuthToken;
  authorization : option pyval;
  running : bool;
  last_heartbeat : Z;
  last_config_refresh : Z;
  now : Z;
  pending_signal : option Z;
  calls : list Request
}.

Definition set_config (c : AgentConfig) (a : Agent) : Agent :=
  mkAgent c (current_token a) (authorization a) (running a) (last_heartbeat a)
    (last_config_refresh a) (now a) (pending_signal a) (calls a).

Definition set_current_token (t : option AuthToken) (a : Agent) : Agent :=
  mkAgent (config a) t (authorization a) (running a) (last_heartbeat a)
    (last_config_refresh a) (now a) (pending_signal a) (calls a).

Definition set_authorization (h : option pyval) (a : Agent) : Agent :=
  mkAgent (config a) (current_token a) h (running a) (last_heartbeat a)
    (last_config_refresh a) (now a) (pending_signal a) (calls a).

Definition set_running (r : bool) (a : Agent) : Agent :=
  mkAgent (config a) (current_token a) (authorization a) r (last_heartbeat a)
    (last_config_refresh a) (now a) (pending_signal a) (calls a).

Definition set_last_heartbeat (t : Z) (a : Agent) : Agent :=
  mkAgent (config a) (current_token a) (authorization a) (running a) t
    (last_config_refresh a) (now a) (pending_signal a) (calls a).

Definition set_last_config_refresh (t : Z) (a : Agent) : Agent :=
  mkAgent (config a) (current_token a) (authorization a) (running a) (last_heartbeat a)
    t (now a) (pending_signal a) (calls a).

(** [_shutdown_handler] *)
Definition _shutdown_handler (a : Agent) : Agent := set_running false a.

(** Time passes by [d] microseconds; a signal that was due by then has had
    its handler run. *)
Definition advance (d : Z) (a : Agent) : Agent :=
  let t := now a + d in
  let a' := mkAgent (config a) (current_token a) (authorization a) (running a)
              (last_heartbeat a) (last_config_refresh a) t (pending_signal a) (calls a) in
  match pending_signal a with
  | Some at_time =>
      if at_time <=? t
      then _shutdown_handler
             (mkAgent (config a) (current_token a) (authorization a) (running a)
                (last_heartbeat a) (last_config_refresh a) t None (calls a))
      else a'
  | None => a'
  end.

Definition record_call (r : Request) (a : Agent) : Agent :=
  mkAgent (config a) (current_token a) (authorization a) (running a) (last_heartbeat a)
    (last_config_refresh a) (now a) (pending_signal a) (calls a ++ [r]).

(** ** A state and exception monad *)

Definition Py (A : Type) : Type := Agent -> result A * Agent.

Definition ret {A} (x : A) : Py A := fun a => (inr x, a).
Definition raise {A} (e : exn) : Py A := fun a => (inl e, a).

Definition bind {A B} (m : Py A) (k : A -> Py B) : Py B :=
  fun a => match m a with
           | (inr x, a') => k x a'
           | (inl e, a') => (inl e, a')
           end.

(** [try: m except Exception as e: h e]; what [m] did to the state stays. *)
Definition try_except {A} (m : Py A) (h : exn -> Py A) : Py A :=
  fun a => match m a with
           | (inl e, a') => h e a'
           | r => r
           end.

Definition lift_result {A} (r : result A) : Py A :=
  match r with inr x => ret x | inl e => raise e end.

Definition get_state : Py Agent := fun a => (inr a, a).
Definition modify (f : Agent -> Agent) : Py unit := fun a => (inr tt, f a).

Declare Scope py_scope.
Delimit Scope py_scope with py.
Notation "x <- m ;; k" := (bind m (fun x => k))
  (at level 61, m at next level, right associativity) : py_scope.
Notation "m ;;; k" := (bind m (fun _ => k))
  (at level 61, right associativity) : py_scope.
Local Open Scope py_scope.

(** ** [AgentConfig.update_from_api] *)

Definition update_from_api (api_config : pyval) : Py bool :=
  a <- get_state ;;
  let c := config a in
  let old_interval := collection_interval c in
  let old_cpu := enable_cpu_monitoring c in
  let old_ram := enable_ram_monitoring c in
  let old_disk := enable_disk_monitoring c in
  let old_network := enable_network_monitoring c in
  new_interval <- lift_result (dict_get api_config "data_collection_interval" (PInt 120)) ;;
  new_cpu <- lift_result (dict_get api_config "enable_cpu_monitoring" (PBool true)) ;;
  new_ram <- lift_result (dict_get api_config "enable_ram_monitoring" (PBool true)) ;;
  new_disk <- lift_result (dict_get api_config "enable_disk_monitoring" (PBool true)) ;;
  new_network <- lift_result (dict_get api_config "enable_network_monitoring" (PBool true)) ;;
  modify (set_config
            (mkAgentConfig (api_url c) (host_id c) (login c) (password c)
               new_interval (timeout c) (token_refresh_margin c)
               new_cpu new_ram new_disk new_network)) ;;;
  ret (py_ne old_interval new_interval
       || py_ne old_cpu new_cpu
       || py_ne old_ram new_ram
       || py_ne old_disk new_disk
       || py_ne old_network new_network).

(** Computations that may loop: [None] when the fuel runs out. *)
Definition PyF (A : Type) : Type := Agent -> option (result A * Agent).

Definition retF {A} (x : A) : PyF A := fun a => Some (inr x, a).
Definition out_of_fuel {A} : PyF A := fun _ => None.
Definition liftF {A} (m : Py A) : PyF A := fun a => Some (m a).

Definition bindF {A B} (m : PyF A) (k : A -> PyF B) : PyF B :=
  fun a => match m a with
           | Some (inr x, a') => k x a'
           | Some (inl e, a') => Some (inl e, a')
           | None => None
           end.

Definition try_exceptF {A} (m : PyF A) (h : exn -> PyF A) : PyF A :=
  fun a => match m a with
           | Some (inl e, a') => h e a'
           | r => r
           end.

Notation "x <-- m ;; k" := (bindF m (fun x => k))
  (at level 61, m at next level, right associativity) : py_scope.

(** ** Token manager, API client and agent *)

Section Agent.

(** The remote service, the metric collector ([SystemMetricsCollector.
    collect_all_metrics], which samples the host and may use the session),
    and Python's [int] on a string. *)
Variable transport : Transport.
Variable collect_all_metrics : Py (list pyval).
Variable py_int : string -> option Z.

(** [self.session.post(url, json=payload, timeout=...)] and [session.get]:
    the request is recorded, the call takes [elapsed] microseconds and
    returns a response or raises. *)
Definition session_send (m : Method) (ep : Endpoint) (payload : list pyval) : Py Response :=
  fun a =>
    let req := mkRequest m ep (authorization a) payload in
    let o := transport (calls a) req in
    (outcome o, advance (Z.of_nat (elapsed o)) (record_call req a)).

(** [response.json()] *)
Definition response_json (r : Response) : Py pyval :=
  match json_body r with
  | Some v => ret v
  | None => raise JSONDecodeError
  end.

(** [timedelta(minutes=480)] *)
Definition session_lifetime : Z := minutes 480.

Definition authenticate : Py bool :=
  try_except
    (response <- session_send POST Login [] ;;
     if status_code response =? 200 then
       data <- response_json response ;;
       token_string <- lift_result (getitem data "token") ;;
       user_info <- lift_result (getitem data "user") ;;
       a <- get_state ;;
       let expires := now a + session_lifetime in
       uid <- lift_result (getitem user_info "id") ;;
       uname <- lift_result (getitem user_info "login") ;;
       modify (set_current_token (Some (mkAuthToken token_string expires uid uname))) ;;;
       modify (set_authorization (Some token_string)) ;;;
       (* debug log: token_string[:20] and token_string[-10:] *)
       lift_result (slice token_string) ;;;
       (* debug log: user_info['id'], user_info.get('role', 'N/A') *)
       lift_result (getitem user_info "id") ;;;
       lift_result (dict_get user_info "role" (PStr "N/A")) ;;;
       (* info log: user_info['login'] *)
       lift_result (getitem user_info "login") ;;;
       ret true
     else
       (* the message is built under its own try/except *)
       ret false)
    (fun e =>
       match e with
       | Timeout | ConnectionError | RequestException => ret false
       | KeyError => ret false
       | _ => ret false
       end).

Definition is_token_valid : Py bool :=
  a <- get_state ;;
  match current_token a with
  | None => ret false
  | Some t =>
      let time_until_expiry := expires_at t - now a in
      (* a float compared with an int: Python compares the two numbers *)
      ret (Qlt_bool (inject_Z (token_refresh_margin (config a)))
             (total_seconds_float time_until_expiry))
  end.

Definition refresh_token_if_needed : Py bool :=
  a <- get_state ;;
  match current_token a with
  | None => authenticate
  | Some t =>
      let time_until_expiry := expires_at t - now a in
      let minutes_left := float_div_int (total_seconds_float time_until_expiry) 60 in
      if Qle_bool minutes_left (nearest_double (token_refresh_margin (config a)) 60)
      then
        (* debug log: self.current_token.token[:20] and [-10:] *)
        lift_result (slice (token t)) ;;;
        authenticate
      else ret true
  end.

Definition is_empty {A} (l : list A) : bool :=
  match l with [] => true | _ => false end.

(** [fuel] bounds the depth of the recursion on 401.  The interpreter's own
    bound (a [RecursionError], which the [except Exception] clauses would
    catch) is not modelled. *)
Fixpoint send_metrics (fuel : nat) (metrics : list pyval) : PyF bool :=
  match fuel with
  | O => out_of_fuel
  | S fuel' =>
      if is_empty metrics then retF true
      else
        ok <-- liftF refresh_token_if_needed ;;
        if negb ok then retF false
        else
          try_exceptF
            (response <-- liftF (session_send POST MetricsBatch metrics) ;;
             let status := status_code response in
             if (status =? 200) || (status =? 201) then retF true
             else if status =? 401 then
               ok' <-- liftF authenticate ;;
               if ok' then send_metrics fuel' metrics
               else retF false
             else if status =? 422 then retF false
             else retF false)
            (fun e =>
               match e with
               | Timeout => retF false
               | ConnectionError => retF false
               | RequestException => retF false
               | _ => retF false
               end)
  end.

Definition send_heartbeat : Py bool :=
  ok <- refresh_token_if_needed ;;
  if negb ok then ret false
  else
    try_except
      (a <- get_state ;;
       response <- session_send POST (Heartbeat (host_id (config a))) [] ;;
       let status := status_code response in
       if (status =? 200) || (status =? 201) then ret true
       else ret false)
      (fun e => ret false).

(** Returns [PNone] for Python's [None]. *)
Definition get_agent_configuration : Py pyval :=
  ok <- refresh_token_if_needed ;;
  if negb ok then ret PNone
  else
    try_except
      (a <- get_state ;;
       response <- session_send GET (Configuration (host_id (config a))) [] ;;
       if status_code response =? 200 then response_json response
       else ret PNone)
      (fun e => ret PNone).

(** [ZenMonAgent.__init__] at clock value [t0], with the shutdown signal (if
    any) due at [signal]. *)
Definition ZenMonAgent_init (c : AgentConfig) (t0 : Z) (signal : option Z) : Agent :=
  mkAgent c None None false (t0 - minutes 10) (t0 - minutes 15) t0 signal [].

Definition heartbeat_interval : Z := minutes 5.
Definition config_refresh_interval : Z := minutes 10.

Definition _should_send_heartbeat : Py bool :=
  a <- get_state ;;
  let time_since_last := now a - last_heartbeat a in
  ret (heartbeat_interval <=? time_since_last).

Definition _send_heartbeat : Py unit :=
  try_except
    (success <- send_heartbeat ;;
     if success then
       a <- get_state ;;
       modify (set_last_heartbeat (now a))
     else ret tt)
    (fun e => ret tt).

Definition _collect_and_send_metrics (fuel : nat) : PyF unit :=
  try_exceptF
    (metrics <-- liftF collect_all_metrics ;;
     if truthy (PList metrics) then
       success <-- send_metrics fuel metrics ;;
       retF tt
     else retF tt)
    (fun e => retF tt).

(** [time.sleep(1)] *)
Definition sleep_step : Py unit := modify (advance (seconds 1)).

(** The [while] loop of [_wait_for_next_cycle]. *)
Fixpoint wait_loop (fuel : nat) (total_slept : Z) : PyF unit :=
  match fuel with
  | O => out_of_fuel
  | S fuel' =>
      a <-- liftF get_state ;;
      more <-- liftF (lift_result (int_lt total_slept (collection_interval (config a)))) ;;
      if more && running a then
        _ <-- liftF sleep_step ;;
        let total_slept := total_slept + 1 in
        a <-- liftF get_state ;;
        (* progress log every 30 seconds *)
        _ <-- liftF (if total_slept mod 30 =? 0
                     then lift_result (int_lt total_slept (collection_interval (config a)))
                     else ret false) ;;
        wait_loop fuel' total_slept
      else retF tt
  end.

Definition _wait_for_next_cycle (fuel : nat) : PyF unit := wait_loop fuel 0.

Definition _should_refresh_config : Py bool :=
  a <- get_state ;;
  let time_since_last := now a - last_config_refresh a in
  ret (config_refresh_interval <=? time_since_last).

Definition _refresh_config_if_needed : Py unit :=
  try_except
    (api_config <- get_agent_configuration ;;
     if truthy api_config then
       config_changed <- update_from_api api_config ;;
       a <- get_state ;;
       modify (set_last_config_refresh (now a))
     else ret tt)
    (fun e => ret tt).

(** One pass through the body of the [while self.running] loop. *)
Definition cycle (fuel : nat) : PyF unit :=
  try_exceptF
    (hb <-- liftF _should_send_heartbeat ;;
     _ <-- liftF (if hb then _send_heartbeat else ret tt) ;;
     rc <-- liftF _should_refresh_config ;;
     _ <-- liftF (if rc then _refresh_config_if_needed else ret tt) ;;
     _ <-- _collect_and_send_metrics fuel ;;
     _wait_for_next_cycle fuel)
    (fun e => _wait_for_next_cycle fuel).

(** [while self.running: ...] *)
Fixpoint agent_loop (fuel : nat) : PyF unit :=
  match fuel with
  | O => out_of_fuel
  | S fuel' =>
      a <-- liftF get_state ;;
      if running a then
        _ <-- cycle fuel' ;;
        agent_loop fuel'
      else retF tt
  end.

Definition start (fuel : nat) : PyF unit :=
  ok <-- liftF authenticate ;;
  if negb ok then retF tt
  else
    _ <-- liftF (modify (set_running true)) ;;
    api_config <-- liftF get_agent_configuration ;;
    _ <-- liftF (if truthy api_config
                 then (config_changed <- update_from_api api_config ;; ret tt)
                 else ret tt) ;;
    agent_loop fuel.

(** [main]: the exit status of the process and the agent's final state (if
    an agent was built).  An exception that leaves [start] ends the process
    with status 1.  [ZenMonAgent(config)] is taken to succeed. *)
Definition main (fuel : nat) (argv : list string) (t0 : Z) (signal : option Z)
  : option (Z * option Agent) :=
  match argv with
  | [_; arg_url; arg_host; arg_login; arg_password] =>
      match py_int arg_host with
      | None => Some (1, None)
      | Some host =>
          let agent := ZenMonAgent_init
                         (default_config arg_url host arg_login arg_password) t0 signal in
          match start fuel agent with
          | None => None
          | Some (inr _, a) => Some (0, Some a)
          | Some (inl _, a) => Some (1, Some a)
          end
      end
  | _ => Some (1, None)
  end.

End Agent.

(** ** [get_monitored_directories] and [SystemMetricsCollector]

    The host the collector samples is a parameter: what [psutil],
    [shutil.disk_usage] and the health probe measure (with the floating point
    arithmetic done on it), [os.path.exists], [platform] and the formatting of
    timestamps.  A sampler is given the clock and returns the time it took and
    its result or the exception it raised.  Strings are byte strings:
    [replace] and [strip] on the ASCII characters used here are exact, the
    iteration over a string is exact on ASCII strings. *)

From Stdlib Require Import Ascii Sorted.

Record Host : Type := mkHost {
  hostname : string;                       (* platform.node() *)
  platform_system : string;                (* platform.system() *)
  path_exists : pyval -> result bool;      (* os.path.exists *)
  isoformat : Z -> string;                 (* datetime.isoformat() *)
  round3 : nat -> pyval;                   (* round(seconds, 3) of a duration *)
  (* the sampling of collect_cpu_metric: value and additional_info *)
  cpu_sample : Z -> nat * result (pyval * pyval);
  (* psutil.virtual_memory() and what collect_memory_metric derives *)
  memory_sample : Z -> nat * result (pyval * pyval);
  (* requests.get(health_check_url, timeout=10): the status code; sent
     outside the session, without an Authorization header *)
  health_probe : string -> Z -> nat * result Z;
  (* shutil.disk_usage(path): used_percent and total_gb, used_gb, free_gb,
     collection_time_seconds *)
  disk_usage : string -> Z -> nat * result (pyval * list (string * pyval))
}.

(** [len(v)] *)
Fixpoint dict_keys (seen : list string) (items : list (string * pyval)) : list string :=
  match items with
  | [] => []
  | (k, _) :: rest =>
      if mem_key k seen then dict_keys seen rest else k :: dict_keys (k :: seen) rest
  end.

Definition py_len (v : pyval) : result Z :=
  match v with
  | PStr s => inr (Z.of_nat (String.length s))
  | PList l => inr (Z.of_nat (List.length l))
  | PDict items => inr (Z.of_nat (List.length (dict_keys [] items)))
  | _ => inl TypeError
  end.

(** The values [for x in v] goes through. *)
Definition py_iter (v : pyval) : result (list pyval) :=
  match v with
  | PStr s => inr (map (fun c => PStr (String c EmptyString)) (list_ascii_of_string s))
  | PList l => inr l
  | PDict items => inr (map PStr (dict_keys [] items))
  | _ => inl TypeError
  end.

(** [sum(values)], from 0. *)
Fixpoint py_sum (acc : Z) (values : list pyval) : result Z :=
  match values with
  | [] => inr acc
  | PBool b :: rest => py_sum (acc + Z.b2z b) rest
  | PInt z :: rest => py_sum (acc + z) rest
  | _ :: _ => inl TypeError
  end.

(** [s.replace(old, new)] for a one-character [old]. *)
Fixpoint replace_char (old : ascii) (new : string) (s : string) : string :=
  match s with
  | EmptyString => EmptyString
  | String c rest =>
      if Ascii.eqb c old then (new ++ replace_char old new rest)%string
      else String c (replace_char old new rest)
  end.

Fixpoint lstrip_char (c : ascii) (s : string) : string :=
  match s with
  | EmptyString => EmptyString
  | String x rest => if Ascii.eqb x c then lstrip_char c rest else s
  end.

Fixpoint rstrip_char (c : ascii) (s : string) : string :=
  match s with
  | EmptyString => EmptyString
  | String x rest =>
      match rstrip_char c rest with
      | EmptyString => if Ascii.eqb x c then EmptyString else String x EmptyString
      | rest' => String x rest'
      end
  end.

(** [s.strip(c)] for a one-character [c]. *)
Definition strip_char (c : ascii) (s : string) : string := rstrip_char c (lstrip_char c s).

(** [v.replace(old, new)]: a method of strings only. *)
Definition str_replace (v : pyval) (old : ascii) (new : string) : result string :=
  match v with
  | PStr s => inr (replace_char old new s)
  | _ => inl AttributeError
  end.

Definition fallback_directories : pyval :=
  PList [PStr "/root"; PStr "/var"; PStr "/tmp"; PStr "/home"; PStr "/usr"].

Definition ascii_uppercase : list string :=
  ["A"; "B"; "C"; "D"; "E"; "F"; "G"; "H"; "I"; "J"; "K"; "L"; "M";
   "N"; "O"; "P"; "Q"; "R"; "S"; "T"; "U"; "V"; "W"; "X"; "Y"; "Z"].

Section Collector.

Variable transport : Transport.
Variable host : Host.

Definition get_monitored_directories : Py pyval :=
  ok <- refresh_token_if_needed transport ;;
  if negb ok then ret fallback_directories
  else
    try_except
      (a <- get_state ;;
       response <- session_send transport GET
                     (MonitoredDirectories (host_id (config a))) [] ;;
       if status_code response =? 200 then
         data <- response_json response ;;
         directories <- lift_result (dict_get data "directories" (PList [])) ;;
         directory_info <- lift_result (dict_get data "directory_info" (PDict [])) ;;
         fallback_used <- lift_result (dict_get directory_info "fallback_used" (PBool false)) ;;
         (* info log: the directories, or len(directories) *)
         (if truthy fallback_used then ret 0
          else lift_result (py_len directories)) ;;;
         ret directories
       else ret fallback_directories)
      (fun e => ret fallback_directories).

(** A sampler run at the current time. *)
Definition run_sample {A} (sampler : Z -> nat * result A) : Py A :=
  fun a => (snd (sampler (now a)), advance (Z.of_nat (fst (sampler (now a)))) a).

(** The dict every collector builds. *)
Definition metric_data (a : Agent) (metric_type_id : Z) (value additional_info : pyval)
  : pyval :=
  PDict [("host_id", PInt (host_id (config a)));
         ("metric_type_id", PInt metric_type_id);
         ("value", value);
         ("timestamp", PStr (isoformat host (now a)));
         ("additional_info", additional_info)].

(** The collectors return [PNone] for Python's [None]. *)
Definition collect_cpu_metric : Py pyval :=
  try_except
    (r <- run_sample (cpu_sample host) ;;
     a <- get_state ;;
     ret (metric_data a 1 (fst r) (snd r)))
    (fun e => ret PNone).

Definition collect_memory_metric : Py pyval :=
  try_except
    (r <- run_sample (memory_sample host) ;;
     a <- get_state ;;
     ret (metric_data a 2 (fst r) (snd r)))
    (fun e => ret PNone).

Definition collect_network_metric (health_check_url : string) : Py pyval :=
  fun a0 =>
    try_except
      (status <- run_sample (health_probe host health_check_url) ;;
       a <- get_state ;;
       let took := Z.to_nat (now a - now a0) in
       let response_time_ms := Z.of_nat took / 1000 in
       ret (metric_data a 3 (PInt response_time_ms)
              (PDict [("hostname", PStr (hostname host));
                      ("test_url", PStr health_check_url);
                      ("http_status", PInt status);
                      ("collection_time_seconds", round3 host took)])))
      (fun e =>
         match e with
         | Timeout =>
             a <- get_state ;;
             ret (metric_data a 3 (PInt 10000)
                    (PDict [("hostname", PStr (hostname host));
                            ("test_url", PStr health_check_url);
                            ("error", PStr "timeout");
                            ("collection_time_seconds", PInt 10)]))
         | _ => ret PNone
         end) a0.

Definition _collect_single_storage_metric (path : string) (metric_type_id : Z)
    (drive_name : string) : Py pyval :=
  try_except
    (r <- run_sample (disk_usage host path) ;;
     a <- get_state ;;
     ret (metric_data a metric_type_id (fst r)
            (PDict ([("hostname", PStr (hostname host));
                     ("drive_name", PStr drive_name);
                     ("path", PStr path)] ++ snd r))))
    (fun e => ret PNone).

(** The drive letters whose root exists, in alphabetical order. *)
Fixpoint scan_drives (letters : list string) : result (list string) :=
  match letters with
  | [] => inr []
  | letter :: rest =>
      let drive := (letter ++ ":")%string in
      match path_exists host (PStr (drive ++ "\")%string) with
      | inl e => inl e
      | inr found =>
          match scan_drives rest with
          | inl e => inl e
          | inr drives => inr (if found then drive :: drives else drives)
          end
      end
  end.

Definition _get_windows_drives : list string :=
  match scan_drives ascii_uppercase with
  | inr drives => drives
  | inl _ => ["C:"]
  end.

(** [for i, drive in enumerate(drives)], from index [i]. *)
Fixpoint windows_loop (i : Z) (drives : list string) (storage_metrics : list pyval)
  : Py (list pyval) :=
  match drives with
  | [] => ret storage_metrics
  | drive :: rest =>
      metric <- _collect_single_storage_metric drive (4 + i)
                  (replace_char ":" "" drive) ;;
      windows_loop (i + 1) rest
        (if truthy metric then storage_metrics ++ [metric] else storage_metrics)
  end.

(** [for i, directory in enumerate(directories)], from index [i]. *)
Fixpoint directories_loop (i : Z) (directories : list pyval) (storage_metrics : list pyval)
  : Py (list pyval) :=
  match directories with
  | [] => ret storage_metrics
  | directory :: rest =>
      found <- lift_result (path_exists host directory) ;;
      if found then
        replaced <- lift_result (str_replace directory "/" "_") ;;
        match directory with
        | PStr path =>
            metric <- _collect_single_storage_metric path (4 + i)
                        (strip_char "_" replaced) ;;
            directories_loop (i + 1) rest
              (if truthy metric then storage_metrics ++ [metric] else storage_metrics)
        | _ => raise AttributeError
        end
      else directories_loop (i + 1) rest storage_metrics
  end.

(** The inner [try] of [collect_storage_metrics]: the directories of the API,
    or the fallback (the collector as [ZenMonAgent] builds it, with an API
    client). *)
Definition directories_to_monitor : Py pyval :=
  try_except
    (api_directories <- get_monitored_directories ;;
     if truthy api_directories then
       n <- lift_result (py_len api_directories) ;;
       if 0 <? n then ret api_directories else ret fallback_directories
     else ret fallback_directories)
    (fun e => ret fallback_directories).

Definition collect_storage_metrics : Py (list pyval) :=
  try_except
    (if String.eqb (platform_system host) "Windows" then
       windows_loop 0 _get_windows_drives []
     else
       directories <- directories_to_monitor ;;
       items <- lift_result (py_iter directories) ;;
       directories_loop 0 items [])
    (fun e => ret []).

Definition collect_all_metrics (health_check_url : string) : Py (list pyval) :=
  a <- get_state ;;
  metrics <-
    (if truthy (enable_cpu_monitoring (config a)) then
       cpu_metric <- collect_cpu_metric ;;
       ret (if truthy cpu_metric then [cpu_metric] else [])
     else ret []) ;;
  a <- get_state ;;
  metrics <-
    (if truthy (enable_ram_monitoring (config a)) then
       memory_metric <- collect_memory_metric ;;
       ret (if truthy memory_metric then metrics ++ [memory_metric] else metrics)
     else ret metrics) ;;
  a <- get_state ;;
  metrics <-
    (if truthy (enable_network_monitoring (config a)) then
       network_metric <- collect_network_metric health_check_url ;;
       ret (if truthy network_metric then metrics ++ [network_metric] else metrics)
     else ret metrics) ;;
  a <- get_state ;;
  metrics <-
    (if truthy (enable_disk_monitoring (config a)) then
       storage_metrics <- collect_storage_metrics ;;
       ret (if truthy (PList storage_metrics) then metrics ++ storage_metrics else metrics)
     else ret metrics) ;;
  a <- get_state ;;
  enabled_count <- lift_result
                     (py_sum 0 [enable_cpu_monitoring (config a);
                                enable_ram_monitoring (config a);
                                enable_network_monitoring (config a);
                                enable_disk_monitoring (config a)]) ;;
  ret metrics.

(** The collector as [_collect_and_send_metrics] calls it. *)
Definition collect_for_agent : Py (list pyval) :=
  a <- get_state ;;
  collect_all_metrics (api_url (config a) ++ "/public/health")%string.

End Collector.

(** ** Observations on states and request logs *)

(** The login request [authenticate] sends from state [a], and the state
    once a call with outcome [o] has returned. *)
Definition login_request (a : Agent) : Request :=
  mkRequest POST Login (authorization a) [].

Definition batch_request (metrics : list pyval) (a : Agent) : Request :=
  mkRequest POST MetricsBatch (authorization a) metrics.

Definition after_call (o : Outcome) (req : Request) (a : Agent) : Agent :=
  advance (Z.of_nat (elapsed o)) (record_call req a).

(** The fields [authenticate] reads from a login response: the token, the
    user id and the user name of a 200 response whose body has them. *)
Definition login_fields (r : Response) : option (pyval * pyval * pyval) :=
  if status_code r =? 200 then
    match json_body r with
    | Some (PDict items) =>
        match dict_lookup "token" items, dict_lookup "user" items with
        | Some tok, Some (PDict user) =>
            match dict_lookup "id" user, dict_lookup "login" user with
            | Some uid, Some uname => Some (tok, uid, uname)
            | _, _ => None
            end
        | _, _ => None
        end
    | _ => None
    end
  else None.

(** The credential state after a token was installed at the clock of [a]. *)
Definition install (tok uid uname : pyval) (a : Agent) : Agent :=
  set_authorization (Some tok)
    (set_current_token (Some (mkAuthToken tok (now a + session_lifetime) uid uname)) a).

Definition sliceable (v : pyval) : bool :=
  match slice v with inr _ => true | inl _ => false end.

Definition is_login (r : Request) : bool :=
  match req_endpoint r with Login => true | _ => false end.

Definition is_batch (r : Request) : bool :=
  match req_endpoint r with MetricsBatch => true | _ => false end.


(** Number of authentication attempts, of batch sends and of configuration
    fetches in a request log. *)
Definition logins (l : list Request) : nat := List.length (filter is_login l).
Definition batch_sends (l : list Request) : nat := List.length (filter is_batch l).

(** No token, or the test of [refresh_token_if_needed] finds the minutes
    left to be at most those of the refresh margin. *)
Definition needs_refresh (a : Agent) : bool :=
  match current_token a with
  | None => true
  | Some t =>
      Qle_bool (float_div_int (total_seconds_float (expires_at t - now a)) 60)
        (nearest_double (token_refresh_margin (config a)) 60)
  end.

(** The current token, if any, can be sliced (it is a string, as [AuthToken]
    declares). *)
Definition token_sliceable (a : Agent) : bool :=
  match current_token a with
  | None => true
  | Some t => sliceable (token t)
  end.

(** The value a payload gives to a key, [default] when it omits the key. *)
Definition payload_value (items : list (string * pyval)) (key : string) (default : pyval)
  : pyval :=
  match dict_lookup key items with
  | Some v => v
  | None => default
  end.

(** A configuration whose five remote fields have their declared types. *)
Definition is_int (v : pyval) : bool := match v with PInt _ => true | _ => false end.
Definition is_bool (v : pyval) : bool := match v with PBool _ => true | _ => false end.

Definition well_typed (c : AgentConfig) : bool :=
  is_int (collection_interval c)
  && is_bool (enable_cpu_monitoring c)
  && is_bool (enable_ram_monitoring c)
  && is_bool (enable_disk_monitoring c)
  && is_bool (enable_network_monitoring c).

(** What the [except] clauses of [send_metrics] make of the call they wrap:
    an exception becomes the result [False]. *)
Definition caught (r : option (result bool * Agent)) : option (result bool * Agent) :=
  match r with
  | Some (inl _, a) => Some (inr false, a)
  | _ => r
  end.



(** The configuration with the five remote fields taken from a payload. *)
Definition apply_payload (c : AgentConfig) (items : list (string * pyval)) : AgentConfig :=
  mkAgentConfig (api_url c) (host_id c) (login c) (password c)
    (payload_value items "data_collection_interval" (PInt 120))
    (timeout c) (token_refresh_margin c)
    (payload_value items "enable_cpu_monitoring" (PBool true))
    (payload_value items "enable_ram_monitoring" (PBool true))
    (payload_value items "enable_disk_monitoring" (PBool true))
    (payload_value items "enable_network_monitoring" (PBool true)).

(** ** Example services and states *)

Definition example_config : AgentConfig :=
  default_config "http://localhost:8001/api" 10 "admin" "admin123".

(** An agent as [main] builds it at clock value 0, no shutdown signal due. *)
Definition fresh_agent : Agent := ZenMonAgent_init example_config 0 None.

Definition respond (status : Z) (body : option pyval) : Outcome :=
  mkOutcome 0 (inr (mkResponse status body)).

(** The body of a login response that carries [tok]. *)
Definition login_body (tok : pyval) : pyval :=
  PDict [("token", tok);
         ("user", PDict [("id", PInt 1); ("login", PStr "admin"); ("role", PStr "admin")])].

(** Accepts every login with the token ["jwt"]; answers a batch POST with 401
    while it has received fewer than [k] of them, with 200 afterwards. *)
Definition flaky (k : nat) : Transport :=
  fun history req =>
    match req_endpoint req with
    | Login => respond 200 (Some (login_body (PStr "jwt")))
    | MetricsBatch =>
        if (batch_sends history <? k)%nat then respond 401 None else respond 200 None
    | _ => respond 200 (Some (PDict []))
    end.

(** Accepts every login, with a number where the token string belongs. *)
Definition numeric_token_service : Transport :=
  fun history req =>
    match req_endpoint req with
    | Login => respond 200 (Some (login_body (PInt 12345)))
    | _ => respond 200 (Some (PDict []))
    end.

(** Rejects every login. *)
Definition rejecting_service : Transport :=
  fun history req =>
    match req_endpoint req with
    | Login => respond 401 (Some (PDict [("message", PStr "Invalid credentials")]))
    | _ => respond 401 None
    end.


(** Accepts logins, rejects every batch as invalid. *)
Definition validating_service : Transport :=
  fun history req =>
    match req_endpoint req with
    | Login => respond 200 (Some (login_body (PStr "jwt")))
    | MetricsBatch => respond 422 (Some (PDict [("message", PStr "The given data was invalid.")]))
    | _ => respond 200 (Some (PDict []))
    end.

(** The agent after a first successful login at [flaky 0]. *)
Definition authenticated_agent : Agent := snd (authenticate (flaky 0) fresh_agent).

(** An agent with a refresh margin of [2 ^ 34] seconds whose token expires
    one microsecond after the margin. *)
Definition wide_margin_agent : Agent :=
  set_current_token
    (Some (mkAuthToken (PStr "jwt") (seconds (2 ^ 34) + 1) (PInt 1) (PStr "admin")))
    (ZenMonAgent_init
       (mkAgentConfig "http://localhost:8001/api" 10 "admin" "admin123"
          (PInt 120) 30 (2 ^ 34) (PBool true) (PBool true) (PBool true) (PBool true))
       0 None).

Definition cpu_metric : pyval :=
  PDict [("host_id", PInt 10); ("metric_type_id", PInt 1); ("value", PInt 17)].

(** Accepts logins; answers the configuration request with [body]. *)
Definition config_service (body : pyval) : Transport :=
  fun history req =>
    match req_endpoint req with
    | Login => respond 200 (Some (login_body (PStr "jwt")))
    | Configuration _ => respond 200 (Some body)
    | _ => respond 200 (Some (PDict []))
    end.

Definition example_argv : list string :=
  ["zenmon-agent-python-v2.0.py"; "http://localhost:8001/api"; "10"; "admin"; "admin123"].

(** The metric type id a metric carries. *)
Definition metric_type_id_of (m : pyval) : option Z :=
  match getitem m "metric_type_id" with
  | inr (PInt id) => Some id
  | _ => None
  end.

(** A value a single collector returns: [None], or a metric with the id. *)
Definition metric_or_none (id : Z) (m : pyval) : Prop :=
  m = PNone \/ (truthy m = true /\ metric_type_id_of m = Some id).

Definition directories_request (a : Agent) : Request :=
  mkRequest GET (MonitoredDirectories (host_id (config a))) (authorization a) [].

(** What a collection leaves alone: the configuration, and the number of
    batches sent. *)
Definition collection_frame (a a' : Agent) : Prop :=
  config a' = config a /\ batch_sends (calls a') = batch_sends (calls a).

Definition flags (c : AgentConfig) : list pyval :=
  [enable_cpu_monitoring c; enable_ram_monitoring c;
   enable_network_monitoring c; enable_disk_monitoring c].

(** The metrics of [ms] carry ids that increase strictly and lie in
    [lo <= id < hi]. *)
Definition ids_within (lo hi : Z) (ms : list pyval) (ids : list Z) : Prop :=
  map metric_type_id_of ms = map Some ids
  /\ StronglySorted Z.lt ids
  /\ Forall (fun id => lo <= id < hi) ids.

(** The ids a collector gated by [flag] contributes: none, or [id] alone and
    then the flag is truthy. *)
Definition gated (id : Z) (flag : pyval) (ids : list Z) : Prop :=
  ids = [] \/ (ids = [id] /\ truthy flag = true).

(** The ids of a batch collected under configuration [c]: CPU, memory,
    network, then storage. *)
Definition collected (c : AgentConfig) (ms : list pyval) (ids : list Z) : Prop :=
  map metric_type_id_of ms = map Some ids
  /\ exists cpu ram net storage,
       ids = cpu ++ ram ++ net ++ storage
       /\ gated 1 (enable_cpu_monitoring c) cpu
       /\ gated 2 (enable_ram_monitoring c) ram
       /\ gated 3 (enable_network_monitoring c) net
       /\ (storage = [] \/ truthy (enable_disk_monitoring c) = true)
       /\ StronglySorted Z.lt storage
       /\ Forall (fun id => 4 <= id) storage.

Fixpoint contains_char (c : ascii) (s : string) : bool :=
  match s with
  | EmptyString => false
  | String x rest => Ascii.eqb x c || contains_char c rest
  end.

Definition first_char (s : string) : option ascii :=
  match s with
  | EmptyString => None
  | String x _ => Some x
  end.

Fixpoint last_char (s : string) : option ascii :=
  match s with
  | EmptyString => None
  | String x EmptyString => Some x
  | String _ rest => last_char rest
  end.

(** The Authorization header of the session is that of the current token. *)
Definition credentials_consistent (a : Agent) : Prop :=
  authorization a = option_map token (current_token a).

(** A request that is a login or carries an Authorization header. *)
Definition authenticated_request (r : Request) : bool :=
  is_login r || match req_auth r with Some _ => true | None => false end.

(** The session is in step with the token, and nothing but logins went out
    through it without a header. *)
Definition authorized (a : Agent) : Prop :=
  credentials_consistent a /\ forallb authenticated_request (calls a) = true.

(** Computations that end in such a state when they start in one. *)
Definition keeps_authorized {A} (m : Py A) : Prop :=
  forall a, authorized a -> authorized (snd (m a)).

Definition keeps_authorizedF {A} (m : PyF A) : Prop :=
  forall a r a', authorized a -> m a = Some (r, a') -> authorized a'.

(** The two loops of [py_eq], by name. *)
Fixpoint list_eq_go (eq : pyval -> pyval -> bool) (xs ys : list pyval) {struct xs} : bool :=
  match xs, ys with
  | [], [] => true
  | x :: xs', y :: ys' => eq x y && list_eq_go eq xs' ys'
  | _, _ => false
  end.

Fixpoint dict_eq_go (eq : pyval -> pyval -> bool) (ys : list (string * pyval))
    (seen : list string) (xs : list (string * pyval)) {struct xs} : bool :=
  match xs with
  | [] => true
  | (k, v) :: xs' =>
      (if mem_key k seen then true
       else match dict_lookup k ys with
            | Some w => eq v w
            | None => false
            end)
      && dict_eq_go eq ys (k :: seen) xs'
  end.

(** Runs binds and handlers, leaving the operations on values folded. *)
Ltac run_monad :=
  cbv beta iota zeta delta
    [bind ret raise try_except lift_result get_state modify response_json outcome elapsed].

(** A Linux host where [/var] and [/tmp] exist, and a service that lists the
    directories [/var], [/data] and [/tmp]. *)
Definition example_host : Host :=
  mkHost "host-1" "Linux"
    (fun v => match v with
              | PStr s => inr (String.eqb s "/var" || String.eqb s "/tmp")
              | _ => inl TypeError
              end)
    (fun _ => "2025-01-01T00:00:00")
    (fun _ => PInt 0)
    (fun _ => (2000%nat, inr (PInt 17, PDict [])))
    (fun _ => (0%nat, inr (PInt 42, PDict [])))
    (fun _ _ => (3000%nat, inr 200))
    (fun _ _ => (0%nat, inr (PInt 50, []))).

Definition directories_service : Transport :=
  fun history req =>
    match req_endpoint req with
    | Login => respond 200 (Some (login_body (PStr "jwt")))
    | MonitoredDirectories _ =>
        respond 200
          (Some (PDict [("directories", PList [PStr "/var"; PStr "/data"; PStr "/tmp"]);
                        ("directory_info", PDict [("fallback_used", PBool false)])]))
    | _ => respond 200 (Some (PDict []))
    end.

(** The batch collected on [example_host] by the authenticated agent. *)
Definition example_batch : list pyval :=
  match fst (collect_for_agent directories_service example_host authenticated_agent) with
  | inr ms => ms
  | inl _ => []
  end.

(** An agent whose CPU flag was set to [null]. *)
Definition null_flag_agent : Agent :=
  set_config
    (mkAgentConfig "http://localhost:8001/api" 10 "admin" "admin123"
       (PInt 120) 30 300 PNone (PBool true) (PBool true) (PBool true))
    authenticated_agent.

(** An agent with all monitoring switched off. *)
Definition idle_agent : Agent :=
  set_config
    (mkAgentConfig "http://localhost:8001/api" 10 "admin" "admin123"
       (PInt 120) 30 300 (PBool false) (PBool false) (PInt 0) (PBool false))
    authenticated_agent.

(** An agent left with a token that is a number and has expired. *)
Definition unsliceable_agent : Agent :=
  set_current_token (Some (mkAuthToken (PInt 12345) 0 (PInt 1) (PStr "admin"))) fresh_agent.

(** A running agent whose collection interval was set to [null]. *)
Definition null_interval_agent : Agent :=
  set_running true
    (set_config
       (mkAgentConfig "http://localhost:8001/api" 10 "admin" "admin123"
          PNone 30 300 (PBool true) (PBool true) (PBool true) (PBool true))
       authenticated_agent).

(** ** Further observations *)

Definition heartbeat_request (a : Agent) : Request :=
  mkRequest POST (Heartbeat (host_id (config a))) (authorization a) [].

Definition configuration_request (a : Agent) : Request :=
  mkRequest GET (Configuration (host_id (config a))) (authorization a) [].

(** A response with status 200 or 201. *)
Definition accepted (o : result Response) : bool :=
  match o with
  | inr r => (status_code r =? 200) || (status_code r =? 201)
  | inl _ => false
  end.

Definition is_dict (v : pyval) : bool :=
  match v with
  | PDict _ => true
  | _ => false
  end.

(** A value that can stand on the right of [<] against an integer. *)
Definition is_number (v : pyval) : bool :=
  match v with
  | PInt _ | PBool _ => true
  | _ => false
  end.

(** Runs the monadic plumbing of a computation as far as it goes. *)
Ltac run_py :=
  cbv beta iota zeta delta
    [bind ret raise try_except lift_result get_state modify
     bindF retF liftF try_exceptF out_of_fuel
     response_json getitem dict_get
     outcome elapsed fst snd].

(** * Properties *)

(** ** Comparisons of durations *)

Lemma round_half_even_le (n d N : Z) :
  0 < d -> n <= N * d -> round_half_even n d <= N.
Proof.
  intros Hd Hn. unfold round_half_even.
  pose proof (Z.div_mod n d ltac:(lia)) as Hdm.
  pose proof (Z.mod_pos_bound n d Hd) as Hm.
  assert (Hq : n / d <= N) by nia.
  destruct (Z.ltb_spec (2 * (n mod d)) d) as [Hr | Hr]; [exact Hq |].
  assert (n / d < N) by nia.
  destruct (d <? 2 * (n mod d)); [lia |]. destruct (Z.even (n / d)); lia.
Qed.

Lemma round_half_even_ge (n d N : Z) :
  0 < d -> N * d <= n -> N <= round_half_even n d.
Proof.
  intros Hd Hn. unfold round_half_even.
  pose proof (Z.div_mod n d ltac:(lia)) as Hdm.
  pose proof (Z.mod_pos_bound n d Hd) as Hm.
  assert (Hq : N <= n / d) by nia.
  destruct (2 * (n mod d) <? d); [exact Hq |].
  destruct (d <? 2 * (n mod d)); [lia |]. destruct (Z.even (n / d)); lia.
Qed.

Lemma round_half_even_gt (n d N : Z) :
  0 < d -> (2 * N + 1) * d < 2 * n -> N + 1 <= round_half_even n d.
Proof.
  intros Hd Hn. unfold round_half_even.
  pose proof (Z.div_mod n d ltac:(lia)) as Hdm.
  pose proof (Z.mod_pos_bound n d Hd) as Hm.
  assert (Hq : N <= n / d) by nia.
  assert (Hstrict : 2 * (n mod d) <= d -> N + 1 <= n / d).
  { intros Hr. destruct (Z.le_gt_cases (n / d) N) as [Hle | Hgt]; [| lia].
    assert (d * (n / d) <= d * N) by (apply Z.mul_le_mono_nonneg_l; lia). lia. }
  destruct (Z.ltb_spec (2 * (n mod d)) d) as [Hr | Hr]; [apply Hstrict; lia |].
  destruct (Z.ltb_spec d (2 * (n mod d))) as [Hr' | Hr']; [lia |].
  specialize (Hstrict ltac:(lia)). destruct (Z.even (n / d)); lia.
Qed.

Lemma ratio_log2_small (n d : Z) :
  0 < n -> 0 < d -> n < 2 ^ 34 * d -> ratio_log2 n d <= 33.
Proof.
  intros Hn Hd Hlt. unfold ratio_log2.
  destruct (Z.leb_spec d n) as [Hle | Hgt].
  - assert (Hq : 0 < n / d) by (apply Z.div_str_pos; lia).
    assert (Hq' : n / d < 2 ^ 34) by (apply Z.div_lt_upper_bound; lia).
    apply Z.log2_lt_pow2 in Hq'; lia.
  - pose proof (Z.log2_up_nonneg ((d + n - 1) / n)). lia.
Qed.

Lemma ratio_log2_large (n d : Z) :
  0 < d -> 2 ^ 34 * d <= n ->
  34 <= ratio_log2 n d /\ 2 ^ ratio_log2 n d * d <= n.
Proof.
  intros Hd Hle. unfold ratio_log2.
  assert (Hdn : d <= n) by lia.
  destruct (Z.leb_spec d n) as [_ | Hgt]; [| lia].
  assert (Hq : 2 ^ 34 <= n / d) by (apply Z.div_le_lower_bound; lia).
  assert (Hq0 : 0 < n / d) by lia.
  split.
  - apply Z.log2_le_pow2; assumption.
  - pose proof (Z.log2_spec (n / d) Hq0) as [Hlo _].
    pose proof (Z.div_mod n d ltac:(lia)) as Hdm.
    pose proof (Z.mod_pos_bound n d Hd) as Hm. nia.
Qed.

Lemma nearest_double_pos_nonneg (n d : Z) :
  0 < n -> 0 < d -> (0 <= nearest_double_pos n d)%Q.
Proof.
  intros Hn Hd. unfold nearest_double_pos. cbv zeta.
  set (k := 52 - ratio_log2 n d).
  destruct (Z.leb_spec 0 k) as [Hk | Hk].
  - assert (H2 : 0 < 2 ^ k) by (apply Z.pow_pos_nonneg; lia).
    unfold Qle. cbn [Qnum Qden]. rewrite Z.mul_1_r. cbn [Z.mul].
    apply round_half_even_ge; [exact Hd | nia].
  - assert (H2 : 0 < 2 ^ (- k)) by (apply Z.pow_pos_nonneg; lia).
    unfold Qle, inject_Z. cbn [Qnum Qden]. rewrite Z.mul_1_r. cbn [Z.mul].
    assert (0 <= round_half_even n (d * 2 ^ (- k)))
      by (apply round_half_even_ge; nia).
    nia.
Qed.

(** A float quotient against an integer below [2 ^ 34]: with a divisor below
    [2 ^ 20], one unit of the dividend is more than half the distance between
    neighbouring floats, so the rounding does not cross the integer. *)
Lemma nearest_double_gt (m n d : Z) :
  0 < d < 2 ^ 20 -> 0 <= m < 2 ^ 34 ->
  Qlt_bool (inject_Z m) (nearest_double n d) = (m * d <? n).
Proof.
  intros [Hd Hd'] [Hm Hm']. destruct n as [| p | p].
  - cbn [nearest_double]. unfold Qlt_bool, Qle_bool. cbn.
    rewrite Z.mul_1_r.
    replace (0 <=? m) with true by (symmetry; apply Z.leb_le; lia).
    symmetry. apply Z.ltb_ge. nia.
  - cbn [nearest_double]. set (n := Z.pos p). assert (Hn : 0 < n) by (subst n; lia).
    destruct (Z.lt_ge_cases n (2 ^ 34 * d)) as [Hsmall | Hlarge].
    + pose proof (ratio_log2_small n d Hn Hd Hsmall) as He.
      unfold nearest_double_pos. cbv zeta.
      set (k := 52 - ratio_log2 n d) in *. assert (Hk : 19 <= k) by lia.
      replace (0 <=? k) with true by (symmetry; apply Z.leb_le; lia).
      assert (H2 : 2 ^ 19 <= 2 ^ k) by (apply Z.pow_le_mono_r; lia).
      assert (H2' : 0 < 2 ^ k) by lia.
      unfold Qlt_bool, Qle_bool. cbn [Qnum Qden inject_Z].
      rewrite Z2Pos.id by exact H2'. rewrite Z.mul_1_r.
      rewrite <- Z.ltb_antisym.
      destruct (Z.ltb_spec (m * d) n) as [Hlt | Hge].
      * apply Z.ltb_lt.
        pose proof (round_half_even_gt (n * 2 ^ k) d (m * 2 ^ k) Hd) as Hr.
        assert ((2 * (m * 2 ^ k) + 1) * d < 2 * (n * 2 ^ k)) by nia. lia.
      * apply Z.ltb_ge.
        apply round_half_even_le; [exact Hd | nia].
    + destruct (ratio_log2_large n d Hd Hlarge) as [He Hpow].
      replace (m * d <? n) with true by (symmetry; apply Z.ltb_lt; nia).
      unfold nearest_double_pos. cbv zeta.
      set (e := ratio_log2 n d) in *.
      unfold Qlt_bool, Qle_bool.
      destruct (Z.leb_spec 0 (52 - e)) as [Hk | Hk].
      * assert (H2' : 0 < 2 ^ (52 - e)) by (apply Z.pow_pos_nonneg; lia).
        cbn [Qnum Qden inject_Z].
        rewrite Z2Pos.id by exact H2'. rewrite Z.mul_1_r.
        rewrite <- Z.ltb_antisym. apply Z.ltb_lt.
        assert (Hsplit : 2 ^ 52 = 2 ^ e * 2 ^ (52 - e))
          by (rewrite <- Z.pow_add_r by lia; f_equal; lia).
        assert (Hme : 2 ^ 34 <= 2 ^ e) by (apply Z.pow_le_mono_r; lia).
        pose proof (round_half_even_ge (n * 2 ^ (52 - e)) d (2 ^ 52) Hd) as Hr.
        assert (2 ^ 52 * d <= n * 2 ^ (52 - e)) by (rewrite Hsplit; nia).
        assert (m * 2 ^ (52 - e) < 2 ^ 52) by (rewrite Hsplit; nia).
        lia.
      * assert (H2' : 0 < 2 ^ (- (52 - e))) by (apply Z.pow_pos_nonneg; lia).
        cbn [Qnum Qden inject_Z]. rewrite !Z.mul_1_r.
        rewrite <- Z.ltb_antisym. apply Z.ltb_lt.
        assert (Hsplit : 2 ^ e = 2 ^ 52 * 2 ^ (- (52 - e)))
          by (rewrite <- Z.pow_add_r by lia; f_equal; lia).
        pose proof (round_half_even_ge n (d * 2 ^ (- (52 - e))) (2 ^ 52)
                      ltac:(nia)) as Hr.
        assert (2 ^ 52 * (d * 2 ^ (- (52 - e))) <= n) by (rewrite Hsplit in Hpow; nia).
        assert (2 ^ 34 < 2 ^ 52) by (apply Z.pow_lt_mono_r; lia).
        nia.
  - cbn [nearest_double].
    pose proof (nearest_double_pos_nonneg (Z.pos p) d ltac:(lia) Hd) as Hpos.
    replace (m * d <? Z.neg p) with false by (symmetry; apply Z.ltb_ge; nia).
    unfold Qlt_bool. apply negb_false_iff. apply Qle_bool_iff.
    apply Qle_trans with (y := 0%Q).
    + apply (Qopp_le_compat 0). exact Hpos.
    + unfold Qle, inject_Z. cbn. lia.
Qed.

Lemma total_seconds_float_gt (m td : Z) :
  0 <= m < 2 ^ 34 ->
  Qlt_bool (inject_Z m) (total_seconds_float td) = (seconds m <? td).
Proof.
  intros Hm. unfold total_seconds_float, seconds, microseconds_per_second.
  apply nearest_double_gt; [| exact Hm]. split; [lia |]. reflexivity.
Qed.

Lemma total_seconds_lt_iff (m td : Z) :
  (inject_Z m < total_seconds td)%Q <-> seconds m < td.
Proof.
  unfold total_seconds, seconds, microseconds_per_second, Qlt. simpl. lia.
Qed.

(** ** [AgentConfig.update_from_api] *)

Lemma py_ne_int (x y : Z) : py_ne (PInt x) (PInt y) = true <-> x <> y.
Proof.
  unfold py_ne. simpl. rewrite negb_true_iff. apply Z.eqb_neq.
Qed.

Lemma py_ne_bool (x y : bool) : py_ne (PBool x) (PBool y) = true <-> x <> y.
Proof.
  unfold py_ne. simpl. destruct x, y; simpl; split; congruence.
Qed.

Lemma py_ne_typed_int (v w : pyval) :
  is_int v = true -> is_int w = true -> (py_ne v w = true <-> v <> w).
Proof.
  destruct v, w; simpl; try discriminate. intros _ _.
  rewrite py_ne_int. split; intro H; congruence.
Qed.

Lemma py_ne_typed_bool (v w : pyval) :
  is_bool v = true -> is_bool w = true -> (py_ne v w = true <-> v <> w).
Proof.
  destruct v, w; simpl; try discriminate. intros _ _.
  rewrite py_ne_bool. split; intro H; congruence.
Qed.

Lemma dict_get_dict (items : list (string * pyval)) (key : string) (default : pyval) :
  dict_get (PDict items) key default = inr (payload_value items key default).
Proof.
  unfold dict_get, payload_value. destruct (dict_lookup key items); reflexivity.
Qed.

(** Equality of the scalar values a well-typed configuration holds is
    decidable. *)
Lemma pyval_eq_dec (v w : pyval) : is_int v || is_bool v = true -> v = w \/ v <> w.
Proof.
  destruct v; simpl; try discriminate; intros _.
  - destruct w; try (right; discriminate).
    destruct (Bool.bool_dec b b0); [left | right]; congruence.
  - destruct w; try (right; discriminate).
    destruct (Z.eq_dec z z0); [left | right]; congruence.
Qed.

Lemma update_from_api_eq (items : list (string * pyval)) (a : Agent) :
  update_from_api (PDict items) a
  = (inr (py_ne (collection_interval (config a))
                (collection_interval (apply_payload (config a) items))
          || py_ne (enable_cpu_monitoring (config a))
                   (enable_cpu_monitoring (apply_payload (config a) items))
          || py_ne (enable_ram_monitoring (config a))
                   (enable_ram_monitoring (apply_payload (config a) items))
          || py_ne (enable_disk_monitoring (config a))
                   (enable_disk_monitoring (apply_payload (config a) items))
          || py_ne (enable_network_monitoring (config a))
                   (enable_network_monitoring (apply_payload (config a) items))),
     set_config (apply_payload (config a) items) a).
Proof.
  unfold update_from_api, bind, get_state, lift_result.
  rewrite !dict_get_dict. reflexivity.
Qed.

Lemma int_scalar (v : pyval) : is_int v = true -> is_int v || is_bool v = true.
Proof. intros H. rewrite H. reflexivity. Qed.

Lemma bool_scalar (v : pyval) : is_bool v = true -> is_int v || is_bool v = true.
Proof. intros H. rewrite H. apply orb_true_r. Qed.

(** C8. Applying a remote payload (a dict) sets the collection interval to the
    payload's [data_collection_interval] (120 if omitted) and each feature flag
    to the payload's value ([True] if omitted), touches nothing else, and
    returns [True] exactly when one of the five fields differs ([!=]) from its
    value before the call; on configurations of the declared types, exactly
    when the configuration is no longer the same. *)
Theorem update_from_api_spec (a : Agent) (items : list (string * pyval)) :
  exists (changed : bool) (c' : AgentConfig),
    update_from_api (PDict items) a = (inr changed, set_config c' a)
    /\ collection_interval c' = payload_value items "data_collection_interval" (PInt 120)
    /\ enable_cpu_monitoring c' = payload_value items "enable_cpu_monitoring" (PBool true)
    /\ enable_ram_monitoring c' = payload_value items "enable_ram_monitoring" (PBool true)
    /\ enable_disk_monitoring c' = payload_value items "enable_disk_monitoring" (PBool true)
    /\ enable_network_monitoring c' =
         payload_value items "enable_network_monitoring" (PBool true)
    /\ (api_url c', host_id c', login c', password c', timeout c', token_refresh_margin c')
       = (api_url (config a), host_id (config a), login (config a), password (config a),
          timeout (config a), token_refresh_margin (config a))
    /\ (changed = true <->
        py_ne (collection_interval (config a)) (collection_interval c') = true
        \/ py_ne (enable_cpu_monitoring (config a)) (enable_cpu_monitoring c') = true
        \/ py_ne (enable_ram_monitoring (config a)) (enable_ram_monitoring c') = true
        \/ py_ne (enable_disk_monitoring (config a)) (enable_disk_monitoring c') = true
        \/ py_ne (enable_network_monitoring (config a)) (enable_network_monitoring c') = true)
    /\ (well_typed (config a) = true -> well_typed c' = true ->
        (changed = true <-> c' <> config a)).
Proof.
  eexists. eexists. split.
  { unfold update_from_api, bind, get_state, lift_result.
    rewrite !dict_get_dict. unfold modify, ret. reflexivity. }
  cbn [collection_interval enable_cpu_monitoring enable_ram_monitoring
       enable_disk_monitoring enable_network_monitoring api_url host_id login
       password timeout token_refresh_margin].
  repeat (split; [reflexivity |]).
  split.
  { rewrite !orb_true_iff. tauto. }
  intros Hc Hc'. unfold well_typed in Hc, Hc'.
  cbn [collection_interval enable_cpu_monitoring enable_ram_monitoring
       enable_disk_monitoring enable_network_monitoring] in Hc'.
  repeat rewrite andb_true_iff in Hc. repeat rewrite andb_true_iff in Hc'.
  destruct Hc as [[[[Hi Hcpu] Hram] Hdisk] Hnet].
  destruct Hc' as [[[[Hi' Hcpu'] Hram'] Hdisk'] Hnet'].
  rewrite !orb_true_iff.
  rewrite (py_ne_typed_int _ _ Hi Hi'), (py_ne_typed_bool _ _ Hcpu Hcpu'),
    (py_ne_typed_bool _ _ Hram Hram'), (py_ne_typed_bool _ _ Hdisk Hdisk'),
    (py_ne_typed_bool _ _ Hnet Hnet').
  destruct (config a) as [u h l p i t m f1 f2 f3 f4]. simpl in *.
  split.
  - intros H E. injection E as E1 E2 E3 E4 E5. intuition congruence.
  - intros H.
    destruct (pyval_eq_dec i (payload_value items "data_collection_interval" (PInt 120)) (int_scalar _ Hi))
      as [E1 | N1]; [| tauto].
    destruct (pyval_eq_dec f1 (payload_value items "enable_cpu_monitoring" (PBool true)) (bool_scalar _ Hcpu))
      as [E2 | N2]; [| tauto].
    destruct (pyval_eq_dec f2 (payload_value items "enable_ram_monitoring" (PBool true)) (bool_scalar _ Hram))
      as [E3 | N3]; [| tauto].
    destruct (pyval_eq_dec f3 (payload_value items "enable_disk_monitoring" (PBool true)) (bool_scalar _ Hdisk))
      as [E4 | N4]; [| tauto].
    destruct (pyval_eq_dec f4 (payload_value items "enable_network_monitoring" (PBool true)) (bool_scalar _ Hnet))
      as [E5 | N5]; [| tauto].
    exfalso. apply H. congruence.
Qed.

(** ** [TokenManager] *)

Section TokenManager.

Variable transport : Transport.

(** What [authenticate] does, by the outcome of the login call: a token is
    installed exactly when the response is a 200 carrying the four fields,
    and the call reports success exactly when that token can be sliced. *)
Lemma authenticate_eq (a : Agent) :
  authenticate transport a =
  let o := transport (calls a) (login_request a) in
  let a0 := after_call o (login_request a) a in
  match outcome o with
  | inr r =>
      match login_fields r with
      | Some (tok, uid, uname) => (inr (sliceable tok), install tok uid uname a0)
      | None => (inr false, a0)
      end
  | inl _ => (inr false, a0)
  end.
Proof.
  unfold authenticate, session_send, after_call, login_request, login_fields,
    install, sliceable.
  run_py.
  destruct (transport (calls a) (mkRequest POST Login (authorization a) []))
    as [d [e | r]]; run_py.
  - destruct e; reflexivity.
  - destruct (status_code r =? 200); run_py; [| reflexivity].
    destruct (json_body r) as [body |]; run_py; [| reflexivity].
    destruct body as [ | | | | | items]; run_py; try reflexivity.
    destruct (dict_lookup "token" items) as [tok |]; run_py; [| reflexivity].
    destruct (dict_lookup "user" items) as [user |]; run_py; [| reflexivity].
    destruct user as [ | | | | | fields]; run_py; try reflexivity.
    destruct (dict_lookup "id" fields) as [uid |]; run_py; [| reflexivity].
    destruct (dict_lookup "login" fields) as [uname |]; run_py; [| reflexivity].
    destruct (slice tok) as [e | []]; run_py.
    + destruct e; reflexivity.
    + destruct (dict_lookup "role" fields); reflexivity.
Qed.

(** *** What a call through the session leaves alone *)

Lemma advance_frame (d : Z) (a : Agent) :
  config (advance d a) = config a
  /\ current_token (advance d a) = current_token a
  /\ authorization (advance d a) = authorization a
  /\ last_heartbeat (advance d a) = last_heartbeat a
  /\ last_config_refresh (advance d a) = last_config_refresh a
  /\ calls (advance d a) = calls a
  /\ now (advance d a) = now a + d.
Proof.
  unfold advance. destruct (pending_signal a) as [t |]; [| repeat split].
  destruct (t <=? now a + d); repeat split.
Qed.

Lemma after_call_frame (o : Outcome) (req : Request) (a : Agent) :
  config (after_call o req a) = config a
  /\ current_token (after_call o req a) = current_token a
  /\ authorization (after_call o req a) = authorization a
  /\ last_heartbeat (after_call o req a) = last_heartbeat a
  /\ last_config_refresh (after_call o req a) = last_config_refresh a
  /\ calls (after_call o req a) = calls a ++ [req]
  /\ now (after_call o req a) = now a + Z.of_nat (elapsed o).
Proof.
  unfold after_call.
  destruct (advance_frame (Z.of_nat (elapsed o)) (record_call req a))
    as (H1 & H2 & H3 & H4 & H5 & H6 & H7).
  rewrite H1, H2, H3, H4, H5, H6, H7. repeat split.
Qed.

Lemma session_send_eq (m : Method) (ep : Endpoint) (payload : list pyval) (a : Agent) :
  session_send transport m ep payload a =
  let req := mkRequest m ep (authorization a) payload in
  (outcome (transport (calls a) req), after_call (transport (calls a) req) req a).
Proof. reflexivity. Qed.

(** [authenticate] never raises, sends exactly the login request, and leaves
    the configuration and the timestamps of the loop alone; the clock does not
    go back. *)
Lemma authenticate_frame (a : Agent) :
  exists (b : bool) (a' : Agent),
    authenticate transport a = (inr b, a')
    /\ calls a' = calls a ++ [login_request a]
    /\ config a' = config a
    /\ last_heartbeat a' = last_heartbeat a
    /\ last_config_refresh a' = last_config_refresh a
    /\ now a <= now a'.
Proof.
  rewrite authenticate_eq. cbv zeta.
  set (o := transport (calls a) (login_request a)).
  destruct (after_call_frame o (login_request a) a) as (H1 & H2 & H3 & H4 & H5 & H6 & H7).
  assert (Hnow : now a <= now (after_call o (login_request a) a)) by lia.
  destruct (outcome o) as [e | r].
  - exists false. eexists. split; [reflexivity |]. repeat split; assumption.
  - destruct (login_fields r) as [[[tok uid] uname] |].
    + exists (sliceable tok). eexists. split; [reflexivity |].
      unfold install. cbn. repeat split; assumption.
    + exists false. eexists. split; [reflexivity |]. repeat split; assumption.
Qed.

(** When [authenticate] succeeds, the token it installed expires one session
    lifetime after the call returned. *)
Lemma authenticate_success (a a' : Agent) :
  authenticate transport a = (inr true, a') ->
  exists t, current_token a' = Some t
            /\ expires_at t = now a' + session_lifetime
            /\ sliceable (token t) = true
            /\ authorization a' = Some (token t).
Proof.
  rewrite authenticate_eq. cbv zeta.
  destruct (outcome _) as [e | r]; [discriminate |].
  destruct (login_fields r) as [[[tok uid] uname] |]; [| discriminate].
  intros H. injection H as Hs Ha. subst a'. eexists. cbn.
  split; [reflexivity |]. repeat split. exact Hs.
Qed.

(** The failure paths that leave the credentials alone: the call raised (a
    network error, a timeout), the status is not 200, the body is not JSON, or
    a field is missing. *)
Lemma authenticate_failure_keeps_credentials (a : Agent) :
  match outcome (transport (calls a) (login_request a)) with
  | inr r => login_fields r = None
  | inl _ => True
  end ->
  exists a' : Agent,
    authenticate transport a = (inr false, a')
    /\ current_token a' = current_token a
    /\ authorization a' = authorization a.
Proof.
  intros H. rewrite authenticate_eq. cbv zeta.
  set (o := transport (calls a) (login_request a)) in *.
  destruct (after_call_frame o (login_request a) a) as (_ & Ht & Hh & _).
  destruct (outcome o) as [e | r].
  - eexists. split; [reflexivity |]. split; assumption.
  - rewrite H. eexists. split; [reflexivity |]. split; assumption.
Qed.

(** *** [is_token_valid] *)

Lemma is_token_valid_eq (a : Agent) :
  0 <= token_refresh_margin (config a) < 2 ^ 34 ->
  is_token_valid a =
  (inr match current_token a with
       | None => false
       | Some t => seconds (token_refresh_margin (config a)) <? expires_at t - now a
       end, a).
Proof.
  intros Hm. unfold is_token_valid. run_py.
  destruct (current_token a) as [t |]; [| reflexivity].
  rewrite (total_seconds_float_gt _ _ Hm). reflexivity.
Qed.

(** C4. With a refresh margin below [2 ^ 34] seconds, where the float of
    [total_seconds()] still tells a microsecond above the margin from the
    margin, [is_token_valid] returns [True] exactly when a current token
    exists and its expiry minus the current time, in seconds, is strictly
    greater than the refresh margin; it returns the state it was given (no
    request is sent, nothing is mutated). *)
Theorem is_token_valid_spec (a : Agent) :
  0 <= token_refresh_margin (config a) < 2 ^ 34 ->
  exists b : bool,
    is_token_valid a = (inr b, a)
    /\ (b = true <->
        exists t, current_token a = Some t
                  /\ (inject_Z (token_refresh_margin (config a))
                      < total_seconds (expires_at t - now a))%Q)
    /\ (b = false <->
        current_token a = None
        \/ exists t, current_token a = Some t
                     /\ (total_seconds (expires_at t - now a)
                         <= inject_Z (token_refresh_margin (config a)))%Q).
Proof.
  intros Hmargin. rewrite (is_token_valid_eq a Hmargin). eexists. split; [reflexivity |].
  destruct (current_token a) as [t |].
  - pose proof (total_seconds_lt_iff (token_refresh_margin (config a))
                  (expires_at t - now a)) as Hiff.
    destruct (Z.ltb_spec (seconds (token_refresh_margin (config a))) (expires_at t - now a))
      as [H | H].
    + split.
      * split; [intros _ | reflexivity]. exists t. split; [reflexivity |].
        apply (proj2 Hiff). exact H.
      * split; [discriminate |]. intros [E | (t' & E & Hle)]; [discriminate |].
        injection E as E; subst t'. apply Qle_not_lt in Hle. exfalso. apply Hle.
        apply (proj2 Hiff). exact H.
    + split.
      * split; [discriminate |]. intros (t' & E & Hlt). injection E as E; subst t'.
        apply (proj1 Hiff) in Hlt. lia.
      * split; [intros _ | reflexivity]. right. exists t. split; [reflexivity |].
        apply Qnot_lt_le. intro Hlt. apply (proj1 Hiff) in Hlt. lia.
  - split.
    + split; [discriminate |]. intros (t & E & _). discriminate.
    + split; [intros _ | reflexivity]. left. reflexivity.
Qed.

(** *** [refresh_token_if_needed] *)

Lemma refresh_token_if_needed_eq (a : Agent) :
  token_sliceable a = true ->
  refresh_token_if_needed transport a =
  if needs_refresh a then authenticate transport a else (inr true, a).
Proof.
  unfold token_sliceable, needs_refresh, refresh_token_if_needed, sliceable. run_py.
  destruct (current_token a) as [t |]; [| reflexivity].
  intros Hs. destruct (Qle_bool _ _); [| reflexivity].
  destruct (slice (token t)) as [e | []]; [discriminate |]. run_py. reflexivity.
Qed.

End TokenManager.

(** ** [AuthenticatedApiClient] *)

Lemma logins_app (l : list Request) (r : Request) :
  logins (l ++ [r]) = (logins l + (if is_login r then 1 else 0))%nat.
Proof.
  unfold logins. rewrite filter_app, length_app. simpl.
  destruct (is_login r); reflexivity.
Qed.

Lemma batch_sends_app (l : list Request) (r : Request) :
  batch_sends (l ++ [r]) = (batch_sends l + (if is_batch r then 1 else 0))%nat.
Proof.
  unfold batch_sends. rewrite filter_app, length_app. simpl.
  destruct (is_batch r); reflexivity.
Qed.

Section ApiClient.

Variable transport : Transport.

(** [refresh_token_if_needed] is one [authenticate] call, or nothing at all
    (it then returns [True], or raises on a token that cannot be sliced). *)
Lemma refresh_token_if_needed_cases (a : Agent) :
  refresh_token_if_needed transport a = authenticate transport a
  \/ refresh_token_if_needed transport a = (inr true, a)
  \/ refresh_token_if_needed transport a = (inl TypeError, a).
Proof.
  unfold refresh_token_if_needed. run_py.
  destruct (current_token a) as [t |]; [| left; reflexivity].
  destruct (Qle_bool _ _); [| right; left; reflexivity].
  unfold slice. destruct (token t); run_py; auto.
Qed.

(** Whatever it returns, [refresh_token_if_needed] sends no batch. *)
Lemma refresh_token_if_needed_no_batch (a : Agent) :
  batch_sends (calls (snd (refresh_token_if_needed transport a))) = batch_sends (calls a).
Proof.
  destruct (refresh_token_if_needed_cases a) as [H | [H | H]]; rewrite H;
    [| reflexivity | reflexivity].
  destruct (authenticate_frame transport a) as (b & a' & Ha & Hcalls & _).
  rewrite Ha. cbn [snd]. rewrite Hcalls, batch_sends_app. cbn. lia.
Qed.

(** A refresh that reports failure did exactly one thing: the login request
    of its [authenticate] call. *)
Lemma refresh_token_if_needed_failed (a a1 : Agent) :
  refresh_token_if_needed transport a = (inr false, a1) ->
  calls a1 = calls a ++ [login_request a].
Proof.
  destruct (refresh_token_if_needed_cases a) as [H | [H | H]]; rewrite H;
    [| discriminate | discriminate].
  destruct (authenticate_frame transport a) as (b & a' & Ha & Hcalls & _).
  rewrite Ha. intros E. injection E as _ <-. exact Hcalls.
Qed.

(** C6. [send_metrics] on an empty list returns [True] in the state it was
    given: no request, no token refresh.  On a non-empty list, when
    [refresh_token_if_needed] reports failure, [send_metrics] returns [False]
    in the state the refresh left: the login of the failed refresh is the only
    request made and no batch is sent. *)
Theorem send_metrics_fail_fast (fuel : nat) (a : Agent) :
  send_metrics transport (S fuel) [] a = Some (inr true, a)
  /\ forall (metrics : list pyval) (a1 : Agent),
       metrics <> [] ->
       refresh_token_if_needed transport a = (inr false, a1) ->
       send_metrics transport (S fuel) metrics a = Some (inr false, a1)
       /\ calls a1 = calls a ++ [login_request a]
       /\ batch_sends (calls a1) = batch_sends (calls a).
Proof.
  split; [reflexivity |].
  intros metrics a1 Hne Hr.
  split; [| split].
  - destruct metrics as [| m metrics]; [congruence |].
    cbn [send_metrics is_empty]. run_py. rewrite Hr. reflexivity.
  - exact (refresh_token_if_needed_failed a a1 Hr).
  - pose proof (refresh_token_if_needed_no_batch a) as H. rewrite Hr in H. exact H.
Qed.

(** C7. When the token gate passes and the batch POST is answered with 422,
    [send_metrics] returns [False] in the state that POST left: one batch was
    sent, no request follows it (no retry, no login), and the credentials are
    those the POST was sent with. *)
Theorem send_metrics_422 (fuel : nat) (metrics : list pyval) (a a1 a2 : Agent)
    (response : Response) :
  metrics <> [] ->
  refresh_token_if_needed transport a = (inr true, a1) ->
  session_send transport POST MetricsBatch metrics a1 = (inr response, a2) ->
  status_code response = 422 ->
  send_metrics transport (S fuel) metrics a = Some (inr false, a2)
  /\ calls a2 = calls a1 ++ [batch_request metrics a1]
  /\ batch_sends (calls a2) = (batch_sends (calls a) + 1)%nat
  /\ logins (calls a2) = logins (calls a1)
  /\ current_token a2 = current_token a1
  /\ authorization a2 = authorization a1.
Proof.
  intros Hne Hr Hsend Hstatus.
  assert (Hrun : send_metrics transport (S fuel) metrics a = Some (inr false, a2)).
  { destruct metrics as [| m metrics]; [congruence |].
    cbn [send_metrics is_empty]. run_py. rewrite Hr. cbn [negb]. run_py.
    rewrite Hsend. run_py. rewrite Hstatus. reflexivity. }
  rewrite session_send_eq in Hsend. cbv zeta in Hsend.
  injection Hsend as _ Ha2.
  fold (batch_request metrics a1) in Ha2.
  destruct (after_call_frame (transport (calls a1) (batch_request metrics a1))
              (batch_request metrics a1) a1) as (_ & Ht & Hauth & _ & _ & Hcalls & _).
  rewrite Ha2 in Ht, Hauth, Hcalls.
  pose proof (refresh_token_if_needed_no_batch a) as Hnb. rewrite Hr in Hnb.
  cbn [snd] in Hnb.
  repeat split; try assumption.
  - rewrite Hcalls, batch_sends_app, Hnb. reflexivity.
  - rewrite Hcalls, logins_app. cbn. lia.
Qed.

Lemma refresh_token_if_needed_idle (a : Agent) :
  needs_refresh a = false -> refresh_token_if_needed transport a = (inr true, a).
Proof.
  unfold needs_refresh, refresh_token_if_needed. run_py.
  destruct (current_token a) as [t |]; [| discriminate].
  intros ->. reflexivity.
Qed.

(** The step [send_metrics] takes on a 401: one [authenticate] call right
    after the POST; on failure the result is [False] and nothing more is
    sent, on success [send_metrics] runs again on the same batch. *)
Lemma send_metrics_401_step (fuel : nat) (metrics : list pyval) (a a1 a2 : Agent)
    (response : Response) :
  metrics <> [] ->
  refresh_token_if_needed transport a = (inr true, a1) ->
  session_send transport POST MetricsBatch metrics a1 = (inr response, a2) ->
  status_code response = 401 ->
  exists (b : bool) (a3 : Agent),
    authenticate transport a2 = (inr b, a3)
    /\ calls a3 = calls a1 ++ [batch_request metrics a1; login_request a2]
    /\ (b = false -> send_metrics transport (S fuel) metrics a = Some (inr false, a3))
    /\ (b = true ->
        send_metrics transport (S fuel) metrics a
        = caught (send_metrics transport fuel metrics a3)).
Proof.
  intros Hne Hr Hsend Hstatus.
  destruct (authenticate_frame transport a2) as (b & a3 & Ha & Hcalls & _).
  exists b, a3. split; [exact Ha |].
  assert (Hrun : send_metrics transport (S fuel) metrics a
                 = if b then caught (send_metrics transport fuel metrics a3)
                   else Some (inr false, a3)).
  { destruct metrics as [| m metrics]; [congruence |].
    cbn [send_metrics is_empty]. run_py. rewrite Hr. cbn [negb]. run_py.
    rewrite Hsend. run_py. rewrite Hstatus. cbn [Z.eqb Pos.eqb orb]. run_py.
    rewrite Ha. run_py. destruct b; [| reflexivity].
    unfold caught.
    destruct (send_metrics transport fuel (m :: metrics) a3) as [[[e | v] a4] |];
      try reflexivity.
    destruct e; reflexivity. }
  split; [| split].
  - rewrite session_send_eq in Hsend. cbv zeta in Hsend. injection Hsend as _ Ha2.
    fold (batch_request metrics a1) in Ha2.
    destruct (after_call_frame (transport (calls a1) (batch_request metrics a1))
                (batch_request metrics a1) a1) as (_ & _ & _ & _ & _ & Hc & _).
    rewrite Ha2 in Hc. rewrite Hcalls, Hc, <- app_assoc. reflexivity.
  - intros ->. exact Hrun.
  - intros ->. exact Hrun.
Qed.

End ApiClient.

(** *** Repeated 401s *)

Lemma caught_idempotent (r : option (result bool * Agent)) : caught (caught r) = caught r.
Proof. destruct r as [[[e | b] a] |]; reflexivity. Qed.

Lemma batch_sends_retry (l : list Request) (metrics : list pyval) (a a' : Agent) :
  batch_sends (l ++ [batch_request metrics a; login_request a'])
  = (batch_sends l + 1)%nat.
Proof. unfold batch_sends. rewrite filter_app, length_app. reflexivity. Qed.

(** C1 (amended). On a non-empty batch whose POST is answered with 401,
    [send_metrics] makes one [authenticate] call right after that POST; if it
    fails, the result is [False] and nothing more is sent; if it succeeds,
    [send_metrics] runs again on the same batch and its result is returned
    ([False] if it raised).  The retry is not limited to one: when the POST
    of the retry is answered with 401 as well, [send_metrics] authenticates a
    second time (by then the batch has been sent twice) and, if that
    succeeds, runs a third time on the same batch. *)
Theorem send_metrics_on_401 :
  (forall (transport : Transport) (fuel : nat) (metrics : list pyval) (a a1 a2 : Agent)
          (response : Response),
      metrics <> [] ->
      refresh_token_if_needed transport a = (inr true, a1) ->
      session_send transport POST MetricsBatch metrics a1 = (inr response, a2) ->
      status_code response = 401 ->
      exists (b : bool) (a3 : Agent),
        authenticate transport a2 = (inr b, a3)
        /\ calls a3 = calls a1 ++ [batch_request metrics a1; login_request a2]
        /\ (b = false -> send_metrics transport (S fuel) metrics a = Some (inr false, a3))
        /\ (b = true ->
            send_metrics transport (S fuel) metrics a
            = caught (send_metrics transport fuel metrics a3)))
  /\ (forall (transport : Transport) (fuel : nat) (metrics : list pyval)
             (a a1 a2 a3 a3' a4 : Agent) (response response' : Response),
         metrics <> [] ->
         refresh_token_if_needed transport a = (inr true, a1) ->
         session_send transport POST MetricsBatch metrics a1 = (inr response, a2) ->
         status_code response = 401 ->
         authenticate transport a2 = (inr true, a3) ->
         refresh_token_if_needed transport a3 = (inr true, a3') ->
         session_send transport POST MetricsBatch metrics a3' = (inr response', a4) ->
         status_code response' = 401 ->
         exists (b : bool) (a5 : Agent),
           authenticate transport a4 = (inr b, a5)
           /\ calls a5 = calls a3' ++ [batch_request metrics a3'; login_request a4]
           /\ batch_sends (calls a5) = (batch_sends (calls a) + 2)%nat
           /\ (b = false ->
               send_metrics transport (S (S fuel)) metrics a = Some (inr false, a5))
           /\ (b = true ->
               send_metrics transport (S (S fuel)) metrics a
               = caught (send_metrics transport fuel metrics a5))).
Proof.
  split.
  - exact send_metrics_401_step.
  - intros transport fuel metrics a a1 a2 a3 a3' a4 response response'
      Hne Hgate Hsend H401 Hauth Hgate' Hsend' H401'.
    destruct (send_metrics_401_step transport (S fuel) metrics a a1 a2 response
                Hne Hgate Hsend H401) as (b1 & a3x & Ha1 & Hc1 & _ & Hretry1).
    rewrite Hauth in Ha1. injection Ha1 as <- <-.
    destruct (send_metrics_401_step transport fuel metrics a3 a3' a4 response'
                Hne Hgate' Hsend' H401') as (b & a5 & Ha & Hc & Hfalse & Htrue).
    exists b, a5. split; [exact Ha |]. split; [exact Hc |]. split.
    + pose proof (refresh_token_if_needed_no_batch transport a) as Hb1.
      rewrite Hgate in Hb1. cbn [snd] in Hb1.
      pose proof (refresh_token_if_needed_no_batch transport a3) as Hb3.
      rewrite Hgate' in Hb3. cbn [snd] in Hb3.
      rewrite Hc, batch_sends_retry, Hb3, Hc1, batch_sends_retry, Hb1. lia.
    + split; intros Hb; rewrite (Hretry1 eq_refl).
      * rewrite (Hfalse Hb). reflexivity.
      * rewrite (Htrue Hb). apply caught_idempotent.
Qed.

(** ** [ZenMonAgent] *)

Lemma advance_signal (d : Z) (a : Agent) (at_time : Z) :
  pending_signal a = Some at_time ->
  (at_time <= now a + d ->
   running (advance d a) = false /\ pending_signal (advance d a) = None)
  /\ (now a + d < at_time ->
      running (advance d a) = running a /\ pending_signal (advance d a) = Some at_time).
Proof.
  intros Hp. unfold advance. rewrite Hp. split; intros H.
  - replace (at_time <=? now a + d) with true by (symmetry; apply Z.leb_le; lia).
    split; reflexivity.
  - replace (at_time <=? now a + d) with false by (symmetry; apply Z.leb_gt; lia).
    split; reflexivity.
Qed.

Lemma advance_stopped (d : Z) (a : Agent) :
  running a = false -> running (advance d a) = false.
Proof.
  intros H. unfold advance. destruct (pending_signal a) as [t |]; [| exact H].
  destruct (t <=? now a + d); [reflexivity | exact H].
Qed.

Lemma seconds_succ (n : Z) : seconds (n + 1) = seconds n + seconds 1.
Proof. unfold seconds, microseconds_per_second. lia. Qed.

(** The wait with a signal due before the interval is over: it ends with the
    first sleep step that reaches the time of the signal. *)
Lemma wait_loop_signal (n at_time : Z) (fuel : nat) :
  forall (total_slept : Z) (a : Agent),
    collection_interval (config a) = PInt n ->
    running a = true ->
    pending_signal a = Some at_time ->
    now a < at_time <= now a + seconds (n - total_slept) ->
    n - total_slept < Z.of_nat fuel ->
    exists (a' : Agent) (steps : Z),
      wait_loop fuel total_slept a = Some (inr tt, a')
      /\ running a' = false
      /\ 1 <= steps <= n - total_slept
      /\ now a' = now a + seconds steps
      /\ at_time <= now a' < at_time + seconds 1.
Proof.
  induction fuel as [| fuel IH]; intros slept a Hn Hrun Hsig Ht Hfuel.
  - exfalso. unfold seconds, microseconds_per_second in Ht. lia.
  - assert (Hlt : slept < n) by (unfold seconds, microseconds_per_second in Ht; lia).
    cbn [wait_loop]. run_py. rewrite Hn. cbn [int_lt]. run_py.
    replace (slept <? n) with true by (symmetry; apply Z.ltb_lt; exact Hlt).
    rewrite Hrun. cbn [andb]. unfold sleep_step. run_py.
    destruct (advance_frame (seconds 1) a) as (Hcfg & _ & _ & _ & _ & _ & Hnow).
    destruct (advance_signal (seconds 1) a at_time Hsig) as [Hdue Hlater].
    set (a1 := advance (seconds 1) a) in *.
    rewrite Hcfg, Hn. cbn [int_lt].
    destruct (Z_le_gt_dec at_time (now a + seconds 1)) as [Hnow_due | Hnot_yet].
    + destruct (Hdue Hnow_due) as [Hstop Hnone].
      destruct fuel as [| fuel]; [lia |].
      exists a1, 1. split.
      * destruct ((slept + 1) mod 30 =? 0); cbn [lift_result]; run_py;
          cbn [wait_loop]; run_py; rewrite Hcfg, Hn; cbn [int_lt]; run_py;
          rewrite Hstop, andb_false_r; reflexivity.
      * split; [exact Hstop |]. split; [lia |]. split; [exact Hnow |]. lia.
    + destruct (Hlater ltac:(lia)) as [Hrun1 Hsig1].
      destruct (IH (slept + 1) a1) as (a' & steps & Hw & Hstop & Hsteps & Hnow' & Hwin).
      * rewrite Hcfg. exact Hn.
      * rewrite Hrun1. exact Hrun.
      * exact Hsig1.
      * rewrite Hnow. replace (n - slept) with (n - (slept + 1) + 1) in Ht by lia.
        rewrite seconds_succ in Ht. lia.
      * lia.
      * exists a', (steps + 1). split.
        { destruct ((slept + 1) mod 30 =? 0); cbn [lift_result]; run_py; exact Hw. }
        split; [exact Hstop |]. split; [lia |].
        split; [rewrite Hnow', Hnow, seconds_succ; lia | exact Hwin].
Qed.

(** The wait with no signal due: the whole interval is slept, one second at
    a time, and the agent is still running. *)
Lemma wait_loop_complete (n : Z) (fuel : nat) :
  forall (total_slept : Z) (a : Agent),
    collection_interval (config a) = PInt n ->
    running a = true ->
    pending_signal a = None ->
    total_slept <= n ->
    n - total_slept < Z.of_nat fuel ->
    exists a' : Agent,
      wait_loop fuel total_slept a = Some (inr tt, a')
      /\ running a' = true
      /\ now a' = now a + seconds (n - total_slept).
Proof.
  induction fuel as [| fuel IH]; intros slept a Hn Hrun Hsig Hle Hfuel; [lia |].
  cbn [wait_loop]. run_py. rewrite Hn. cbn [int_lt]. run_py.
  destruct (Z.ltb_spec slept n) as [Hlt | Hge].
  - rewrite Hrun. cbn [andb]. unfold sleep_step. run_py.
    destruct (advance_frame (seconds 1) a) as (Hcfg & _ & _ & _ & _ & _ & Hnow).
    assert (Hrun1 : running (advance (seconds 1) a) = true)
      by (unfold advance; rewrite Hsig; exact Hrun).
    assert (Hsig1 : pending_signal (advance (seconds 1) a) = None)
      by (unfold advance; rewrite Hsig; reflexivity).
    set (a1 := advance (seconds 1) a) in *.
    rewrite Hcfg, Hn. cbn [int_lt].
    destruct (IH (slept + 1) a1) as (a' & Hw & Hrun' & Hnow'); try assumption; try lia.
    + rewrite Hcfg. exact Hn.
    + exists a'. split.
      * destruct ((slept + 1) mod 30 =? 0); cbn [lift_result]; run_py; exact Hw.
      * split; [exact Hrun' |]. rewrite Hnow', Hnow.
        replace (n - slept) with (n - (slept + 1) + 1) by lia.
        rewrite seconds_succ. lia.
  - cbn [andb]. exists a. split; [reflexivity |]. split; [exact Hrun |].
    replace (n - slept) with 0 by lia. unfold seconds. lia.
Qed.

Section AgentLoop.

Variable transport : Transport.
Variable collect_all_metrics : Py (list pyval).
Variable py_int : string -> option Z.

(** C9. The wait sleeps one second at a time and reads the running flag
    before each step.  When the shutdown signal falls within the wait (the
    agent is running, the interval is the integer [n], the signal is due after
    the wait starts and no later than [n] seconds into it), the wait returns
    after a whole number of steps, with the flag cleared, less than one second
    after the signal; if the signal came before the last step began, the full
    interval was not slept.  The agent loop then stops at once. *)
Theorem wait_interrupted_by_signal (fuel : nat) (a : Agent) (n at_time : Z) :
  collection_interval (config a) = PInt n ->
  running a = true ->
  pending_signal a = Some at_time ->
  now a < at_time <= now a + seconds n ->
  n < Z.of_nat fuel ->
  exists (a' : Agent) (steps : Z),
    _wait_for_next_cycle fuel a = Some (inr tt, a')
    /\ running a' = false
    /\ 1 <= steps <= n
    /\ now a' = now a + seconds steps
    /\ at_time <= now a' < at_time + seconds 1
    /\ (at_time <= now a + seconds (n - 1) -> steps < n)
    /\ forall fuel', agent_loop transport collect_all_metrics (S fuel') a' = Some (inr tt, a').
Proof.
  intros Hn Hrun Hsig Ht Hfuel.
  destruct (wait_loop_signal n at_time fuel 0 a Hn Hrun Hsig)
    as (a' & steps & Hw & Hstop & Hsteps & Hnow & Hwin).
  - rewrite Z.sub_0_r. exact Ht.
  - lia.
  - exists a', steps. split; [exact Hw |]. split; [exact Hstop |].
    split; [lia |]. split; [exact Hnow |]. split; [exact Hwin |]. split.
    + intros Hearly. rewrite Hnow in Hwin.
      unfold seconds, microseconds_per_second in *. lia.
    + intros fuel'. cbn [agent_loop]. run_py. rewrite Hstop. reflexivity.
Qed.

(** *** Configuration refresh *)




(** *** Start-up *)

Lemma authenticate_stopped (a : Agent) :
  running a = false -> running (snd (authenticate transport a)) = false.
Proof.
  intros H. rewrite authenticate_eq. cbv zeta.
  set (o := transport (calls a) (login_request a)).
  assert (H0 : running (after_call o (login_request a) a) = false).
  { unfold after_call. apply advance_stopped. exact H. }
  destruct (outcome o) as [e | r]; [exact H0 |].
  destruct (login_fields r) as [[[tok uid] uname] |]; exact H0.
Qed.

(** C3. When the initial authentication fails, [start] returns at once: the
    running flag is never set, the loop is never entered, and the login is the
    only request made.  [main] then returns normally, so the process ends with
    exit status 0, not with a non-zero status. *)
Theorem main_initial_authentication_failure (fuel : nat)
    (prog arg_url arg_host arg_login arg_password : string) (host t0 : Z)
    (signal : option Z) (a' : Agent) :
  py_int arg_host = Some host ->
  authenticate transport
    (ZenMonAgent_init (default_config arg_url host arg_login arg_password) t0 signal)
  = (inr false, a') ->
  main transport collect_all_metrics py_int fuel
    [prog; arg_url; arg_host; arg_login; arg_password] t0 signal
  = Some (0, Some a')
  /\ running a' = false
  /\ calls a'
     = [login_request
          (ZenMonAgent_init (default_config arg_url host arg_login arg_password) t0 signal)].
Proof.
  intros Hhost Hauth.
  split; [| split].
  - unfold main. rewrite Hhost. unfold start. run_py. rewrite Hauth. reflexivity.
  - pose proof (authenticate_stopped
                  (ZenMonAgent_init (default_config arg_url host arg_login arg_password)
                     t0 signal) eq_refl) as H.
    rewrite Hauth in H. exact H.
  - destruct (authenticate_frame transport
                (ZenMonAgent_init (default_config arg_url host arg_login arg_password)
                   t0 signal)) as (b & a'' & Ha & Hcalls & _).
    rewrite Hauth in Ha. injection Ha as _ <-. exact Hcalls.
Qed.

End AgentLoop.

(** * Concrete runs *)

(** The remote payload [{data_collection_interval: 60}] applied to the default
    configuration: interval 60, and a change is reported. *)
Lemma update_from_api_spec_witness :
  exists (changed : bool) (c' : AgentConfig),
    update_from_api (PDict [("data_collection_interval", PInt 60)]) fresh_agent
    = (inr changed, set_config c' fresh_agent)
    /\ collection_interval c' = PInt 60
    /\ enable_cpu_monitoring c' = PBool true
    /\ (changed = true <-> c' <> config fresh_agent).
Proof.
  destruct (update_from_api_spec fresh_agent [("data_collection_interval", PInt 60)])
    as (changed & c' & Hrun & Hi & Hcpu & Hram & Hdisk & Hnet & _ & _ & Htyped).
  exists changed, c'. split; [exact Hrun |]. split; [exact Hi |]. split; [exact Hcpu |].
  apply Htyped; [reflexivity |].
  unfold well_typed. rewrite Hi, Hcpu, Hram, Hdisk, Hnet. reflexivity.
Defined.

(** A token obtained at clock value 0 is valid under the default margin. *)
Lemma is_token_valid_spec_witness :
  exists b : bool,
    is_token_valid authenticated_agent = (inr b, authenticated_agent) /\ b = true.
Proof.
  destruct (is_token_valid_spec authenticated_agent) as (b & Hrun & Htrue & _).
  - vm_compute. split; [discriminate | reflexivity].
  - exists b. split; [exact Hrun |]. apply Htrue.
    eexists. split; [reflexivity |]. vm_compute. reflexivity.
Defined.

(** Past the bound the float decides: with a margin of [2 ^ 34] seconds a
    token that expires one microsecond after the margin is not valid. *)
Lemma is_token_valid_rounds :
  fst (is_token_valid wide_margin_agent) = inr false
  /\ seconds (token_refresh_margin (config wide_margin_agent))
     < match current_token wide_margin_agent with
       | Some t => expires_at t - now wide_margin_agent
       | None => 0
       end.
Proof. split; vm_compute; reflexivity. Qed.

(** C5. At a service whose 200 login response carries the number 12345 where
    the token string belongs, [refresh_token_if_needed] on an agent without a
    token makes its one [authenticate] call and returns [False]; yet after
    the call a current token exists and [is_token_valid] accepts it.  The
    value returned does not say whether a valid token exists after the
    call. *)
Theorem refresh_token_if_needed_false_with_valid_token :
  exists a' : Agent,
    refresh_token_if_needed numeric_token_service fresh_agent = (inr false, a')
    /\ logins (calls a') = 1%nat
    /\ option_map token (current_token a') = Some (PInt 12345)
    /\ is_token_valid a' = (inr true, a').
Proof.
  eexists. split; [vm_compute; reflexivity |]. repeat split; vm_compute; reflexivity.
Qed.

(** C10. A 200 login response whose token is the number 12345, received by an
    agent whose current token is ["jwt"]: [authenticate] returns [False], and
    both the current token and the Authorization header have been replaced. *)
Theorem authenticate_failure_replaces_credentials :
  exists a' : Agent,
    authenticate numeric_token_service authenticated_agent = (inr false, a')
    /\ option_map token (current_token authenticated_agent) = Some (PStr "jwt")
    /\ authorization authenticated_agent = Some (PStr "jwt")
    /\ option_map token (current_token a') = Some (PInt 12345)
    /\ authorization a' = Some (PInt 12345).
Proof.
  eexists. split; [vm_compute; reflexivity |]. repeat split.
Qed.

(** A login rejected by the service, then a batch that is never sent. *)
Lemma send_metrics_fail_fast_witness :
  send_metrics rejecting_service 1 [] fresh_agent = Some (inr true, fresh_agent)
  /\ send_metrics rejecting_service 1 [cpu_metric] fresh_agent
     = Some (inr false, snd (refresh_token_if_needed rejecting_service fresh_agent))
  /\ batch_sends (calls (snd (refresh_token_if_needed rejecting_service fresh_agent)))
     = batch_sends (calls fresh_agent).
Proof.
  destruct (send_metrics_fail_fast rejecting_service 0 fresh_agent) as [Hempty Hfail].
  split; [exact Hempty |].
  destruct (Hfail [cpu_metric] (snd (refresh_token_if_needed rejecting_service fresh_agent)))
    as (Hrun & _ & Hbatch).
  - discriminate.
  - reflexivity.
  - split; [exact Hrun | exact Hbatch].
Defined.

(** A batch rejected with 422: one send, no retry. *)
Lemma send_metrics_422_witness :
  exists a2 : Agent,
    send_metrics validating_service 1 [cpu_metric] fresh_agent = Some (inr false, a2)
    /\ batch_sends (calls a2) = 1%nat
    /\ logins (calls a2) = 1%nat.
Proof.
  set (a1 := snd (refresh_token_if_needed validating_service fresh_agent)).
  set (a2 := snd (session_send validating_service POST MetricsBatch [cpu_metric] a1)).
  destruct (send_metrics_422 validating_service 0 [cpu_metric] fresh_agent a1 a2
              (mkResponse 422 (Some (PDict [("message", PStr "The given data was invalid.")]))))
    as (Hrun & _ & Hbatch & Hlogins & _).
  - discriminate.
  - reflexivity.
  - reflexivity.
  - reflexivity.
  - exists a2. split; [exact Hrun |]. split; [exact Hbatch |].
    rewrite Hlogins. reflexivity.
Defined.

(** One 401 then 200 at [flaky 1]: one re-authentication, one retry.  Two
    401s in a row at [flaky 2]: a second re-authentication after the second
    send, and a third run. *)
Lemma send_metrics_on_401_witness :
  (exists a3 : Agent,
      authenticate (flaky 1)
        (snd (session_send (flaky 1) POST MetricsBatch [cpu_metric] authenticated_agent))
      = (inr true, a3)
      /\ send_metrics (flaky 1) 2 [cpu_metric] authenticated_agent
         = caught (send_metrics (flaky 1) 1 [cpu_metric] a3))
  /\ (exists a5 : Agent,
         batch_sends (calls a5) = 2%nat
         /\ logins (calls a5) = 3%nat
         /\ send_metrics (flaky 2) 3 [cpu_metric] authenticated_agent
            = caught (send_metrics (flaky 2) 1 [cpu_metric] a5)).
Proof.
  destruct send_metrics_on_401 as [Hstep Hsecond]. split.
  - destruct (Hstep (flaky 1) 1%nat [cpu_metric] authenticated_agent authenticated_agent
                (snd (session_send (flaky 1) POST MetricsBatch [cpu_metric]
                        authenticated_agent))
                (mkResponse 401 None))
      as (b & a3 & Hauth & _ & _ & Hretry).
    + discriminate.
    + reflexivity.
    + reflexivity.
    + reflexivity.
    + assert (Hb : b = true).
      { vm_compute in Hauth. injection Hauth as Hb _. symmetry. exact Hb. }
      subst b. exists a3. split; [exact Hauth | exact (Hretry eq_refl)].
  - set (a2 := snd (session_send (flaky 2) POST MetricsBatch [cpu_metric]
                      authenticated_agent)).
    set (a3 := snd (authenticate (flaky 2) a2)).
    set (a4 := snd (session_send (flaky 2) POST MetricsBatch [cpu_metric] a3)).
    destruct (Hsecond (flaky 2) 1%nat [cpu_metric] authenticated_agent authenticated_agent
                a2 a3 a3 a4 (mkResponse 401 None) (mkResponse 401 None))
      as (b & a5 & Hauth & Hcalls & Hbatch & _ & Hretry).
    + discriminate.
    + vm_compute; reflexivity.
    + vm_compute; reflexivity.
    + reflexivity.
    + vm_compute; reflexivity.
    + vm_compute; reflexivity.
    + vm_compute; reflexivity.
    + reflexivity.
    + assert (Hb : b = true).
      { vm_compute in Hauth. injection Hauth as Hb _. symmetry. exact Hb. }
      subst b. exists a5. split; [exact Hbatch |].
      split; [rewrite Hcalls; vm_compute; reflexivity | exact (Hretry eq_refl)].
Defined.

(** C1, as stated, fails: with two 401s in a row, each followed by a
    successful re-authentication, [send_metrics] sends the batch three times
    (two retries) and logs in twice more. *)
Lemma send_metrics_retries_twice :
  exists a' : Agent,
    send_metrics (flaky 2) 3 [cpu_metric] authenticated_agent = Some (inr true, a')
    /\ batch_sends (calls a') = 3%nat
    /\ logins (calls a') = (logins (calls authenticated_agent) + 2)%nat.
Proof.
  eexists. split; [vm_compute; reflexivity |]. split; reflexivity.
Qed.

(** The agent of [fresh_agent] once running, with a shutdown signal due two
    seconds into the wait. *)
Lemma wait_interrupted_by_signal_witness :
  exists (a' : Agent) (steps : Z),
    _wait_for_next_cycle 121
      (set_running true (ZenMonAgent_init example_config 0 (Some (seconds 2))))
    = Some (inr tt, a')
    /\ running a' = false
    /\ now a' = seconds steps
    /\ seconds 2 <= now a' < seconds 3
    /\ steps < 120.
Proof.
  destruct (wait_interrupted_by_signal (flaky 0) (ret []) 121
              (set_running true (ZenMonAgent_init example_config 0 (Some (seconds 2))))
              120 (seconds 2))
    as (a' & steps & Hrun & Hstop & _ & Hnow & Hwin & Hearly & _).
  - reflexivity.
  - reflexivity.
  - reflexivity.
  - vm_compute. split; [reflexivity | discriminate].
  - reflexivity.
  - exists a', steps. split; [exact Hrun |]. split; [exact Hstop |].
    split; [exact Hnow |]. split; [exact Hwin |].
    apply Hearly. vm_compute. discriminate.
Defined.



(** Start-up against a service that rejects the login. *)
Lemma main_initial_authentication_failure_witness :
  exists a' : Agent,
    main rejecting_service (ret [cpu_metric]) (fun _ => Some 10) 100
      ["zenmon-agent-python-v2.0.py"; "http://localhost:8001/api"; "10"; "admin"; "wrong"]
      0 None
    = Some (0, Some a')
    /\ running a' = false
    /\ List.length (calls a') = 1%nat.
Proof.
  set (a' := snd (authenticate rejecting_service
                    (ZenMonAgent_init
                       (default_config "http://localhost:8001/api" 10 "admin" "wrong")
                       0 None))).
  destruct (main_initial_authentication_failure rejecting_service (ret [cpu_metric])
              (fun _ => Some 10) 100
              "zenmon-agent-python-v2.0.py" "http://localhost:8001/api" "10" "admin" "wrong"
              10 0 None a')
    as (Hmain & Hstop & Hcalls).
  - reflexivity.
  - reflexivity.
  - exists a'. split; [exact Hmain |]. split; [exact Hstop |].
    rewrite Hcalls. reflexivity.
Defined.

(** * Further properties of the token manager and the API client *)

Section Client.

Variable transport : Transport.

(** X1. [authenticate] returns [True] exactly when the login call returned a
    200 response whose JSON body has [token], [user.id] and [user.login] and
    whose token can be sliced.  The token of the response is then the current
    token, it expires one session lifetime (480 minutes) after the call
    returned, and the Authorization header carries it; nothing of a previous
    token is kept. *)
Theorem authenticate_success_iff (a : Agent) :
  exists (b : bool) (a' : Agent),
    authenticate transport a = (inr b, a')
    /\ (b = true <->
        exists r tok uid uname,
          outcome (transport (calls a) (login_request a)) = inr r
          /\ login_fields r = Some (tok, uid, uname)
          /\ sliceable tok = true)
    /\ (b = true ->
        exists r tok uid uname,
          outcome (transport (calls a) (login_request a)) = inr r
          /\ login_fields r = Some (tok, uid, uname)
          /\ current_token a' = Some (mkAuthToken tok (now a' + session_lifetime) uid uname)
          /\ authorization a' = Some tok
          /\ now a' = now a + Z.of_nat (elapsed (transport (calls a) (login_request a)))).
Proof.
  rewrite authenticate_eq. cbv zeta.
  set (o := transport (calls a) (login_request a)).
  destruct (after_call_frame o (login_request a) a) as (_ & _ & _ & _ & _ & _ & Hnow).
  destruct (outcome o) as [e | r].
  - exists false. eexists. split; [reflexivity |]. split.
    + split; [discriminate |]. intros (r & tok & uid & uname & H & _). discriminate.
    + discriminate.
  - destruct (login_fields r) as [[[tok uid] uname] |] eqn:Hf.
    + exists (sliceable tok). eexists. split; [reflexivity |]. split.
      * split.
        -- intros Hs. exists r, tok, uid, uname. auto.
        -- intros (r' & tok' & uid' & uname' & Hr & Hf' & Hs).
           injection Hr as <-. rewrite Hf in Hf'. injection Hf' as <- _ _. exact Hs.
      * intros _. exists r, tok, uid, uname. cbn. auto.
    + exists false. eexists. split; [reflexivity |]. split.
      * split; [discriminate |]. intros (r' & tok & uid & uname & Hr & Hf' & _).
        injection Hr as <-. rewrite Hf in Hf'. discriminate.
      * discriminate.
Qed.

(** The steps of [send_metrics] on a non-empty batch. *)
Lemma send_metrics_eq (fuel : nat) (m : pyval) (ms : list pyval) (a : Agent) :
  send_metrics transport (S fuel) (m :: ms) a =
  match refresh_token_if_needed transport a with
  | (inl e, a1) => Some (inl e, a1)
  | (inr false, a1) => Some (inr false, a1)
  | (inr true, a1) =>
      match session_send transport POST MetricsBatch (m :: ms) a1 with
      | (inl _, a2) => Some (inr false, a2)
      | (inr response, a2) =>
          if (status_code response =? 200) || (status_code response =? 201)
          then Some (inr true, a2)
          else if status_code response =? 401
               then match authenticate transport a2 with
                    | (inr true, a3) => caught (send_metrics transport fuel (m :: ms) a3)
                    | (_, a3) => Some (inr false, a3)
                    end
               else Some (inr false, a2)
      end
  end.
Proof.
  cbn [send_metrics is_empty]. run_py.
  destruct (refresh_token_if_needed transport a) as [[e | [|]] a1]; try reflexivity.
  cbn [negb]. run_py.
  destruct (session_send transport POST MetricsBatch (m :: ms) a1) as [[e | response] a2].
  - destruct e; reflexivity.
  - run_py.
    destruct ((status_code response =? 200) || (status_code response =? 201));
      [reflexivity |].
    destruct (status_code response =? 401).
    + run_py. destruct (authenticate transport a2) as [[e | [|]] a3].
      * destruct e; reflexivity.
      * unfold caught.
        destruct (send_metrics transport fuel (m :: ms) a3) as [[[e | v] a4] |];
          try reflexivity.
        destruct e; reflexivity.
      * reflexivity.
    + destruct (status_code response =? 422); reflexivity.
Qed.

(** X2. When the token gate passes and the batch POST ends in anything but a
    401 response (another status, a timeout, a connection error, any
    exception), [send_metrics] has made exactly that one request and returns
    in the state it left; the result is [True] exactly when the response
    status is 200 or 201. *)
Theorem send_metrics_single_attempt (fuel : nat) (metrics : list pyval) (a a1 a2 : Agent)
    (o : result Response) :
  metrics <> [] ->
  refresh_token_if_needed transport a = (inr true, a1) ->
  session_send transport POST MetricsBatch metrics a1 = (o, a2) ->
  (forall r, o = inr r -> status_code r <> 401) ->
  exists b : bool,
    send_metrics transport (S fuel) metrics a = Some (inr b, a2)
    /\ calls a2 = calls a1 ++ [batch_request metrics a1]
    /\ (b = true <-> exists r, o = inr r /\ (status_code r = 200 \/ status_code r = 201)).
Proof.
  intros Hne Hgate Hsend Hnot401.
  destruct metrics as [| m ms]; [congruence |].
  rewrite send_metrics_eq, Hgate, Hsend.
  assert (Hcalls : calls a2 = calls a1 ++ [batch_request (m :: ms) a1]).
  { rewrite session_send_eq in Hsend. cbv zeta in Hsend. injection Hsend as _ <-.
    fold (batch_request (m :: ms) a1).
    apply (after_call_frame (transport (calls a1) (batch_request (m :: ms) a1))). }
  destruct o as [e | r].
  - exists false. split; [reflexivity |]. split; [exact Hcalls |].
    split; [discriminate |]. intros (r & Hr & _). discriminate.
  - destruct (Z.eqb_spec (status_code r) 200) as [H200 | H200].
    + exists true. split; [reflexivity |]. split; [exact Hcalls |].
      split; [intros _; exists r; auto | reflexivity].
    + destruct (Z.eqb_spec (status_code r) 201) as [H201 | H201].
      * exists true. split; [reflexivity |]. split; [exact Hcalls |].
        split; [intros _; exists r; auto | reflexivity].
      * cbn [orb].
        destruct (Z.eqb_spec (status_code r) 401) as [H401 | H401];
          [exfalso; exact (Hnot401 r eq_refl H401) |].
        exists false. split; [reflexivity |]. split; [exact Hcalls |].
        split; [discriminate |]. intros (r' & Hr & [H | H]); injection Hr as <-; lia.
Qed.

(** X3. [send_metrics] lets an exception out in one situation only: the
    batch is not empty, a refresh is due, and the current token cannot be
    sliced; the exception is then the [TypeError] of the token gate, raised
    before any request.  In particular it never raises while the current token
    (if any) is a string. *)
Theorem send_metrics_raises_only_at_gate (fuel : nat) (metrics : list pyval)
    (a a' : Agent) (r : result bool) :
  send_metrics transport fuel metrics a = Some (r, a') ->
  (exists b, r = inr b)
  \/ (r = inl TypeError /\ a' = a /\ metrics <> []
      /\ needs_refresh a = true /\ token_sliceable a = false).
Proof.
  destruct fuel as [| fuel]; [discriminate |].
  destruct metrics as [| m ms].
  - cbn. intros H. injection H as <- _. left. exists true. reflexivity.
  - rewrite send_metrics_eq.
    destruct (token_sliceable a) eqn:Hs.
    + rewrite (refresh_token_if_needed_eq transport a Hs).
      assert (Hgate : exists b a1,
                 (if needs_refresh a then authenticate transport a else (inr true, a))
                 = (inr b, a1)).
      { destruct (needs_refresh a); [| exists true, a; reflexivity].
        destruct (authenticate_frame transport a) as (b & a1 & Ha & _).
        exists b, a1. exact Ha. }
      destruct Hgate as (b & a1 & ->). intros H. left.
      destruct b; [| injection H as <- _; exists false; reflexivity].
      destruct (session_send transport POST MetricsBatch (m :: ms) a1)
        as [[e | response] a2]; [injection H as <- _; exists false; reflexivity |].
      destruct ((status_code response =? 200) || (status_code response =? 201));
        [injection H as <- _; exists true; reflexivity |].
      destruct (status_code response =? 401);
        [| injection H as <- _; exists false; reflexivity].
      destruct (authenticate transport a2) as [[e | [|]] a3];
        try (injection H as <- _; exists false; reflexivity).
      unfold caught in H.
      destruct (send_metrics transport fuel (m :: ms) a3) as [[[e | v] a4] |];
        [injection H as <- _; exists false; reflexivity
        | injection H as <- _; exists v; reflexivity
        | discriminate].
    + unfold refresh_token_if_needed. run_py.
      unfold token_sliceable, sliceable in Hs.
      destruct (current_token a) as [t |] eqn:Ht; [| discriminate].
      destruct (Qle_bool (float_div_int (total_seconds_float (expires_at t - now a)) 60)
                  (nearest_double (token_refresh_margin (config a)) 60)) eqn:Hn.
      * destruct (slice (token t)) as [e | []] eqn:Hsl; [| discriminate].
        assert (e = TypeError) by (unfold slice in Hsl; destruct (token t); congruence).
        subst e. run_py. intros H. injection H as <- <-. right.
        repeat split; try discriminate.
        unfold needs_refresh. rewrite Ht. exact Hn.
      * intros H. left.
        destruct (session_send transport POST MetricsBatch (m :: ms) a)
          as [[e | response] a2]; [injection H as <- _; exists false; reflexivity |].
        destruct ((status_code response =? 200) || (status_code response =? 201));
          [injection H as <- _; exists true; reflexivity |].
        destruct (status_code response =? 401);
          [| injection H as <- _; exists false; reflexivity].
        destruct (authenticate transport a2) as [[e | [|]] a3];
          try (injection H as <- _; exists false; reflexivity).
        unfold caught in H.
        destruct (send_metrics transport fuel (m :: ms) a3) as [[[e | v] a4] |];
          [injection H as <- _; exists false; reflexivity
          | injection H as <- _; exists v; reflexivity
          | discriminate].
Qed.

End Client.

Section Heartbeat.

Variable transport : Transport.

(** The token gate leaves the configuration and the timestamps of the loop
    alone, and the clock does not go back. *)
Lemma refresh_token_if_needed_frame (a a1 : Agent) (r : result bool) :
  refresh_token_if_needed transport a = (r, a1) ->
  config a1 = config a
  /\ last_heartbeat a1 = last_heartbeat a
  /\ last_config_refresh a1 = last_config_refresh a
  /\ now a <= now a1.
Proof.
  intros Hr.
  destruct (refresh_token_if_needed_cases transport a) as [H | [H | H]]; rewrite H in Hr.
  - destruct (authenticate_frame transport a) as (b & a' & Ha & _ & Hc & Hh & Hl & Hn).
    rewrite Ha in Hr. injection Hr as _ <-. auto.
  - injection Hr as _ <-. repeat split; lia.
  - injection Hr as _ <-. repeat split; lia.
Qed.

Lemma send_heartbeat_eq (a : Agent) :
  send_heartbeat transport a =
  match refresh_token_if_needed transport a with
  | (inl e, a1) => (inl e, a1)
  | (inr false, a1) => (inr false, a1)
  | (inr true, a1) =>
      (inr (accepted (outcome (transport (calls a1) (heartbeat_request a1)))),
       after_call (transport (calls a1) (heartbeat_request a1)) (heartbeat_request a1) a1)
  end.
Proof.
  unfold send_heartbeat. run_py.
  destruct (refresh_token_if_needed transport a) as [[e | [|]] a1]; try reflexivity.
  cbn [negb]. run_py. rewrite session_send_eq. cbv zeta.
  fold (heartbeat_request a1). unfold accepted.
  destruct (transport (calls a1) (heartbeat_request a1)) as [d [e | r]]; cbn [outcome];
    [reflexivity |].
  destruct ((status_code r =? 200) || (status_code r =? 201)); reflexivity.
Qed.

(** X4. [send_heartbeat] makes at most one heartbeat POST.  When the token
    gate reports failure nothing is posted and the result is [False]; when it
    passes, the POST is the last request made whatever the answer (no retry
    and no re-authentication, also on a 401), and the result is [True] exactly
    when the response status is 200 or 201. *)
Theorem send_heartbeat_spec (a : Agent) :
  (forall a1, refresh_token_if_needed transport a = (inr false, a1) ->
              send_heartbeat transport a = (inr false, a1)
              /\ calls a1 = calls a ++ [login_request a])
  /\ (forall a1, refresh_token_if_needed transport a = (inr true, a1) ->
        exists (b : bool) (a2 : Agent),
          send_heartbeat transport a = (inr b, a2)
          /\ calls a2 = calls a1 ++ [heartbeat_request a1]
          /\ current_token a2 = current_token a1
          /\ (b = true <->
              exists r, outcome (transport (calls a1) (heartbeat_request a1)) = inr r
                        /\ (status_code r = 200 \/ status_code r = 201))).
Proof.
  split; intros a1 Hgate; rewrite send_heartbeat_eq, Hgate.
  - split; [reflexivity |]. exact (refresh_token_if_needed_failed transport a a1 Hgate).
  - eexists. eexists. split; [reflexivity |].
    destruct (after_call_frame (transport (calls a1) (heartbeat_request a1))
                (heartbeat_request a1) a1) as (_ & Ht & _ & _ & _ & Hc & _).
    split; [exact Hc |]. split; [exact Ht |].
    unfold accepted.
    destruct (outcome (transport (calls a1) (heartbeat_request a1))) as [e | r].
    + split; [discriminate |]. intros (r & Hr & _). discriminate.
    + rewrite orb_true_iff, !Z.eqb_eq. split.
      * intros H. exists r. auto.
      * intros (r' & Hr & H). injection Hr as <-. exact H.
Qed.

Lemma send_heartbeat_frame (a a1 : Agent) (r : result bool) :
  send_heartbeat transport a = (r, a1) ->
  config a1 = config a
  /\ last_heartbeat a1 = last_heartbeat a
  /\ last_config_refresh a1 = last_config_refresh a
  /\ now a <= now a1.
Proof.
  rewrite send_heartbeat_eq.
  destruct (refresh_token_if_needed transport a) as [[e | [|]] a0] eqn:Hgate;
    destruct (refresh_token_if_needed_frame a a0 _ Hgate) as (Hc & Hh & Hl & Hn);
    intros H; injection H as _ <-; auto.
  destruct (after_call_frame (transport (calls a0) (heartbeat_request a0))
              (heartbeat_request a0) a0) as (Hc' & _ & _ & Hh' & Hl' & _ & Hn').
  rewrite Hc', Hh', Hl', Hn'. repeat split; try assumption. lia.
Qed.

Lemma _should_send_heartbeat_eq (a : Agent) :
  _should_send_heartbeat a = (inr (heartbeat_interval <=? now a - last_heartbeat a), a).
Proof. reflexivity. Qed.

(** X6. [_send_heartbeat] never raises.  After a heartbeat that succeeded the
    last-heartbeat time is the current time, so no heartbeat is due just after;
    after one that failed (or raised) the last-heartbeat time is what it was,
    so a heartbeat that was due is still due on the next pass of the loop. *)
Theorem _send_heartbeat_spec (a a1 : Agent) (r : result bool) :
  send_heartbeat transport a = (r, a1) ->
  exists a' : Agent,
    _send_heartbeat transport a = (inr tt, a')
    /\ (r = inr true ->
        a' = set_last_heartbeat (now a1) a1
        /\ _should_send_heartbeat a' = (inr false, a'))
    /\ (r <> inr true ->
        a' = a1
        /\ last_heartbeat a' = last_heartbeat a
        /\ (_should_send_heartbeat a = (inr true, a) ->
            _should_send_heartbeat a' = (inr true, a'))).
Proof.
  intros Hsend.
  destruct (send_heartbeat_frame a a1 r Hsend) as (_ & Hh & _ & Hn).
  unfold _send_heartbeat. run_py. rewrite Hsend.
  destruct r as [e | [|]].
  - exists a1. split; [reflexivity |]. split; [discriminate |]. intros _.
    split; [reflexivity |]. split; [exact Hh |].
    rewrite !_should_send_heartbeat_eq, Hh. intros H. injection H as H.
    apply Z.leb_le in H. f_equal. f_equal. apply Z.leb_le. lia.
  - eexists. split; [reflexivity |]. split.
    + intros _. split; [reflexivity |]. rewrite _should_send_heartbeat_eq. cbn.
      rewrite Z.sub_diag. reflexivity.
    + intros H. congruence.
  - exists a1. split; [reflexivity |]. split; [discriminate |]. intros _.
    split; [reflexivity |]. split; [exact Hh |].
    rewrite !_should_send_heartbeat_eq, Hh. intros H. injection H as H.
    apply Z.leb_le in H. f_equal. f_equal. apply Z.leb_le. lia.
Qed.

(** X5. [get_agent_configuration] makes at most one request.  When the token
    gate reports failure it makes none and returns [None]; when the gate
    passes it returns the JSON body of a 200 response and [None] in every
    other case (another status, a body that is not JSON, a timeout or any
    other exception), in the state the GET left. *)
Theorem get_agent_configuration_spec (a : Agent) :
  (forall a1, refresh_token_if_needed transport a = (inr false, a1) ->
              get_agent_configuration transport a = (inr PNone, a1)
              /\ calls a1 = calls a ++ [login_request a])
  /\ (forall a1, refresh_token_if_needed transport a = (inr true, a1) ->
        exists (v : pyval) (a2 : Agent),
          get_agent_configuration transport a = (inr v, a2)
          /\ calls a2 = calls a1 ++ [configuration_request a1]
          /\ (forall r body,
                 outcome (transport (calls a1) (configuration_request a1)) = inr r ->
                 status_code r = 200 -> json_body r = Some body -> v = body)
          /\ (v <> PNone ->
              exists r, outcome (transport (calls a1) (configuration_request a1)) = inr r
                        /\ status_code r = 200 /\ json_body r = Some v)).
Proof.
  split; intros a1 Hgate; unfold get_agent_configuration; run_py; rewrite Hgate.
  - split; [reflexivity |]. exact (refresh_token_if_needed_failed transport a a1 Hgate).
  - cbn [negb]. rewrite session_send_eq. cbv zeta. fold (configuration_request a1).
    set (o := transport (calls a1) (configuration_request a1)).
    pose proof (after_call_frame o (configuration_request a1) a1)
      as (_ & _ & _ & _ & _ & Hc & _).
    clearbody o. destruct o as [d [e | r]]; cbv beta iota delta [outcome].
    + exists PNone. eexists. split; [reflexivity |]. split; [exact Hc |].
      split; [intros r body Hr; discriminate Hr | congruence].
    + destruct (Z.eqb_spec (status_code r) 200) as [H200 | H200].
      * destruct (json_body r) as [body |] eqn:Hb.
        -- exists body. eexists. split; [reflexivity |]. split; [exact Hc |]. split.
           ++ intros r' body' Hr _ Hb'. injection Hr as <-. congruence.
           ++ intros _. exists r. auto.
        -- exists PNone. eexists. split; [reflexivity |]. split; [exact Hc |]. split.
           ++ intros r' body' Hr _ Hb'. injection Hr as <-. congruence.
           ++ congruence.
      * exists PNone. eexists. split; [reflexivity |]. split; [exact Hc |]. split.
        -- intros r' body' Hr H _. injection Hr as <-. contradiction.
        -- congruence.
Qed.

End Heartbeat.

(** * Further properties of the agent loop *)

Lemma int_lt_number (x : Z) (v : pyval) :
  (exists b, int_lt x v = inr b /\ is_number v = true)
  \/ (int_lt x v = inl TypeError /\ is_number v = false).
Proof.
  destruct v; cbn; try (right; split; reflexivity); left; eexists; split; reflexivity.
Qed.

(** A wait sends nothing and leaves the configuration and the token alone; it
    raises only at its first comparison, on an interval that is not a
    number. *)
Lemma wait_loop_result (fuel : nat) :
  forall (total_slept : Z) (a a' : Agent) (r : result unit),
    wait_loop fuel total_slept a = Some (r, a') ->
    config a' = config a
    /\ calls a' = calls a
    /\ current_token a' = current_token a
    /\ (r = inr tt
        \/ (r = inl TypeError /\ a' = a
            /\ is_number (collection_interval (config a)) = false)).
Proof.
  induction fuel as [| fuel IH]; intros slept a a' r; [discriminate |].
  cbn [wait_loop]. run_py.
  destruct (int_lt_number slept (collection_interval (config a)))
    as [(more & Hlt & Hnum) | [Hlt Hnum]]; rewrite Hlt; cbn [lift_result]; run_py.
  - destruct (more && running a).
    + unfold sleep_step. run_py.
      destruct (advance_frame (seconds 1) a) as (Hc & Ht & _ & _ & _ & Hcalls & _).
      set (a1 := advance (seconds 1) a) in *.
      assert (Hcont : wait_loop fuel (slept + 1) a1 = Some (r, a') ->
                      config a' = config a /\ calls a' = calls a
                      /\ current_token a' = current_token a
                      /\ (r = inr tt
                          \/ (r = inl TypeError /\ a' = a
                              /\ is_number (collection_interval (config a)) = false))).
      { intros Hw. destruct (IH _ _ _ _ Hw) as (Hc' & Hcalls' & Ht' & Hr).
        rewrite Hc', Hcalls', Ht'. repeat split; try assumption.
        destruct Hr as [Hr | (_ & _ & Hn)]; [left; exact Hr |].
        rewrite Hc in Hn. congruence. }
      destruct ((slept + 1) mod 30 =? 0); [| exact Hcont].
      destruct (int_lt_number (slept + 1) (collection_interval (config a1)))
        as [(b & Hb & _) | [_ Hn]]; [| rewrite Hc in Hn; congruence].
      rewrite Hb. exact Hcont.
    + intros H. injection H as <- <-. repeat split. left. reflexivity.
  - intros H. injection H as <- <-. repeat split. right. repeat split. exact Hnum.
Qed.

(** X7. With an integer collection interval [n], a running agent and no
    shutdown signal due, the wait between cycles returns normally after
    exactly [n] seconds ([0] seconds when [n] is zero or negative: the next
    cycle then starts at once), still running and without having sent any
    request. *)
Theorem wait_sleeps_whole_interval (fuel : nat) (a : Agent) (n : Z) :
  collection_interval (config a) = PInt n ->
  running a = true ->
  pending_signal a = None ->
  Z.max 0 n < Z.of_nat fuel ->
  exists a' : Agent,
    _wait_for_next_cycle fuel a = Some (inr tt, a')
    /\ now a' = now a + seconds (Z.max 0 n)
    /\ running a' = true
    /\ calls a' = calls a
    /\ config a' = config a.
Proof.
  intros Hn Hrun Hsig Hfuel. unfold _wait_for_next_cycle.
  destruct (Z_le_gt_dec 0 n) as [Hpos | Hneg].
  - destruct (wait_loop_complete n fuel 0 a Hn Hrun Hsig Hpos) as (a' & Hw & Hrun' & Hnow);
      [lia |].
    exists a'. destruct (wait_loop_result fuel 0 a a' _ Hw) as (Hc & Hcalls & _).
    split; [exact Hw |]. rewrite Z.max_r by lia. rewrite Z.sub_0_r in Hnow. auto.
  - destruct fuel as [| fuel].
    + exfalso. lia.
    + exists a. cbn [wait_loop]. run_py. rewrite Hn. cbn [int_lt lift_result]. run_py.
      replace (0 <? n) with false by (symmetry; apply Z.ltb_ge; lia).
      cbn [andb]. split; [reflexivity |]. rewrite Z.max_l by lia.
      unfold seconds. repeat split; try assumption. lia.
Qed.

Section Loop.

Variable transport : Transport.
Variable collect_all_metrics : Py (list pyval).
Variable py_int : string -> option Z.

(** A pass of the loop lets an exception out only from the wait of its
    [except] clause. *)
Lemma cycle_result (fuel : nat) (a a' : Agent) (e : exn) :
  cycle transport collect_all_metrics fuel a = Some (inl e, a') ->
  e = TypeError /\ is_number (collection_interval (config a')) = false.
Proof.
  unfold cycle, try_exceptF.
  destruct (bindF _ _ a) as [[[e0 | []] a0] |]; [| discriminate | discriminate].
  unfold _wait_for_next_cycle. intros Hw.
  destruct (wait_loop_result fuel 0 a0 a' _ Hw) as (_ & _ & _ & [H | (H & <- & Hn)]);
    [discriminate |].
  injection H as ->. auto.
Qed.

Lemma agent_loop_result (fuel : nat) :
  forall (a a' : Agent) (r : result unit),
    agent_loop transport collect_all_metrics fuel a = Some (r, a') ->
    (r = inr tt /\ running a' = false)
    \/ (r = inl TypeError /\ is_number (collection_interval (config a')) = false).
Proof.
  induction fuel as [| fuel IH]; intros a a' r; [discriminate |].
  cbn [agent_loop]. run_py.
  destruct (running a) eqn:Hrun.
  - destruct (cycle transport collect_all_metrics fuel a) as [[[e | []] a1] |] eqn:Hc.
    + intros H. injection H as <- <-. right.
      destruct (cycle_result fuel a a1 e Hc) as [-> Hn]. auto.
    + apply IH.
    + discriminate.
  - intros H. injection H as <- <-. left. auto.
Qed.

(** X8. The loop of [start] ends in two ways only: normally, with the
    running flag cleared, or with a [TypeError] from the wait between cycles,
    the collection interval being something that is not a number.  No other
    exception of a cycle (from the heartbeat, the configuration refresh, the
    collection or the transmission) leaves the loop. *)
Theorem agent_loop_ends (fuel : nat) (a a' : Agent) (r : result unit) :
  agent_loop transport collect_all_metrics fuel a = Some (r, a') ->
  (r = inr tt /\ running a' = false)
  \/ (r = inl TypeError /\ is_number (collection_interval (config a')) = false).
Proof.
  revert a a' r. induction fuel as [| fuel IH]; intros a a' r; [discriminate |].
  cbn [agent_loop]. run_py.
  destruct (running a) eqn:Hrun.
  - destruct (cycle transport collect_all_metrics fuel a) as [[[e | []] a1] |] eqn:Hc.
    + intros H. injection H as <- <-. right.
      destruct (cycle_result fuel a a1 e Hc) as [-> Hn]. auto.
    + apply IH.
    + discriminate.
  - intros H. injection H as <- <-. left. auto.
Qed.

End Loop.

Section Main.

Variable transport : Transport.
Variable collect_all_metrics : Py (list pyval).
Variable py_int : string -> option Z.

Lemma update_from_api_non_dict (v : pyval) (a : Agent) :
  is_dict v = false -> update_from_api v a = (inl AttributeError, a).
Proof.
  destruct v; try discriminate; intros _; reflexivity.
Qed.

Lemma get_agent_configuration_no_raise (a : Agent) :
  token_sliceable a = true ->
  exists (v : pyval) (a2 : Agent), get_agent_configuration transport a = (inr v, a2).
Proof.
  intros Hs. unfold get_agent_configuration. run_py.
  rewrite (refresh_token_if_needed_eq transport a Hs).
  assert (Hgate : exists b a1,
             (if needs_refresh a then authenticate transport a else (inr true, a))
             = (inr b, a1)).
  { destruct (needs_refresh a); [| exists true, a; reflexivity].
    destruct (authenticate_frame transport a) as (b & a1 & Ha & _).
    exists b, a1. exact Ha. }
  destruct Hgate as (b & a1 & ->).
  destruct b; cbn [negb]; [| eexists; eexists; reflexivity].
  destruct (session_send transport GET (Configuration (host_id (config a1))) [] a1)
    as [[e | r] a2]; [eexists; eexists; reflexivity |].
  destruct (status_code r =? 200); [| eexists; eexists; reflexivity].
  destruct (json_body r); eexists; eexists; reflexivity.
Qed.

(** X10. How [main] can end once the agent is built.  It ends with status 0
    only with the running flag cleared (the initial login failed, or the loop
    was stopped).  It ends with status 1 in two cases only: the initial
    configuration fetch returned a truthy value that is not an object
    ([update_from_api] raises), or the collection interval in force is not a
    number (the wait raises). *)
Theorem main_exit_status (fuel : nat) (prog url host user pw : string) (h t0 : Z)
    (signal : option Z) (status : Z) (a' : Agent) :
  py_int host = Some h ->
  main transport collect_all_metrics py_int fuel [prog; url; host; user; pw] t0 signal
  = Some (status, Some a') ->
  (status = 0 /\ running a' = false)
  \/ (status = 1
      /\ (is_number (collection_interval (config a')) = false
          \/ exists a1 v,
               get_agent_configuration transport a1 = (inr v, a')
               /\ truthy v = true /\ is_dict v = false)).
Proof.
  intros Hh. unfold main. rewrite Hh.
  set (a0 := ZenMonAgent_init (default_config url h user pw) t0 signal).
  unfold start. run_py.
  destruct (authenticate_frame transport a0) as (ok & a1 & Ha & _).
  pose proof (authenticate_stopped transport a0 eq_refl) as Hstop.
  rewrite Ha in *. cbn [snd] in Hstop.
  destruct ok; cbn [negb].
  - assert (Hs : token_sliceable (set_running true a1) = true).
    { destruct (authenticate_success transport a0 a1 Ha) as (t & Ht & _ & Hsl & _).
      unfold token_sliceable. cbn. rewrite Ht. exact Hsl. }
    destruct (get_agent_configuration_no_raise (set_running true a1) Hs)
      as (v & a2 & Hget).
    rewrite Hget.
    destruct (truthy v) eqn:Hv.
    + destruct (is_dict v) eqn:Hd.
      * destruct v; try discriminate. rewrite update_from_api_eq.
        destruct (agent_loop transport collect_all_metrics fuel _)
          as [[[e | []] a3] |] eqn:Hloop; [| | discriminate].
        -- destruct (agent_loop_result transport collect_all_metrics fuel _ _ _ Hloop)
             as [[H _] | [_ Hn]]; [discriminate |].
           intros H. injection H as <- <-. right. auto.
        -- destruct (agent_loop_result transport collect_all_metrics fuel _ _ _ Hloop)
             as [[_ Hr] | [H _]]; [| discriminate].
           intros H. injection H as <- <-. left. auto.
      * rewrite (update_from_api_non_dict v a2 Hd).
        intros H. injection H as <- <-. right. split; [reflexivity |]. right.
        exists (set_running true a1), v. auto.
    + destruct (agent_loop transport collect_all_metrics fuel a2)
        as [[[e | []] a3] |] eqn:Hloop; [| | discriminate].
      * destruct (agent_loop_result transport collect_all_metrics fuel _ _ _ Hloop)
          as [[H _] | [_ Hn]]; [discriminate |].
        intros H. injection H as <- <-. right. auto.
      * destruct (agent_loop_result transport collect_all_metrics fuel _ _ _ Hloop)
          as [[_ Hr] | [H _]]; [| discriminate].
        intros H. injection H as <- <-. left. auto.
  - intros H. injection H as <- <-. left. auto.
Qed.

End Main.

(** * Properties of the metrics collector *)

Lemma collection_frame_refl (a : Agent) : collection_frame a a.
Proof. split; reflexivity. Qed.

Lemma collection_frame_trans (a b c : Agent) :
  collection_frame a b -> collection_frame b c -> collection_frame a c.
Proof. intros [H1 H2] [H3 H4]. split; congruence. Qed.

Lemma collection_frame_advance (d : Z) (a : Agent) : collection_frame a (advance d a).
Proof.
  destruct (advance_frame d a) as (Hc & _ & _ & _ & _ & Hcalls & _).
  split; [exact Hc | rewrite Hcalls; reflexivity].
Qed.

Lemma metric_type_id_of_metric_data (host : Host) (a : Agent) (id : Z) (v info : pyval) :
  metric_type_id_of (metric_data host a id v info) = Some id
  /\ truthy (metric_data host a id v info) = true.
Proof. split; reflexivity. Qed.

Section CollectorFacts.

Variable transport : Transport.
Variable host : Host.

Lemma collect_cpu_metric_cases (a : Agent) :
  exists m a', collect_cpu_metric host a = (inr m, a')
               /\ metric_or_none 1 m /\ collection_frame a a'.
Proof.
  unfold collect_cpu_metric, run_sample. run_py.
  destruct (cpu_sample host (now a)) as [d [e | [v info]]]; cbn [fst snd].
  - eexists. eexists. split; [reflexivity |]. split; [left; reflexivity |].
    apply collection_frame_advance.
  - eexists. eexists. split; [reflexivity |]. split; [right; split; reflexivity |].
    apply collection_frame_advance.
Qed.

Lemma collect_memory_metric_cases (a : Agent) :
  exists m a', collect_memory_metric host a = (inr m, a')
               /\ metric_or_none 2 m /\ collection_frame a a'.
Proof.
  unfold collect_memory_metric, run_sample. run_py.
  destruct (memory_sample host (now a)) as [d [e | [v info]]]; cbn [fst snd].
  - eexists. eexists. split; [reflexivity |]. split; [left; reflexivity |].
    apply collection_frame_advance.
  - eexists. eexists. split; [reflexivity |]. split; [right; split; reflexivity |].
    apply collection_frame_advance.
Qed.

Lemma collect_network_metric_cases (url : string) (a : Agent) :
  exists m a', collect_network_metric host url a = (inr m, a')
               /\ metric_or_none 3 m /\ collection_frame a a'.
Proof.
  unfold collect_network_metric, run_sample. run_py.
  destruct (health_probe host url (now a)) as [d [e | status]]; cbn [fst snd].
  - destruct e; eexists; eexists; (split; [reflexivity |]);
      (split; [first [left; reflexivity | right; split; reflexivity] |]);
      apply collection_frame_advance.
  - eexists. eexists. split; [reflexivity |]. split; [right; split; reflexivity |].
    apply collection_frame_advance.
Qed.

Lemma _collect_single_storage_metric_cases (path : string) (id : Z) (name : string)
    (a : Agent) :
  exists m a', _collect_single_storage_metric host path id name a = (inr m, a')
               /\ metric_or_none id m /\ collection_frame a a'.
Proof.
  unfold _collect_single_storage_metric, run_sample. run_py.
  destruct (disk_usage host path (now a)) as [d [e | [v fields]]]; cbn [fst snd].
  - eexists. eexists. split; [reflexivity |]. split; [left; reflexivity |].
    apply collection_frame_advance.
  - eexists. eexists. split; [reflexivity |]. split; [right; split; reflexivity |].
    apply collection_frame_advance.
Qed.

End CollectorFacts.

Section Directories.

Variable transport : Transport.

Lemma refresh_token_if_needed_collection_frame (a a1 : Agent) (r : result bool) :
  refresh_token_if_needed transport a = (r, a1) -> collection_frame a a1.
Proof.
  intros Hr. split.
  - apply (refresh_token_if_needed_frame transport a a1 r Hr).
  - pose proof (refresh_token_if_needed_no_batch transport a) as H.
    rewrite Hr in H. exact H.
Qed.

Lemma after_call_collection_frame (o : Outcome) (req : Request) (a : Agent) :
  is_batch req = false -> collection_frame a (after_call o req a).
Proof.
  intros Hb. destruct (after_call_frame o req a) as (Hc & _ & _ & _ & _ & Hcalls & _).
  split; [exact Hc |]. rewrite Hcalls, batch_sends_app, Hb. lia.
Qed.

Lemma refresh_token_if_needed_raise (a a1 : Agent) (e : exn) :
  refresh_token_if_needed transport a = (inl e, a1) -> e = TypeError /\ a1 = a.
Proof.
  intros Hr.
  destruct (refresh_token_if_needed_cases transport a) as [H | [H | H]]; rewrite H in Hr.
  - destruct (authenticate_frame transport a) as (b & a' & Ha & _).
    rewrite Ha in Hr. discriminate.
  - discriminate.
  - injection Hr as <- <-. auto.
Qed.

(** The outcomes of [get_monitored_directories]. *)
Lemma get_monitored_directories_cases (a : Agent) :
  exists r a',
    get_monitored_directories transport a = (r, a')
    /\ collection_frame a a'
    /\ ((r = inl TypeError /\ a' = a
         /\ refresh_token_if_needed transport a = (inl TypeError, a))
        \/ r = inr fallback_directories
        \/ exists a1 response items,
             refresh_token_if_needed transport a = (inr true, a1)
             /\ outcome (transport (calls a1) (directories_request a1)) = inr response
             /\ status_code response = 200
             /\ json_body response = Some (PDict items)
             /\ r = inr (payload_value items "directories" (PList []))
             /\ calls a' = calls a1 ++ [directories_request a1]).
Proof.
  unfold get_monitored_directories. run_monad.
  destruct (refresh_token_if_needed transport a) as [[e | ok] a1] eqn:Hgate.
  - destruct (refresh_token_if_needed_raise a a1 e Hgate) as [-> ->].
    eexists. eexists. split; [reflexivity |]. split; [apply collection_frame_refl |].
    left. auto.
  - pose proof (refresh_token_if_needed_collection_frame a a1 _ Hgate) as Hframe.
    destruct ok; cbn [negb].
    + rewrite session_send_eq. cbv zeta. fold (directories_request a1).
      set (o := transport (calls a1) (directories_request a1)).
      pose proof (after_call_collection_frame o (directories_request a1) a1 eq_refl)
        as Hframe2.
      pose proof (collection_frame_trans _ _ _ Hframe Hframe2) as Hf.
      pose proof (after_call_frame o (directories_request a1) a1)
        as (_ & _ & _ & _ & _ & Hcalls & _).
      assert (Hfb : exists r a',
                 (@inr exn pyval fallback_directories,
                  after_call o (directories_request a1) a1) = (r, a')
                 /\ collection_frame a a'
                 /\ ((r = inl TypeError /\ a' = a
                      /\ (@inr exn bool true, a1) = (inl TypeError, a))
                     \/ r = inr fallback_directories
                     \/ exists a2 response items,
                          (@inr exn bool true, a1) = (inr true, a2)
                          /\ outcome (transport (calls a2) (directories_request a2))
                             = inr response
                          /\ status_code response = 200
                          /\ json_body response = Some (PDict items)
                          /\ r = inr (payload_value items "directories" (PList []))
                          /\ calls a' = calls a2 ++ [directories_request a2])).
      { eexists. eexists. split; [reflexivity |]. split; [exact Hf |]. right. left.
        reflexivity. }
      destruct (outcome o) as [e | response] eqn:Ho; [exact Hfb |].
      destruct (Z.eqb_spec (status_code response) 200) as [H200 | H200]; [| exact Hfb].
      destruct (json_body response) as [body |] eqn:Hb; [| exact Hfb].
      destruct body as [ | | | | | items]; try exact Hfb.
      run_monad. rewrite !dict_get_dict. run_monad.
      destruct (payload_value items "directory_info" (PDict [])) as [ | | | | | info];
        try exact Hfb.
      unfold dict_get.
      assert (Hok : exists r a',
                 (@inr exn pyval (payload_value items "directories" (PList [])),
                  after_call o (directories_request a1) a1) = (r, a')
                 /\ collection_frame a a'
                 /\ ((r = inl TypeError /\ a' = a
                      /\ (@inr exn bool true, a1) = (inl TypeError, a))
                     \/ r = inr fallback_directories
                     \/ exists a2 response0 items0,
                          (@inr exn bool true, a1) = (inr true, a2)
                          /\ outcome (transport (calls a2) (directories_request a2))
                             = inr response0
                          /\ status_code response0 = 200
                          /\ json_body response0 = Some (PDict items0)
                          /\ r = inr (payload_value items0 "directories" (PList []))
                          /\ calls a' = calls a2 ++ [directories_request a2])).
      { eexists. eexists. split; [reflexivity |]. split; [exact Hf |]. right. right.
        exists a1, response, items. repeat split; assumption. }
      destruct (dict_lookup "fallback_used" info) as [used |]; run_monad; cbn [truthy];
        [destruct (truthy used) |]; run_monad.
      * exact Hok.
      * destruct (py_len (payload_value items "directories" (PList []))) as [e | n];
          [exact Hfb | exact Hok].
      * destruct (py_len (payload_value items "directories" (PList []))) as [e | n];
          [exact Hfb | exact Hok].
    + eexists. eexists. split; [reflexivity |]. split; [exact Hframe |]. right. left.
      reflexivity.
Qed.

(** X11. [get_monitored_directories] returns either the fixed fallback list
    or the [directories] value of a 200 response whose body is a JSON object;
    every failure (the token gate reports failure, another status, a body
    that is not an object, a malformed [directory_info], a timeout or any
    exception of the request) gives the fallback.  It raises only when the
    token gate raises, sends no batch and leaves the configuration alone. *)
Theorem get_monitored_directories_spec (a a' : Agent) (r : result pyval) :
  get_monitored_directories transport a = (r, a') ->
  config a' = config a
  /\ batch_sends (calls a') = batch_sends (calls a)
  /\ (refresh_token_if_needed transport a = (inl TypeError, a) /\ r = inl TypeError
      \/ r = inr fallback_directories
      \/ exists a1 response items,
           refresh_token_if_needed transport a = (inr true, a1)
           /\ outcome (transport (calls a1) (directories_request a1)) = inr response
           /\ status_code response = 200
           /\ json_body response = Some (PDict items)
           /\ r = inr (payload_value items "directories" (PList []))).
Proof.
  intros Hrun.
  destruct (get_monitored_directories_cases a) as (r0 & a0 & Hrun0 & [Hc Hb] & Hcases).
  rewrite Hrun in Hrun0. injection Hrun0 as <- <-.
  split; [exact Hc |]. split; [exact Hb |].
  destruct Hcases as [(Hr & _ & Hgate) | [Hr | (a1 & resp & items & H1 & H2 & H3 & H4 & H5 & _)]].
  - left. auto.
  - right. left. exact Hr.
  - right. right. exists a1, resp, items. auto.
Qed.

End Directories.

Lemma ids_within_nil (lo hi : Z) : ids_within lo hi [] [].
Proof. repeat split; constructor. Qed.

Lemma ids_within_widen (lo hi lo' hi' : Z) (ms : list pyval) (ids : list Z) :
  lo' <= lo -> hi <= hi' -> ids_within lo hi ms ids -> ids_within lo' hi' ms ids.
Proof.
  intros Hlo Hhi (Hm & Hs & Hf). repeat split; try assumption.
  eapply Forall_impl; [| exact Hf]. cbn. intros id H. lia.
Qed.

Lemma ids_within_cons (id hi : Z) (m : pyval) (ms : list pyval) (ids : list Z) :
  metric_type_id_of m = Some id -> id < hi ->
  ids_within (id + 1) hi ms ids -> ids_within id hi (m :: ms) (id :: ids).
Proof.
  intros Hm Hlt (Hms & Hs & Hf). repeat split.
  - cbn. rewrite Hm, Hms. reflexivity.
  - constructor; [exact Hs |]. eapply Forall_impl; [| exact Hf]. cbn. intros x H. lia.
  - constructor; [lia |]. eapply Forall_impl; [| exact Hf]. cbn. intros x H. lia.
Qed.

Lemma ids_within_app (lo mid hi : Z) (ms1 ms2 : list pyval) (ids1 ids2 : list Z) :
  ids_within lo mid ms1 ids1 -> ids_within mid hi ms2 ids2 -> lo <= mid <= hi ->
  ids_within lo hi (ms1 ++ ms2) (ids1 ++ ids2).
Proof.
  intros (Hm1 & Hs1 & Hf1) (Hm2 & Hs2 & Hf2) Hle. repeat split.
  - rewrite !map_app, Hm1, Hm2. reflexivity.
  - clear Hm1 Hm2. induction Hs1 as [| x l Hs1 IH Hx]; [exact Hs2 |].
    cbn. inversion Hf1 as [| ? ? Hx1 Hf1']; subst. constructor; [apply IH; exact Hf1' |].
    apply Forall_app. split; [exact Hx |].
    eapply Forall_impl; [| exact Hf2]. cbn. intros y Hy. lia.
  - apply Forall_app. split; eapply Forall_impl; try eassumption; cbn; intros x H; lia.
Qed.

Lemma strictly_increasing_NoDup (ids : list Z) : StronglySorted Z.lt ids -> NoDup ids.
Proof.
  induction 1 as [| x l Hs IH Hx]; constructor; [| exact IH].
  intros Hin. rewrite Forall_forall in Hx. specialize (Hx x Hin). lia.
Qed.

Section Storage.

Variable transport : Transport.
Variable host : Host.

Lemma windows_loop_spec (drives : list string) :
  forall (i : Z) (acc : list pyval) (a : Agent),
  exists ms ids a',
    windows_loop host i drives acc a = (inr (acc ++ ms), a')
    /\ collection_frame a a'
    /\ ids_within (4 + i) (4 + i + Z.of_nat (List.length drives)) ms ids.
Proof.
  induction drives as [| drive rest IH]; intros i acc a.
  - exists [], [], a. cbn. rewrite app_nil_r. split; [reflexivity |].
    split; [apply collection_frame_refl | apply ids_within_nil].
  - cbn [windows_loop]. run_monad.
    destruct (_collect_single_storage_metric_cases host drive (4 + i)
                (replace_char ":" "" drive) a) as (m & a1 & -> & Hm & Hf1).
    destruct Hm as [-> | [Ht Hid]].
    + cbn [truthy]. destruct (IH (i + 1) acc a1) as (ms & ids & a' & -> & Hf2 & Hids).
      exists ms, ids, a'. split; [reflexivity |].
      split; [eapply collection_frame_trans; eassumption |].
      eapply ids_within_widen; [| | exact Hids]; cbn [List.length]; lia.
    + rewrite Ht.
      destruct (IH (i + 1) (acc ++ [m]) a1) as (ms & ids & a' & -> & Hf2 & Hids).
      exists (m :: ms), ((4 + i) :: ids), a'. rewrite <- app_assoc. split; [reflexivity |].
      split; [eapply collection_frame_trans; eassumption |].
      apply ids_within_cons; [exact Hid | cbn [List.length]; lia |].
      eapply ids_within_widen; [| | exact Hids]; cbn [List.length]; lia.
Qed.

Lemma directories_loop_spec (directories : list pyval) :
  forall (i : Z) (acc : list pyval) (a : Agent),
  exists r a',
    directories_loop host i directories acc a = (r, a')
    /\ collection_frame a a'
    /\ ((exists e, r = inl e)
        \/ exists ms ids,
             r = inr (acc ++ ms)
             /\ ids_within (4 + i) (4 + i + Z.of_nat (List.length directories)) ms ids).
Proof.
  induction directories as [| directory rest IH]; intros i acc a.
  - exists (inr acc), a. split; [reflexivity |]. split; [apply collection_frame_refl |].
    right. exists [], []. rewrite app_nil_r. split; [reflexivity | apply ids_within_nil].
  - cbn [directories_loop]. run_monad.
    destruct (path_exists host directory) as [e | found].
    + eexists. eexists. split; [reflexivity |]. split; [apply collection_frame_refl |].
      left. eexists. reflexivity.
    + destruct found.
      * destruct directory as [ | | | path | | ]; cbn [str_replace];
          try (eexists; eexists; split; [reflexivity |];
               split; [apply collection_frame_refl |]; left; eexists; reflexivity).
        destruct (_collect_single_storage_metric_cases host path (4 + i)
                    (strip_char "_" (replace_char "/" "_" path)) a)
          as (m & a1 & -> & Hm & Hf1).
        destruct Hm as [-> | [Ht Hid]].
        -- cbn [truthy].
           destruct (IH (i + 1) acc a1) as (r & a' & -> & Hf2 & Hr).
           exists r, a'. split; [reflexivity |].
           split; [eapply collection_frame_trans; eassumption |].
           destruct Hr as [He | (ms & ids & -> & Hids)]; [left; exact He |].
           right. exists ms, ids. split; [reflexivity |].
           eapply ids_within_widen; [| | exact Hids]; cbn [List.length]; lia.
        -- rewrite Ht.
           destruct (IH (i + 1) (acc ++ [m]) a1) as (r & a' & -> & Hf2 & Hr).
           exists r, a'. split; [reflexivity |].
           split; [eapply collection_frame_trans; eassumption |].
           destruct Hr as [He | (ms & ids & -> & Hids)]; [left; exact He |].
           right. exists (m :: ms), ((4 + i) :: ids). rewrite <- app_assoc.
           split; [reflexivity |].
           apply ids_within_cons; [exact Hid | cbn [List.length]; lia |].
           eapply ids_within_widen; [| | exact Hids]; cbn [List.length]; lia.
      * destruct (IH (i + 1) acc a) as (r & a' & -> & Hf2 & Hr).
        exists r, a'. split; [reflexivity |]. split; [exact Hf2 |].
        destruct Hr as [He | (ms & ids & -> & Hids)]; [left; exact He |].
        right. exists ms, ids. split; [reflexivity |].
        eapply ids_within_widen; [| | exact Hids]; cbn [List.length]; lia.
Qed.

Lemma directories_to_monitor_cases (a : Agent) :
  exists directories a1,
    directories_to_monitor transport a = (inr directories, a1) /\ collection_frame a a1.
Proof.
  unfold directories_to_monitor. run_monad.
  destruct (get_monitored_directories_cases transport a) as (r & a1 & -> & Hf1 & _).
  destruct r as [e | x]; [eexists; eexists; split; [reflexivity | exact Hf1] |].
  destruct (truthy x); [| eexists; eexists; split; [reflexivity | exact Hf1]].
  destruct (py_len x) as [e | n]; [eexists; eexists; split; [reflexivity | exact Hf1] |].
  destruct (0 <? n); eexists; eexists; (split; [reflexivity | exact Hf1]).
Qed.

(** [collect_storage_metrics] never raises; the ids of the metrics it
    returns increase strictly from 4. *)
Lemma collect_storage_metrics_cases (a : Agent) :
  exists ms ids a' hi,
    collect_storage_metrics transport host a = (inr ms, a')
    /\ collection_frame a a'
    /\ ids_within 4 hi ms ids.
Proof.
  unfold collect_storage_metrics. run_monad.
  destruct (String.eqb (platform_system host) "Windows").
  - destruct (windows_loop_spec (_get_windows_drives host) 0 [] a)
      as (ms & ids & a' & -> & Hf & Hids).
    exists ms, ids, a'. eexists. split; [reflexivity |]. split; [exact Hf |].
    exact Hids.
  - destruct (directories_to_monitor_cases a) as (directories & a1 & -> & Hf1).
    destruct (py_iter directories) as [e | items].
    + exists [], [], a1, 4. split; [reflexivity |]. split; [exact Hf1 |].
      apply ids_within_nil.
    + destruct (directories_loop_spec items 0 [] a1) as (r' & a' & Hloop & Hf2 & Hr).
      rewrite Hloop.
      destruct Hr as [(e & ->) | (ms & ids & -> & Hids)].
      * exists [], [], a', 4. split; [reflexivity |].
        split; [eapply collection_frame_trans; eassumption | apply ids_within_nil].
      * exists ms, ids, a'. eexists. split; [reflexivity |].
        split; [eapply collection_frame_trans; eassumption | exact Hids].
Qed.

End Storage.

Lemma py_sum_cases (values : list pyval) :
  forall acc,
    (forallb is_number values = true /\ exists n, py_sum acc values = inr n)
    \/ (forallb is_number values = false /\ py_sum acc values = inl TypeError).
Proof.
  induction values as [| v rest IH]; intros acc.
  - left. split; [reflexivity |]. eexists. reflexivity.
  - destruct v; cbn [py_sum forallb is_number andb]; try (right; split; reflexivity);
      apply IH.
Qed.

Lemma bind_eq {A B} (m : Py A) (k : A -> Py B) (a : Agent) :
  bind m k a = match m a with
               | (inr x, a') => k x a'
               | (inl e, a') => (inl e, a')
               end.
Proof. reflexivity. Qed.

Section CollectAll.

Variable transport : Transport.
Variable host : Host.

(** One gated single-metric step of [collect_all_metrics]. *)
Lemma gated_step (id : Z) (flag : pyval) (collector : Py pyval) (metrics : list pyval)
    (a : Agent) :
  (forall s, exists m s', collector s = (inr m, s')
                          /\ metric_or_none id m /\ collection_frame s s') ->
  exists new ids a',
    (if truthy flag
     then bind collector
            (fun m => ret (if truthy m then metrics ++ [m] else metrics))
     else ret metrics) a
    = (inr (metrics ++ new), a')
    /\ collection_frame a a'
    /\ map metric_type_id_of new = map Some ids
    /\ gated id flag ids.
Proof.
  intros Hcollector. destruct (truthy flag) eqn:Hflag.
  - run_monad. destruct (Hcollector a) as (m & a' & -> & Hm & Hf).
    destruct Hm as [-> | [Ht Hid]].
    + exists [], [], a'. cbn [truthy]. rewrite app_nil_r. split; [reflexivity |].
      split; [exact Hf |]. split; [reflexivity | left; reflexivity].
    + exists [m], [id], a'. rewrite Ht. split; [reflexivity |]. split; [exact Hf |].
      split; [cbn; rewrite Hid; reflexivity | right; auto].
  - exists [], [], a. rewrite app_nil_r. split; [reflexivity |].
    split; [apply collection_frame_refl |]. split; [reflexivity | left; reflexivity].
Qed.

(** The outcomes of [collect_all_metrics]: the metrics collected, returned
    when all four flags are numbers and dropped for a [TypeError]
    otherwise. *)
Lemma collect_all_metrics_cases (url : string) (a : Agent) :
  exists ms ids r a',
    collect_all_metrics transport host url a = (r, a')
    /\ collection_frame a a'
    /\ collected (config a) ms ids
    /\ ((forallb is_number (flags (config a)) = true /\ r = inr ms)
        \/ (forallb is_number (flags (config a)) = false /\ r = inl TypeError)).
Proof.
  unfold collect_all_metrics.
  rewrite bind_eq. unfold get_state at 1. cbv beta iota. rewrite bind_eq.
  destruct (gated_step 1 (enable_cpu_monitoring (config a)) (collect_cpu_metric host)
              [] a (collect_cpu_metric_cases host))
    as (m1 & ids1 & a1 & H1 & [Hc1 Hb1] & Hm1 & Hg1).
  cbn [app] in H1. rewrite H1. cbv beta iota.
  rewrite bind_eq. unfold get_state at 1. cbv beta iota. rewrite bind_eq.
  destruct (gated_step 2 (enable_ram_monitoring (config a1)) (collect_memory_metric host)
              m1 a1 (collect_memory_metric_cases host))
    as (m2 & ids2 & a2 & H2 & [Hc2 Hb2] & Hm2 & Hg2).
  rewrite H2. cbv beta iota.
  rewrite bind_eq. unfold get_state at 1. cbv beta iota. rewrite bind_eq.
  destruct (gated_step 3 (enable_network_monitoring (config a2))
              (collect_network_metric host url) (m1 ++ m2) a2
              (collect_network_metric_cases host url))
    as (m3 & ids3 & a3 & H3 & [Hc3 Hb3] & Hm3 & Hg3).
  rewrite H3. cbv beta iota.
  rewrite bind_eq. unfold get_state at 1. cbv beta iota. rewrite bind_eq.
  assert (H4 : exists m4 ids4 a4,
             (if truthy (enable_disk_monitoring (config a3))
              then bind (collect_storage_metrics transport host)
                     (fun storage_metrics =>
                        ret (if truthy (PList storage_metrics)
                             then ((m1 ++ m2) ++ m3) ++ storage_metrics
                             else (m1 ++ m2) ++ m3))
              else ret ((m1 ++ m2) ++ m3)) a3
             = (inr (((m1 ++ m2) ++ m3) ++ m4), a4)
             /\ collection_frame a3 a4
             /\ map metric_type_id_of m4 = map Some ids4
             /\ (ids4 = [] \/ truthy (enable_disk_monitoring (config a3)) = true)
             /\ StronglySorted Z.lt ids4
             /\ Forall (fun id => 4 <= id) ids4).
  { destruct (truthy (enable_disk_monitoring (config a3))) eqn:Hdisk.
    - rewrite bind_eq.
      destruct (collect_storage_metrics_cases transport host a3)
        as (st & ids4 & a4 & hi & -> & Hf & Hm & Hs & Hall).
      exists st, ids4, a4. split.
      + destruct st; [rewrite app_nil_r |]; reflexivity.
      + split; [exact Hf |]. split; [exact Hm |]. split; [right; reflexivity |].
        split; [exact Hs |]. eapply Forall_impl; [| exact Hall]. cbn. intros x H. lia.
    - exists [], [], a3. rewrite app_nil_r. split; [reflexivity |].
      split; [apply collection_frame_refl |]. split; [reflexivity |].
      split; [left; reflexivity |]. split; constructor. }
  destruct H4 as (m4 & ids4 & a4 & H4 & [Hc4 Hb4] & Hm4 & Hg4 & Hs4 & Hall4).
  rewrite H4. cbv beta iota.
  rewrite bind_eq. unfold get_state at 1. cbv beta iota. rewrite bind_eq.
  assert (Hcfg : config a4 = config a) by congruence.
  assert (Hframe : collection_frame a a4) by (split; congruence).
  assert (Hcollected : collected (config a) (((m1 ++ m2) ++ m3) ++ m4)
                         (ids1 ++ ids2 ++ ids3 ++ ids4)).
  { split.
    - rewrite !map_app, Hm1, Hm2, Hm3, Hm4, <- !app_assoc. reflexivity.
    - exists ids1, ids2, ids3, ids4. split; [reflexivity |].
      rewrite Hc1 in Hg2. rewrite Hc2, Hc1 in Hg3. rewrite Hc3, Hc2, Hc1 in Hg4.
      repeat split; assumption. }
  fold (flags (config a4)). rewrite Hcfg.
  exists (((m1 ++ m2) ++ m3) ++ m4), (ids1 ++ ids2 ++ ids3 ++ ids4).
  destruct (py_sum_cases (flags (config a)) 0) as [[Hnum (n & Hsum)] | [Hnum Hsum]];
    rewrite Hsum; cbn [lift_result]; run_monad.
  - eexists. eexists. split; [reflexivity |]. split; [exact Hframe |].
    split; [exact Hcollected |]. left. auto.
  - eexists. eexists. split; [reflexivity |]. split; [exact Hframe |].
    split; [exact Hcollected |]. right. auto.
Qed.

Lemma collected_sorted (c : AgentConfig) (ms : list pyval) (ids : list Z) :
  collected c ms ids -> StronglySorted Z.lt ids /\ Forall (fun id => 1 <= id) ids.
Proof.
  intros (_ & cpu & ram & net & storage & -> & Hcpu & Hram & Hnet & _ & Hs & Hall).
  assert (H4 : Forall (fun id => 3 < id) storage)
    by (eapply Forall_impl; [| exact Hall]; cbn; intros x H; lia).
  assert (H1 : Forall (fun id => 1 <= id) storage)
    by (eapply Forall_impl; [| exact Hall]; cbn; intros x H; lia).
  assert (Hnet' : StronglySorted Z.lt (net ++ storage)
                  /\ Forall (fun id => 2 < id) (net ++ storage)
                  /\ Forall (fun id => 1 <= id) (net ++ storage)).
  { destruct Hnet as [-> | [-> _]]; cbn.
    - split; [exact Hs |]. split; [| exact H1].
      eapply Forall_impl; [| exact H4]. cbn. intros x H. lia.
    - split; [constructor; assumption |].
      split; constructor; try lia; [| exact H1].
      eapply Forall_impl; [| exact H4]. cbn. intros x H. lia. }
  destruct Hnet' as (Hs3 & Hgt2 & Hge3).
  assert (Hram' : StronglySorted Z.lt (ram ++ net ++ storage)
                  /\ Forall (fun id => 1 < id) (ram ++ net ++ storage)
                  /\ Forall (fun id => 1 <= id) (ram ++ net ++ storage)).
  { destruct Hram as [-> | [-> _]]; cbn.
    - split; [exact Hs3 |]. split; [| exact Hge3].
      eapply Forall_impl; [| exact Hgt2]. cbn. intros x H. lia.
    - split; [constructor; assumption |].
      split; constructor; try lia; [| exact Hge3].
      eapply Forall_impl; [| exact Hgt2]. cbn. intros x H. lia. }
  destruct Hram' as (Hs2 & Hgt1 & Hge2).
  destruct Hcpu as [-> | [-> _]]; cbn.
  - split; assumption.
  - split; constructor; try assumption. lia.
Qed.

(** X12. [collect_storage_metrics] never raises (any failure gives the empty
    list).  The metrics it returns carry metric type ids that increase
    strictly and are all at least 4, hence pairwise distinct; it sends no batch
    and leaves the configuration alone. *)
Theorem collect_storage_metrics_ids (a : Agent) :
  exists (ms : list pyval) (ids : list Z) (a' : Agent),
    collect_storage_metrics transport host a = (inr ms, a')
    /\ map metric_type_id_of ms = map Some ids
    /\ StronglySorted Z.lt ids
    /\ NoDup ids
    /\ Forall (fun id => 4 <= id) ids
    /\ config a' = config a
    /\ batch_sends (calls a') = batch_sends (calls a).
Proof.
  destruct (collect_storage_metrics_cases transport host a)
    as (ms & ids & a' & hi & Hrun & [Hc Hb] & Hm & Hs & Hall).
  exists ms, ids, a'. split; [exact Hrun |]. split; [exact Hm |]. split; [exact Hs |].
  split; [apply strictly_increasing_NoDup; exact Hs |].
  split; [| split; assumption].
  eapply Forall_impl; [| exact Hall]. cbn. intros x H. lia.
Qed.

(** X13. In a batch [collect_all_metrics] returns, every metric carries a
    metric type id, and the ids increase strictly along the batch (CPU 1,
    memory 2, network 3, storage from 4): no two metrics of a batch share an
    id. *)
Theorem collect_all_metrics_distinct_ids (url : string) (a a' : Agent) (ms : list pyval) :
  collect_all_metrics transport host url a = (inr ms, a') ->
  exists ids : list Z,
    map metric_type_id_of ms = map Some ids
    /\ StronglySorted Z.lt ids
    /\ NoDup ids
    /\ Forall (fun id => 1 <= id) ids.
Proof.
  intros Hrun.
  destruct (collect_all_metrics_cases url a) as (ms0 & ids & r & a0 & Hrun0 & _ & Hcol & Hr).
  rewrite Hrun in Hrun0. injection Hrun0 as <- <-.
  destruct Hr as [[_ Hr] | [_ Hr]]; [| discriminate]. injection Hr as <-.
  destruct (collected_sorted _ _ _ Hcol) as [Hs Hall].
  exists ids. split; [apply Hcol |]. split; [exact Hs |].
  split; [apply strictly_increasing_NoDup; exact Hs | exact Hall].
Qed.

(** X14. The four monitoring flags gate the metric types of a batch: a
    metric with id 1 (CPU), 2 (memory), 3 (network) or an id from 4 (storage)
    is in the batch only if the flag of its type is truthy in the current
    configuration. *)
Theorem collect_all_metrics_gated (url : string) (a a' : Agent) (ms : list pyval) :
  collect_all_metrics transport host url a = (inr ms, a') ->
  exists ids : list Z,
    map metric_type_id_of ms = map Some ids
    /\ (In 1 ids -> truthy (enable_cpu_monitoring (config a)) = true)
    /\ (In 2 ids -> truthy (enable_ram_monitoring (config a)) = true)
    /\ (In 3 ids -> truthy (enable_network_monitoring (config a)) = true)
    /\ (forall id, In id ids -> 4 <= id ->
                   truthy (enable_disk_monitoring (config a)) = true).
Proof.
  intros Hrun.
  destruct (collect_all_metrics_cases url a) as (ms0 & ids & r & a0 & Hrun0 & _ & Hcol & Hr).
  rewrite Hrun in Hrun0. injection Hrun0 as <- <-.
  destruct Hr as [[_ Hr] | [_ Hr]]; [| discriminate]. injection Hr as <-.
  destruct Hcol as (Hm & cpu & ram & net & storage & -> & Hcpu & Hram & Hnet & Hdisk & _ & Hall).
  exists (cpu ++ ram ++ net ++ storage). split; [exact Hm |].
  assert (Hin : forall id, In id (cpu ++ ram ++ net ++ storage) ->
                  (id = 1 /\ truthy (enable_cpu_monitoring (config a)) = true)
                  \/ (id = 2 /\ truthy (enable_ram_monitoring (config a)) = true)
                  \/ (id = 3 /\ truthy (enable_network_monitoring (config a)) = true)
                  \/ (4 <= id /\ truthy (enable_disk_monitoring (config a)) = true)).
  { intros id Hid. rewrite !in_app_iff in Hid.
    destruct Hid as [H | [H | [H | H]]].
    - destruct Hcpu as [-> | [-> Ht]]; [contradiction |].
      destruct H as [<- | []]. auto.
    - destruct Hram as [-> | [-> Ht]]; [contradiction |].
      destruct H as [<- | []]. auto.
    - destruct Hnet as [-> | [-> Ht]]; [contradiction |].
      destruct H as [<- | []]. auto.
    - right. right. right. rewrite Forall_forall in Hall. split; [apply Hall; exact H |].
      destruct Hdisk as [-> | Ht]; [contradiction | exact Ht]. }
  repeat split.
  - intros H. destruct (Hin 1 H) as [[_ Ht] | [[E _] | [[E _] | [E _]]]]; [exact Ht | lia ..].
  - intros H. destruct (Hin 2 H) as [[E _] | [[_ Ht] | [[E _] | [E _]]]]; [lia | exact Ht | lia ..].
  - intros H. destruct (Hin 3 H) as [[E _] | [[E _] | [[_ Ht] | [E _]]]]; [lia | lia | exact Ht | lia].
  - intros id H Hge.
    destruct (Hin id H) as [[E _] | [[E _] | [[E _] | [_ Ht]]]]; [lia | lia | lia | exact Ht].
Qed.

(** X15. [collect_all_metrics] raises exactly when one of the four
    monitoring flags of the configuration is not a number (a boolean or an
    integer): the [sum] over the flags then raises [TypeError], after the
    collectors have run, and what they collected is lost.  In either case no
    batch is sent and the configuration is unchanged. *)
Theorem collect_all_metrics_raises_iff (url : string) (a a' : Agent)
    (r : result (list pyval)) :
  collect_all_metrics transport host url a = (r, a') ->
  ((exists ms, r = inr ms) <-> forallb is_number (flags (config a)) = true)
  /\ (r = inl TypeError <-> forallb is_number (flags (config a)) = false)
  /\ config a' = config a
  /\ batch_sends (calls a') = batch_sends (calls a).
Proof.
  intros Hrun.
  destruct (collect_all_metrics_cases url a)
    as (ms0 & ids & r0 & a0 & Hrun0 & [Hc Hb] & _ & Hr).
  rewrite Hrun in Hrun0. injection Hrun0 as <- <-.
  split; [| split; [| split; assumption]].
  - destruct Hr as [[Hn ->] | [Hn ->]].
    + split; [intros _; exact Hn | intros _; eexists; reflexivity].
    + split; [intros (ms & H); discriminate | congruence].
  - destruct Hr as [[Hn ->] | [Hn ->]].
    + split; [discriminate | congruence].
    + split; [intros _; exact Hn | reflexivity].
Qed.

(** X16. When a monitoring flag of the configuration is not a number (for
    instance [null] or a string put there by a remote configuration),
    [_collect_and_send_metrics] sends no batch at all: the collection raises,
    the cycle catches it and goes on. *)
Theorem _collect_and_send_metrics_non_numeric_flag (fuel : nat) (a : Agent) :
  forallb is_number (flags (config a)) = false ->
  exists a' : Agent,
    _collect_and_send_metrics transport (collect_for_agent transport host) fuel a
    = Some (inr tt, a')
    /\ batch_sends (calls a') = batch_sends (calls a)
    /\ config a' = config a.
Proof.
  intros Hn. unfold _collect_and_send_metrics, try_exceptF, bindF, liftF, collect_for_agent.
  rewrite bind_eq. unfold get_state. cbv beta iota.
  destruct (collect_all_metrics_cases (api_url (config a) ++ "/public/health")%string a)
    as (ms0 & ids & r & a' & Hrun & [Hc Hb] & _ & Hr).
  rewrite Hrun.
  destruct Hr as [[Hn' _] | [_ ->]]; [congruence |].
  exists a'. split; [reflexivity |]. split; assumption.
Qed.

(** X17. With all four monitoring flags off ([False] or 0), a collection
    does nothing: no sampler runs, no time passes, no request is made, and
    [_collect_and_send_metrics] returns in the state it was given. *)
Theorem _collect_and_send_metrics_all_disabled (fuel : nat) (a : Agent) :
  Forall (fun flag => flag = PBool false \/ flag = PInt 0) (flags (config a)) ->
  collect_for_agent transport host a = (inr [], a)
  /\ _collect_and_send_metrics transport (collect_for_agent transport host) fuel a
     = Some (inr tt, a).
Proof.
  intros Hflags. unfold flags in Hflags.
  inversion Hflags as [| ? ? Hcpu H1]; subst.
  inversion H1 as [| ? ? Hram H2]; subst.
  inversion H2 as [| ? ? Hnet H3]; subst.
  inversion H3 as [| ? ? Hdisk _]; subst.
  assert (Hrun : collect_for_agent transport host a = (inr [], a)).
  { assert (Hoff : forall flag, flag = PBool false \/ flag = PInt 0 ->
                                truthy flag = false /\ is_number flag = true)
      by (intros flag [-> | ->]; split; reflexivity).
    destruct (Hoff _ Hcpu) as [Tcpu _], (Hoff _ Hram) as [Tram _],
      (Hoff _ Hnet) as [Tnet _], (Hoff _ Hdisk) as [Tdisk _].
    unfold collect_for_agent, collect_all_metrics. run_monad.
    rewrite Tcpu. run_monad. rewrite Tram. run_monad. rewrite Tnet. run_monad.
    rewrite Tdisk. run_monad.
    destruct Hcpu as [-> | ->], Hram as [-> | ->], Hnet as [-> | ->], Hdisk as [-> | ->];
      reflexivity. }
  split; [exact Hrun |].
  unfold _collect_and_send_metrics, try_exceptF, bindF, liftF. rewrite Hrun. reflexivity.
Qed.

End CollectAll.

(** ** Drive names *)

Lemma contains_char_append (c : ascii) (s1 s2 : string) :
  contains_char c (s1 ++ s2)%string = contains_char c s1 || contains_char c s2.
Proof.
  induction s1 as [| x s1 IH]; [reflexivity |]. cbn. rewrite IH, orb_assoc. reflexivity.
Qed.

Lemma replace_char_removes (old : ascii) (new s : string) :
  contains_char old new = false -> contains_char old (replace_char old new s) = false.
Proof.
  intros Hnew. induction s as [| x s IH]; [reflexivity |]. cbn.
  destruct (Ascii.eqb x old) eqn:Hx.
  - rewrite contains_char_append, Hnew, IH. reflexivity.
  - cbn. rewrite Hx, IH. reflexivity.
Qed.

Lemma lstrip_char_first (c : ascii) (s : string) :
  first_char (lstrip_char c s) <> Some c.
Proof.
  induction s as [| x s IH]; [discriminate |]. cbn.
  destruct (Ascii.eqb_spec x c) as [E | N]; [exact IH |].
  cbn. intros H. injection H as H. contradiction.
Qed.

Lemma lstrip_char_contains (c d : ascii) (s : string) :
  contains_char d s = false -> contains_char d (lstrip_char c s) = false.
Proof.
  induction s as [| x s IH]; [reflexivity |]. cbn. intros H.
  apply orb_false_iff in H. destruct H as [Hx Hs].
  destruct (Ascii.eqb x c); [exact (IH Hs) |]. cbn. rewrite Hx, Hs. reflexivity.
Qed.

Lemma rstrip_char_spec (c d : ascii) (s : string) :
  last_char (rstrip_char c s) <> Some c
  /\ (first_char s <> Some c -> first_char (rstrip_char c s) <> Some c)
  /\ (contains_char d s = false -> contains_char d (rstrip_char c s) = false).
Proof.
  induction s as [| x s (IHlast & IHfirst & IHcontains)]; [repeat split; discriminate |].
  cbn [rstrip_char].
  destruct (rstrip_char c s) as [| y rest] eqn:Hr.
  - destruct (Ascii.eqb_spec x c) as [E | N].
    + repeat split; try discriminate; intros; reflexivity.
    + repeat split.
      * cbn. intros H. injection H as H. contradiction.
      * cbn. intros _ H. injection H as H. contradiction.
      * cbn. intros H. apply orb_false_iff in H. destruct H as [Hx _].
        rewrite Hx. reflexivity.
  - repeat split.
    + exact IHlast.
    + cbn. intros H. exact H.
    + cbn [contains_char]. intros H. apply orb_false_iff in H. destruct H as [Hx Hs].
      rewrite Hx. exact (IHcontains Hs).
Qed.

(** X18. The drive name given to a monitored directory
    ([directory.replace('/', '_').strip('_')]) contains no slash and neither
    starts nor ends with an underscore; the name given to a Windows drive
    ([drive.replace(':', '')]) contains no colon. *)
Theorem drive_name_clean (path : string) :
  contains_char "/" (strip_char "_" (replace_char "/" "_" path)) = false
  /\ first_char (strip_char "_" (replace_char "/" "_" path)) <> Some "_"%char
  /\ last_char (strip_char "_" (replace_char "/" "_" path)) <> Some "_"%char
  /\ contains_char ":" (replace_char ":" "" path) = false.
Proof.
  unfold strip_char.
  set (replaced := replace_char "/" "_" path).
  destruct (rstrip_char_spec "_" "/" (lstrip_char "_" replaced)) as (Hlast & Hfirst & Hcont).
  split; [| split; [| split]].
  - apply Hcont. apply lstrip_char_contains. apply replace_char_removes. reflexivity.
  - apply Hfirst. apply lstrip_char_first.
  - exact Hlast.
  - apply replace_char_removes. reflexivity.
Qed.

(** * Equality of values and repeated configuration updates *)

Lemma py_eq_list (xs ys : list pyval) :
  py_eq (PList xs) (PList ys) = list_eq_go py_eq xs ys.
Proof.
  cbn [py_eq]. revert ys. induction xs as [| x xs IH]; intros ys; destruct ys; cbn;
    try reflexivity. rewrite IH. reflexivity.
Qed.

Lemma py_eq_dict (xs ys : list (string * pyval)) :
  py_eq (PDict xs) (PDict ys)
  = dict_eq_go py_eq ys [] xs && forallb (fun kv => mem_key (fst kv) (map fst xs)) ys.
Proof.
  cbn [py_eq]. f_equal. generalize (@nil string).
  induction xs as [| [k v] xs IH]; intros seen; cbn; [reflexivity |].
  rewrite IH. reflexivity.
Qed.

(** An induction principle that reaches the values inside lists and dicts. *)
Lemma pyval_nested_ind (P : pyval -> Prop) :
  P PNone ->
  (forall b, P (PBool b)) ->
  (forall z, P (PInt z)) ->
  (forall s, P (PStr s)) ->
  (forall l, Forall P l -> P (PList l)) ->
  (forall items, Forall (fun kv => P (snd kv)) items -> P (PDict items)) ->
  forall v, P v.
Proof.
  intros Hnone Hbool Hint Hstr Hlist Hdict.
  fix IH 1. intros v. destruct v as [| b | z | s | l | items].
  - exact Hnone.
  - apply Hbool.
  - apply Hint.
  - apply Hstr.
  - apply Hlist. induction l as [| x l IHl]; constructor; [apply IH | exact IHl].
  - apply Hdict. induction items as [| [k x] items IHl]; constructor;
      [apply IH | exact IHl].
Qed.

Lemma mem_key_In (k : string) (keys : list string) :
  mem_key k keys = true <-> In k keys.
Proof.
  induction keys as [| x keys IH]; cbn; [split; [discriminate | contradiction] |].
  rewrite orb_true_iff, IH. split.
  - intros [H | H]; [left; symmetry; apply String.eqb_eq; exact H | right; exact H].
  - intros [H | H]; [left; apply String.eqb_eq; symmetry; exact H | right; exact H].
Qed.

Lemma dict_lookup_app (k : string) (pre post : list (string * pyval)) :
  ~ In k (map fst pre) -> dict_lookup k (pre ++ post) = dict_lookup k post.
Proof.
  induction pre as [| [k' v'] pre IH]; cbn; [reflexivity |]. intros Hn.
  destruct (String.eqb_spec k k') as [E | N]; [exfalso; apply Hn; left; auto |].
  apply IH. intros H. apply Hn. right. exact H.
Qed.

Lemma dict_eq_go_refl (pre xs : list (string * pyval)) (seen : list string) :
  Forall (fun kv => py_eq (snd kv) (snd kv) = true) xs ->
  (forall k, In k seen <-> In k (map fst pre)) ->
  dict_eq_go py_eq (pre ++ xs) seen xs = true.
Proof.
  revert pre seen. induction xs as [| [k v] xs IH]; intros pre seen Hall Hseen; [reflexivity |].
  inversion Hall as [| ? ? Hv Hrest]; subst. cbn [dict_eq_go snd] in *.
  apply andb_true_iff. split.
  - destruct (mem_key k seen) eqn:Hk; [reflexivity |].
    rewrite dict_lookup_app.
    + cbn. rewrite String.eqb_refl. exact Hv.
    + intros Hin. apply Hseen in Hin. apply mem_key_In in Hin. congruence.
  - replace (pre ++ (k, v) :: xs) with ((pre ++ [(k, v)]) ++ xs)
      by (rewrite <- app_assoc; reflexivity).
    apply IH; [exact Hrest |].
    intros k'. rewrite map_app, in_app_iff. cbn. rewrite <- Hseen. tauto.
Qed.

(** [v == v] holds for every decoded value. *)
Lemma py_eq_refl (v : pyval) : py_eq v v = true.
Proof.
  induction v as [| b | z | s | l IH | items IH] using pyval_nested_ind.
  - reflexivity.
  - cbn. destruct b; reflexivity.
  - cbn. apply Z.eqb_refl.
  - cbn. apply String.eqb_refl.
  - rewrite py_eq_list. induction IH as [| x l Hx _ IHl]; [reflexivity |].
    cbn. rewrite Hx, IHl. reflexivity.
  - rewrite py_eq_dict. apply andb_true_iff. split.
    + apply (dict_eq_go_refl [] items []); [exact IH |]. intros k. cbn. tauto.
    + apply forallb_forall. intros [k x] Hin. cbn. apply mem_key_In.
      apply in_map_iff. exists (k, x). auto.
Qed.

(** X20. Applying the same remote payload a second time changes nothing and
    reports no change: [update_from_api] is idempotent, whatever JSON values
    the payload holds. *)
Theorem update_from_api_idempotent (items : list (string * pyval)) (a a1 : Agent)
    (changed : bool) :
  update_from_api (PDict items) a = (inr changed, a1) ->
  update_from_api (PDict items) a1 = (inr false, a1).
Proof.
  rewrite update_from_api_eq. intros H. injection H as _ <-.
  rewrite update_from_api_eq. cbn [config set_config apply_payload collection_interval
    enable_cpu_monitoring enable_ram_monitoring enable_disk_monitoring
    enable_network_monitoring api_url host_id login password timeout token_refresh_margin].
  unfold py_ne. rewrite !py_eq_refl. reflexivity.
Qed.

(** * The Authorization header *)

Section Session.

Variable transport : Transport.

Lemma after_call_authorized (o : Outcome) (req : Request) (a : Agent) :
  authorized a ->
  req_auth req = authorization a ->
  is_login req = true \/ authorization a <> None ->
  authorized (after_call o req a).
Proof.
  intros [Hc Hl] Hreq Hauth.
  destruct (after_call_frame o req a) as (_ & Ht & Ha & _ & _ & Hcalls & _).
  unfold authorized, credentials_consistent. rewrite Ht, Ha, Hcalls. split; [exact Hc |].
  rewrite forallb_app, Hl. cbn. rewrite andb_true_r. unfold authenticated_request.
  destruct Hauth as [H | H]; [rewrite H; reflexivity |].
  rewrite Hreq. destruct (authorization a); [apply orb_true_r | congruence].
Qed.

Lemma install_authorized (tok uid uname : pyval) (a : Agent) :
  authorized a -> authorized (install tok uid uname a).
Proof. intros [_ Hl]. split; [reflexivity | exact Hl]. Qed.

Lemma authenticate_authorized (a : Agent) :
  authorized a ->
  authorized (snd (authenticate transport a))
  /\ (fst (authenticate transport a) = inr true ->
      authorization (snd (authenticate transport a)) <> None).
Proof.
  intros Ha. rewrite authenticate_eq. cbv zeta.
  pose proof (after_call_authorized (transport (calls a) (login_request a))
                (login_request a) a Ha eq_refl (or_introl eq_refl)) as H0.
  destruct (outcome _) as [e | r]; [split; [exact H0 | discriminate] |].
  destruct (login_fields r) as [[[tok uid] uname] |]; [| split; [exact H0 | discriminate]].
  split; [apply install_authorized; exact H0 | discriminate].
Qed.

Lemma refresh_token_if_needed_authorized (a : Agent) :
  authorized a ->
  authorized (snd (refresh_token_if_needed transport a))
  /\ (fst (refresh_token_if_needed transport a) = inr true ->
      authorization (snd (refresh_token_if_needed transport a)) <> None).
Proof.
  intros Ha. pose proof (authenticate_authorized a Ha) as Hauth.
  unfold refresh_token_if_needed. run_py.
  destruct (current_token a) as [t |] eqn:Ht; [| exact Hauth].
  destruct (Qle_bool _ _).
  - unfold slice. destruct (token t); run_py; try exact Hauth;
      (split; [exact Ha | discriminate]).
  - split; [exact Ha |]. intros _. destruct Ha as [Hc _].
    unfold credentials_consistent in Hc. rewrite Ht in Hc. rewrite Hc. discriminate.
Qed.

(** What a guarded request leaves: the state of the gate when the gate fails
    or raises, the state after the one call otherwise. *)
Lemma gated_call_authorized (a a1 a' : Agent) (r : result bool) (req : Request) :
  authorized a ->
  refresh_token_if_needed transport a = (r, a1) ->
  req_auth req = authorization a1 ->
  a' = a1 \/ (r = inr true /\ a' = after_call (transport (calls a1) req) req a1) ->
  authorized a'.
Proof.
  intros Ha Hgate Hreq Hcase.
  destruct (refresh_token_if_needed_authorized a Ha) as [H1 H2]. rewrite Hgate in H1, H2.
  cbn [fst snd] in H1, H2.
  destruct Hcase as [-> | [-> ->]]; [exact H1 |].
  apply after_call_authorized; [exact H1 | exact Hreq | right; apply H2; reflexivity].
Qed.

Lemma send_heartbeat_authorized (a : Agent) :
  authorized a -> authorized (snd (send_heartbeat transport a)).
Proof.
  intros Ha. rewrite send_heartbeat_eq.
  destruct (refresh_token_if_needed transport a) as [[e | [|]] a1] eqn:Hgate; cbn [snd].
  - apply (gated_call_authorized a a1 _ _ (heartbeat_request a1) Ha Hgate eq_refl). auto.
  - apply (gated_call_authorized a a1 _ _ (heartbeat_request a1) Ha Hgate eq_refl). auto.
  - apply (gated_call_authorized a a1 _ _ (heartbeat_request a1) Ha Hgate eq_refl). auto.
Qed.

Lemma get_agent_configuration_authorized (a : Agent) :
  authorized a -> authorized (snd (get_agent_configuration transport a)).
Proof.
  intros Ha. unfold get_agent_configuration. run_monad.
  destruct (refresh_token_if_needed transport a) as [[e | [|]] a1] eqn:Hgate; cbn [negb snd];
    try (apply (gated_call_authorized a a1 _ _ (configuration_request a1) Ha Hgate eq_refl);
         left; reflexivity).
  rewrite session_send_eq. cbv zeta. fold (configuration_request a1).
  apply (gated_call_authorized a a1 _ _ (configuration_request a1) Ha Hgate eq_refl).
  right. split; [reflexivity |].
  destruct (outcome _) as [e | r]; [reflexivity |].
  destruct (status_code r =? 200); [| reflexivity].
  destruct (json_body r); reflexivity.
Qed.

Lemma get_monitored_directories_authorized (a : Agent) :
  authorized a -> authorized (snd (get_monitored_directories transport a)).
Proof.
  intros Ha. unfold get_monitored_directories. run_monad.
  destruct (refresh_token_if_needed transport a) as [[e | [|]] a1] eqn:Hgate; cbn [negb snd];
    try (apply (gated_call_authorized a a1 _ _ (directories_request a1) Ha Hgate eq_refl);
         left; reflexivity).
  rewrite session_send_eq. cbv zeta. fold (directories_request a1).
  apply (gated_call_authorized a a1 _ _ (directories_request a1) Ha Hgate eq_refl).
  right. split; [reflexivity |].
  destruct (outcome _) as [e | r]; [reflexivity |].
  destruct (status_code r =? 200); [| reflexivity].
  destruct (json_body r) as [body |]; [| reflexivity]. run_monad.
  destruct (dict_get body "directories" (PList [])) as [e | dirs]; [reflexivity |].
  destruct (dict_get body "directory_info" (PDict [])) as [e | info]; [reflexivity |].
  destruct (dict_get info "fallback_used" (PBool false)) as [e | used]; [reflexivity |].
  destruct (truthy used); [reflexivity |].
  destruct (py_len dirs); reflexivity.
Qed.

Lemma send_metrics_authorized (fuel : nat) (metrics : list pyval) (a a' : Agent)
    (r : result bool) :
  authorized a ->
  send_metrics transport fuel metrics a = Some (r, a') ->
  authorized a'.
Proof.
  revert a a' r. induction fuel as [| fuel IH]; intros a a' r Ha; [discriminate |].
  destruct metrics as [| m ms]; [intros H; injection H as _ <-; exact Ha |].
  rewrite send_metrics_eq.
  destruct (refresh_token_if_needed transport a) as [[e | [|]] a1] eqn:Hgate.
  - intros H. injection H as _ <-.
    apply (gated_call_authorized a a1 _ _ (batch_request (m :: ms) a1) Ha Hgate eq_refl).
    auto.
  - rewrite session_send_eq. cbv zeta. fold (batch_request (m :: ms) a1).
    assert (H2 : authorized (after_call (transport (calls a1) (batch_request (m :: ms) a1))
                               (batch_request (m :: ms) a1) a1)).
    { apply (gated_call_authorized a a1 _ _ (batch_request (m :: ms) a1) Ha Hgate eq_refl).
      auto. }
    revert H2. generalize (after_call (transport (calls a1) (batch_request (m :: ms) a1))
                             (batch_request (m :: ms) a1) a1). intros a2 H2.
    destruct (outcome _) as [e | response]; [intros H; injection H as _ <-; exact H2 |].
    destruct ((status_code response =? 200) || (status_code response =? 201));
      [intros H; injection H as _ <-; exact H2 |].
    destruct (status_code response =? 401); [| intros H; injection H as _ <-; exact H2].
    destruct (authenticate_authorized a2 H2) as [H3 _].
    destruct (authenticate transport a2) as [[e | [|]] a3]; cbn [snd] in H3;
      try (intros H; injection H as _ <-; exact H3).
    unfold caught.
    destruct (send_metrics transport fuel (m :: ms) a3) as [[[e | v] a4] |] eqn:Hrec;
      intros H; [injection H as _ <- | injection H as _ <- | discriminate];
      exact (IH a3 a4 _ H3 Hrec).
  - intros H. injection H as _ <-.
    apply (gated_call_authorized a a1 _ _ (batch_request (m :: ms) a1) Ha Hgate eq_refl).
    auto.
Qed.

(** X19. The Authorization header follows the token: from a state where the
    header is the current token's and every request sent so far was a login
    or carried a header, each operation of the client (a login, the token
    gate, a heartbeat, a configuration fetch, a directory fetch, a batch
    with its retries) ends in such a state, so none of them sends anything
    but a login without a header. *)
Theorem client_requests_authorized (fuel : nat) (metrics : list pyval) (a : Agent) :
  authorized a ->
  authorized (snd (authenticate transport a))
  /\ authorized (snd (refresh_token_if_needed transport a))
  /\ authorized (snd (send_heartbeat transport a))
  /\ authorized (snd (get_agent_configuration transport a))
  /\ authorized (snd (get_monitored_directories transport a))
  /\ (forall r a', send_metrics transport fuel metrics a = Some (r, a') -> authorized a').
Proof.
  intros Ha. repeat split.
  - apply authenticate_authorized, Ha.
  - apply authenticate_authorized, Ha.
  - apply refresh_token_if_needed_authorized, Ha.
  - apply refresh_token_if_needed_authorized, Ha.
  - apply send_heartbeat_authorized, Ha.
  - apply send_heartbeat_authorized, Ha.
  - apply get_agent_configuration_authorized, Ha.
  - apply get_agent_configuration_authorized, Ha.
  - apply get_monitored_directories_authorized, Ha.
  - apply get_monitored_directories_authorized, Ha.
  - apply (send_metrics_authorized fuel metrics a a' r Ha H).
  - apply (send_metrics_authorized fuel metrics a a' r Ha H).
Qed.

End Session.

(** ** The header over a whole run *)

Lemma authorized_frame (a a' : Agent) :
  current_token a' = current_token a ->
  authorization a' = authorization a ->
  calls a' = calls a ->
  authorized a -> authorized a'.
Proof.
  unfold authorized, credentials_consistent. intros -> -> ->. auto.
Qed.

Lemma advance_authorized (d : Z) (a : Agent) : authorized a -> authorized (advance d a).
Proof.
  destruct (advance_frame d a) as (_ & Ht & Ha & _ & _ & Hc & _).
  apply authorized_frame; assumption.
Qed.

Lemma keeps_ret {A} (x : A) : keeps_authorized (ret x).
Proof. intros a Ha. exact Ha. Qed.

Lemma keeps_raise {A} (e : exn) : keeps_authorized (@raise A e).
Proof. intros a Ha. exact Ha. Qed.

Lemma keeps_get_state : keeps_authorized get_state.
Proof. intros a Ha. exact Ha. Qed.

Lemma keeps_lift_result {A} (r : result A) : keeps_authorized (lift_result r).
Proof. intros a Ha. destruct r; exact Ha. Qed.

Lemma keeps_bind {A B} (m : Py A) (k : A -> Py B) :
  keeps_authorized m -> (forall x, keeps_authorized (k x)) -> keeps_authorized (bind m k).
Proof.
  intros Hm Hk a Ha. unfold bind. specialize (Hm a Ha).
  destruct (m a) as [[e | x] a1]; [exact Hm |]. apply Hk. exact Hm.
Qed.

Lemma keeps_try_except {A} (m : Py A) (h : exn -> Py A) :
  keeps_authorized m -> (forall e, keeps_authorized (h e)) ->
  keeps_authorized (try_except m h).
Proof.
  intros Hm Hh a Ha. unfold try_except. specialize (Hm a Ha).
  destruct (m a) as [[e | x] a1]; [| exact Hm]. apply Hh. exact Hm.
Qed.

Lemma keeps_modify (f : Agent -> Agent) :
  (forall a, authorized a -> authorized (f a)) -> keeps_authorized (modify f).
Proof. intros Hf a Ha. apply Hf. exact Ha. Qed.

Lemma keeps_retF {A} (x : A) : keeps_authorizedF (retF x).
Proof. intros a r a' Ha H. injection H as _ <-. exact Ha. Qed.

Lemma keeps_liftF {A} (m : Py A) : keeps_authorized m -> keeps_authorizedF (liftF m).
Proof.
  intros Hm a r a' Ha H. unfold liftF in H. injection H as H. specialize (Hm a Ha).
  rewrite H in Hm. exact Hm.
Qed.

Lemma keeps_bindF {A B} (m : PyF A) (k : A -> PyF B) :
  keeps_authorizedF m -> (forall x, keeps_authorizedF (k x)) ->
  keeps_authorizedF (bindF m k).
Proof.
  intros Hm Hk a r a' Ha. unfold bindF.
  destruct (m a) as [[[e | x] a1] |] eqn:Hrun; [| | discriminate].
  - intros H. injection H as _ <-. exact (Hm a _ a1 Ha Hrun).
  - apply Hk. exact (Hm a _ a1 Ha Hrun).
Qed.

Lemma keeps_try_exceptF {A} (m : PyF A) (h : exn -> PyF A) :
  keeps_authorizedF m -> (forall e, keeps_authorizedF (h e)) ->
  keeps_authorizedF (try_exceptF m h).
Proof.
  intros Hm Hh a r a' Ha. unfold try_exceptF.
  destruct (m a) as [[[e | x] a1] |] eqn:Hrun; [| | discriminate].
  - apply Hh. exact (Hm a _ a1 Ha Hrun).
  - intros H. injection H as _ <-. exact (Hm a _ a1 Ha Hrun).
Qed.

(** One step through a computation built from the operations above. *)
Ltac keeps_step :=
  first
    [ apply keeps_ret | apply keeps_raise | apply keeps_get_state | apply keeps_lift_result
    | apply keeps_retF
    | apply keeps_bind; [| intros ?]
    | apply keeps_try_except; [| intros ?]
    | apply keeps_bindF; [| intros ?]
    | apply keeps_try_exceptF; [| intros ?]
    | apply keeps_liftF
    | match goal with
      | |- keeps_authorized (if ?b then _ else _) => destruct b
      | |- keeps_authorizedF (if ?b then _ else _) => destruct b
      | |- keeps_authorized (match ?x with _ => _ end) => destruct x
      | |- keeps_authorizedF (match ?x with _ => _ end) => destruct x
      end ].

Lemma keeps_update_from_api (v : pyval) : keeps_authorized (update_from_api v).
Proof.
  unfold update_from_api.
  apply keeps_bind; [apply keeps_get_state | intros a0]. cbv zeta.
  do 5 (apply keeps_bind; [apply keeps_lift_result | intros ?]).
  apply keeps_bind; [| intros _; apply keeps_ret].
  apply keeps_modify. intros a. apply authorized_frame; reflexivity.
Qed.

Lemma keeps_run_sample (host : Host) {A} (sampler : Z -> nat * result A) :
  keeps_authorized (run_sample sampler).
Proof. intros a Ha. apply advance_authorized. exact Ha. Qed.

Section Run.

Variable transport : Transport.
Variable host : Host.

Lemma keeps_authenticate : keeps_authorized (authenticate transport).
Proof. intros a Ha. apply authenticate_authorized, Ha. Qed.

Lemma keeps_send_heartbeat : keeps_authorized (send_heartbeat transport).
Proof. intros a. apply send_heartbeat_authorized. Qed.

Lemma keeps_get_agent_configuration : keeps_authorized (get_agent_configuration transport).
Proof. intros a. apply get_agent_configuration_authorized. Qed.

Lemma keeps_get_monitored_directories :
  keeps_authorized (get_monitored_directories transport).
Proof. intros a. apply get_monitored_directories_authorized. Qed.

Lemma keeps_send_metrics (fuel : nat) (metrics : list pyval) :
  keeps_authorizedF (send_metrics transport fuel metrics).
Proof. intros a r a' Ha H. exact (send_metrics_authorized transport fuel metrics a a' r Ha H). Qed.

Lemma keeps__collect_single_storage_metric (path : string) (id : Z) (name : string) :
  keeps_authorized (_collect_single_storage_metric host path id name).
Proof.
  unfold _collect_single_storage_metric. repeat keeps_step. apply keeps_run_sample, host.
Qed.

Lemma keeps_windows_loop (drives : list string) (i : Z) (acc : list pyval) :
  keeps_authorized (windows_loop host i drives acc).
Proof.
  revert i acc. induction drives as [| drive rest IH]; intros i acc; cbn [windows_loop].
  - apply keeps_ret.
  - apply keeps_bind; [apply keeps__collect_single_storage_metric | intros m; apply IH].
Qed.

Lemma keeps_directories_loop (directories : list pyval) (i : Z) (acc : list pyval) :
  keeps_authorized (directories_loop host i directories acc).
Proof.
  revert i acc. induction directories as [| directory rest IH]; intros i acc;
    cbn [directories_loop].
  - apply keeps_ret.
  - apply keeps_bind; [apply keeps_lift_result | intros found].
    destruct found; [| apply IH].
    apply keeps_bind; [apply keeps_lift_result | intros replaced].
    destruct directory; try apply keeps_raise.
    apply keeps_bind; [apply keeps__collect_single_storage_metric | intros m; apply IH].
Qed.

Lemma keeps_collect_storage_metrics :
  keeps_authorized (collect_storage_metrics transport host).
Proof.
  unfold collect_storage_metrics, directories_to_monitor.
  apply keeps_try_except; [| intros e; apply keeps_ret].
  destruct (String.eqb _ _); [apply keeps_windows_loop |].
  apply keeps_bind.
  - apply keeps_try_except; [| intros e; apply keeps_ret].
    apply keeps_bind; [apply keeps_get_monitored_directories | intros dirs].
    repeat keeps_step.
  - intros dirs. apply keeps_bind; [apply keeps_lift_result | intros items].
    apply keeps_directories_loop.
Qed.

Lemma keeps_collect_for_agent : keeps_authorized (collect_for_agent transport host).
Proof.
  pose proof keeps_collect_storage_metrics as Hstorage.
  unfold collect_for_agent, collect_all_metrics, collect_cpu_metric, collect_memory_metric.
  apply keeps_bind; [apply keeps_get_state | intros a0].
  apply keeps_bind; [apply keeps_get_state | intros a1].
  apply keeps_bind.
  { destruct (truthy _); [| apply keeps_ret].
    repeat keeps_step. apply keeps_run_sample, host. }
  intros ms1. apply keeps_bind; [apply keeps_get_state | intros a2].
  apply keeps_bind.
  { destruct (truthy _); [| apply keeps_ret].
    repeat keeps_step. apply keeps_run_sample, host. }
  intros ms2. apply keeps_bind; [apply keeps_get_state | intros a3].
  apply keeps_bind.
  { destruct (truthy _); [| apply keeps_ret].
    apply keeps_bind; [| intros m; apply keeps_ret].
    unfold collect_network_metric. intros a Ha.
    refine (keeps_try_except _ _ _ _ a Ha).
    - repeat keeps_step. apply keeps_run_sample, host.
    - intros e. destruct e; repeat keeps_step. }
  intros ms3. apply keeps_bind; [apply keeps_get_state | intros a4].
  apply keeps_bind.
  { destruct (truthy _); [| apply keeps_ret].
    apply keeps_bind; [exact Hstorage | intros sm; apply keeps_ret]. }
  intros ms4. repeat keeps_step.
Qed.

Section AnyCollector.

Variable collect_all_metrics : Py (list pyval).
Hypothesis keeps_collect_all_metrics : keeps_authorized collect_all_metrics.

Lemma keeps__send_heartbeat : keeps_authorized (_send_heartbeat transport).
Proof.
  unfold _send_heartbeat.
  apply keeps_try_except; [| intros e; apply keeps_ret].
  apply keeps_bind; [apply keeps_send_heartbeat | intros ok].
  destruct ok; [| apply keeps_ret].
  apply keeps_bind; [apply keeps_get_state | intros a0].
  apply keeps_modify. intros a. apply authorized_frame; reflexivity.
Qed.

Lemma keeps__refresh_config_if_needed :
  keeps_authorized (_refresh_config_if_needed transport).
Proof.
  unfold _refresh_config_if_needed.
  apply keeps_try_except; [| intros e; apply keeps_ret].
  apply keeps_bind; [apply keeps_get_agent_configuration | intros v].
  destruct (truthy v); [| apply keeps_ret].
  apply keeps_bind; [apply keeps_update_from_api | intros changed].
  apply keeps_bind; [apply keeps_get_state | intros a0].
  apply keeps_modify. intros a. apply authorized_frame; reflexivity.
Qed.

Lemma keeps__collect_and_send_metrics (fuel : nat) :
  keeps_authorizedF (_collect_and_send_metrics transport collect_all_metrics fuel).
Proof.
  unfold _collect_and_send_metrics.
  apply keeps_try_exceptF; [| intros e; apply keeps_retF].
  apply keeps_bindF; [apply keeps_liftF, keeps_collect_all_metrics | intros ms].
  destruct (truthy _); [| apply keeps_retF].
  apply keeps_bindF; [apply keeps_send_metrics | intros ok; apply keeps_retF].
Qed.

Lemma keeps_wait_loop (fuel : nat) (slept : Z) : keeps_authorizedF (wait_loop fuel slept).
Proof.
  revert slept. induction fuel as [| fuel IH]; intros slept; [intros a r a' _ H; discriminate |].
  cbn [wait_loop].
  apply keeps_bindF; [apply keeps_liftF, keeps_get_state | intros a0].
  apply keeps_bindF; [apply keeps_liftF, keeps_lift_result | intros more].
  destruct (more && running a0); [| apply keeps_retF].
  apply keeps_bindF.
  { apply keeps_liftF, keeps_modify. intros a. apply advance_authorized. }
  intros _. cbv zeta.
  apply keeps_bindF; [apply keeps_liftF, keeps_get_state | intros a1].
  apply keeps_bindF; [| intros _; apply IH].
  apply keeps_liftF. destruct (_ =? 0); [apply keeps_lift_result | apply keeps_ret].
Qed.

Lemma keeps_cycle (fuel : nat) :
  keeps_authorizedF (cycle transport collect_all_metrics fuel).
Proof.
  unfold cycle, _wait_for_next_cycle, _should_send_heartbeat, _should_refresh_config.
  apply keeps_try_exceptF; [| intros e; apply keeps_wait_loop].
  apply keeps_bindF; [repeat keeps_step | intros hb].
  apply keeps_bindF.
  { apply keeps_liftF. destruct hb; [apply keeps__send_heartbeat | apply keeps_ret]. }
  intros _. apply keeps_bindF; [repeat keeps_step | intros rc].
  apply keeps_bindF.
  { apply keeps_liftF.
    destruct rc; [apply keeps__refresh_config_if_needed | apply keeps_ret]. }
  intros _. apply keeps_bindF; [apply keeps__collect_and_send_metrics | intros _].
  apply keeps_wait_loop.
Qed.

Lemma keeps_agent_loop (fuel : nat) :
  keeps_authorizedF (agent_loop transport collect_all_metrics fuel).
Proof.
  induction fuel as [| fuel IH]; [intros a r a' _ H; discriminate |].
  cbn [agent_loop].
  apply keeps_bindF; [apply keeps_liftF, keeps_get_state | intros a0].
  destruct (running a0); [| apply keeps_retF].
  apply keeps_bindF; [apply keeps_cycle | intros _; exact IH].
Qed.

Lemma keeps_start (fuel : nat) :
  keeps_authorizedF (start transport collect_all_metrics fuel).
Proof.
  unfold start.
  apply keeps_bindF; [apply keeps_liftF, keeps_authenticate | intros ok].
  destruct ok; cbn [negb]; [| apply keeps_retF].
  apply keeps_bindF.
  { apply keeps_liftF, keeps_modify. intros a. apply authorized_frame; reflexivity. }
  intros _.
  apply keeps_bindF; [apply keeps_liftF, keeps_get_agent_configuration | intros v].
  apply keeps_bindF; [| intros _; apply keeps_agent_loop].
  apply keeps_liftF. destruct (truthy v); [| apply keeps_ret].
  apply keeps_bind; [apply keeps_update_from_api | intros changed; apply keeps_ret].
Qed.

End AnyCollector.

(** X21. Whatever the service answers and however the run ends, every
    request a run of [main] has sent through the session (logins,
    configuration and directory fetches, heartbeats, batches) is a login or
    carries an Authorization header, and at the end the header is the one of
    the current token.  The health probe of the collector is sent outside
    the session and is not among them. *)
Theorem main_requests_authorized (py_int : string -> option Z) (fuel : nat)
    (argv : list string) (t0 : Z) (signal : option Z) (status : Z) (a : Agent) :
  main transport (collect_for_agent transport host) py_int fuel argv t0 signal
    = Some (status, Some a) ->
  authorization a = option_map token (current_token a)
  /\ forallb authenticated_request (calls a) = true.
Proof.
  unfold main.
  destruct argv as [| x0 [| arg_url [| arg_host [| arg_login [| arg_password [| ? ?]]]]]];
    try discriminate.
  destruct (py_int arg_host) as [h |]; [| discriminate].
  assert (Hinit : authorized (ZenMonAgent_init
                    (default_config arg_url h arg_login arg_password) t0 signal))
    by (split; reflexivity).
  pose proof (keeps_start (collect_for_agent transport host) keeps_collect_for_agent fuel)
    as Hrun.
  destruct (start _ _ _ _) as [[[e | []] a1] |] eqn:Hs; [| | discriminate];
    intros H; injection H as _ <-; exact (Hrun _ _ _ Hinit Hs).
Qed.

End Run.

(** * Concrete runs for the further properties *)

(** A batch accepted with 200: one attempt, success. *)
Lemma send_metrics_single_attempt_witness :
  exists (b : bool) (a2 : Agent),
    send_metrics (flaky 0) 1 [cpu_metric] authenticated_agent = Some (inr b, a2)
    /\ b = true
    /\ batch_sends (calls a2) = 1%nat.
Proof.
  set (a2 := snd (session_send (flaky 0) POST MetricsBatch [cpu_metric]
                    authenticated_agent)).
  destruct (send_metrics_single_attempt (flaky 0) 0 [cpu_metric]
              authenticated_agent authenticated_agent a2 (inr (mkResponse 200 None)))
    as (b & Hrun & Hcalls & Hb).
  - discriminate.
  - vm_compute; reflexivity.
  - vm_compute; reflexivity.
  - intros r Hr. injection Hr as <-. discriminate.
  - exists b, a2. split; [exact Hrun |]. split.
    + apply Hb. exists (mkResponse 200 None). split; [reflexivity | left; reflexivity].
    + rewrite Hcalls. reflexivity.
Defined.

(** A refresh that is due on a token that is a number: the gate raises. *)
Lemma send_metrics_raises_only_at_gate_witness :
  send_metrics (flaky 0) 1 [cpu_metric] unsliceable_agent
  = Some (inl TypeError, unsliceable_agent)
  /\ needs_refresh unsliceable_agent = true
  /\ token_sliceable unsliceable_agent = false.
Proof.
  destruct (send_metrics_raises_only_at_gate (flaky 0) 1 [cpu_metric]
              unsliceable_agent unsliceable_agent (inl TypeError) ltac:(vm_compute; reflexivity))
    as [(b & Hb) | (_ & _ & _ & Hn & Hs)]; [discriminate Hb |].
  split; [vm_compute; reflexivity |]. split; assumption.
Defined.

(** A heartbeat accepted by the service. *)
Lemma _send_heartbeat_spec_witness :
  exists a' : Agent,
    _send_heartbeat (flaky 0) authenticated_agent = (inr tt, a')
    /\ last_heartbeat a' = now a'
    /\ _should_send_heartbeat a' = (inr false, a').
Proof.
  destruct (_send_heartbeat_spec (flaky 0) authenticated_agent
              (snd (send_heartbeat (flaky 0) authenticated_agent)) (inr true) ltac:(vm_compute; reflexivity))
    as (a' & Hrun & Hok & _).
  destruct (Hok ltac:(vm_compute; reflexivity)) as [Ha' Hdue].
  exists a'. split; [exact Hrun |]. split; [rewrite Ha'; reflexivity | exact Hdue].
Defined.

(** An undisturbed wait of 120 seconds. *)
Lemma wait_sleeps_whole_interval_witness :
  exists a' : Agent,
    _wait_for_next_cycle 121 (set_running true fresh_agent) = Some (inr tt, a')
    /\ now a' = seconds 120
    /\ running a' = true.
Proof.
  destruct (wait_sleeps_whole_interval 121 (set_running true fresh_agent) 120)
    as (a' & Hrun & Hnow & Hrunning & _).
  - vm_compute; reflexivity.
  - vm_compute; reflexivity.
  - vm_compute; reflexivity.
  - vm_compute; reflexivity.
  - exists a'. split; [exact Hrun |]. split; [exact Hnow | exact Hrunning].
Defined.

(** A loop started with a [null] collection interval. *)
Lemma agent_loop_ends_witness :
  exists a' : Agent,
    agent_loop (flaky 0) (ret []) 5 null_interval_agent = Some (inl TypeError, a')
    /\ is_number (collection_interval (config a')) = false.
Proof.
  set (a' := match agent_loop (flaky 0) (ret []) 5 null_interval_agent with
             | Some (_, s) => s
             | None => null_interval_agent
             end).
  destruct (agent_loop_ends (flaky 0) (ret []) 5 null_interval_agent a' (inl TypeError))
    as [[H _] | [_ Hn]].
  - vm_compute; reflexivity.
  - discriminate H.
  - exists a'. split; [vm_compute; reflexivity | exact Hn].
Defined.

(** Start-up against a service whose configuration sets the interval to
    [null]: the process ends with status 1. *)
Lemma main_exit_status_witness :
  exists a' : Agent,
    main (config_service (PDict [("data_collection_interval", PNone)])) (ret [])
      (fun _ => Some 10) 50 example_argv 0 None
    = Some (1, Some a')
    /\ is_number (collection_interval (config a')) = false.
Proof.
  set (run := main (config_service (PDict [("data_collection_interval", PNone)])) (ret [])
                (fun _ => Some 10) 50 example_argv 0 None).
  set (a' := match run with
             | Some (_, Some s) => s
             | _ => fresh_agent
             end).
  destruct (main_exit_status (config_service (PDict [("data_collection_interval", PNone)]))
              (ret []) (fun _ => Some 10) 50
              "zenmon-agent-python-v2.0.py" "http://localhost:8001/api" "10" "admin"
              "admin123" 10 0 None 1 a')
    as [[H _] | [_ Hwhy]].
  - vm_compute; reflexivity.
  - vm_compute; reflexivity.
  - discriminate H.
  - exists a'. split; [vm_compute; reflexivity |]. vm_compute. reflexivity.
Defined.

(** The directories of the API. *)
Lemma get_monitored_directories_spec_witness :
  get_monitored_directories directories_service authenticated_agent
  = (inr (PList [PStr "/var"; PStr "/data"; PStr "/tmp"]),
     snd (get_monitored_directories directories_service authenticated_agent))
  /\ batch_sends
       (calls (snd (get_monitored_directories directories_service authenticated_agent)))
     = batch_sends (calls authenticated_agent).
Proof.
  destruct (get_monitored_directories_spec directories_service authenticated_agent
              (snd (get_monitored_directories directories_service authenticated_agent))
              (inr (PList [PStr "/var"; PStr "/data"; PStr "/tmp"])) ltac:(vm_compute; reflexivity))
    as (_ & Hb & _).
  split; [vm_compute; reflexivity | exact Hb].
Defined.

(** The batch of [example_host]: CPU, memory, network, [/var] and [/tmp]
    (the directory [/data], second of the three listed, does not exist). *)
Lemma collect_all_metrics_distinct_ids_witness :
  exists ids : list Z,
    map metric_type_id_of example_batch = map Some ids /\ NoDup ids.
Proof.
  destruct (collect_all_metrics_distinct_ids directories_service example_host
              "http://localhost:8001/api/public/health" authenticated_agent
              (snd (collect_for_agent directories_service example_host authenticated_agent))
              example_batch ltac:(vm_compute; reflexivity))
    as (ids & Hm & _ & Hnd & _).
  exists ids. split; assumption.
Defined.

Lemma collect_all_metrics_gated_witness :
  exists ids : list Z,
    map metric_type_id_of example_batch = map Some ids
    /\ (In 1 ids -> truthy (enable_cpu_monitoring (config authenticated_agent)) = true).
Proof.
  destruct (collect_all_metrics_gated directories_service example_host
              "http://localhost:8001/api/public/health" authenticated_agent
              (snd (collect_for_agent directories_service example_host authenticated_agent))
              example_batch ltac:(vm_compute; reflexivity))
    as (ids & Hm & Hcpu & _).
  exists ids. split; assumption.
Defined.

(** A CPU flag set to [null]: the collection raises. *)
Lemma collect_all_metrics_raises_iff_witness :
  collect_all_metrics directories_service example_host
    "http://localhost:8001/api/public/health" null_flag_agent
  = (inl TypeError,
     snd (collect_for_agent directories_service example_host null_flag_agent))
  /\ forallb is_number (flags (config null_flag_agent)) = false.
Proof.
  destruct (collect_all_metrics_raises_iff directories_service example_host
              "http://localhost:8001/api/public/health" null_flag_agent
              (snd (collect_for_agent directories_service example_host null_flag_agent))
              (inl TypeError) ltac:(vm_compute; reflexivity))
    as (_ & Hiff & _).
  split; [vm_compute; reflexivity | apply Hiff; vm_compute; reflexivity].
Defined.

Lemma _collect_and_send_metrics_non_numeric_flag_witness :
  exists a' : Agent,
    _collect_and_send_metrics directories_service
      (collect_for_agent directories_service example_host) 3 null_flag_agent
    = Some (inr tt, a')
    /\ batch_sends (calls a') = batch_sends (calls null_flag_agent).
Proof.
  destruct (_collect_and_send_metrics_non_numeric_flag directories_service example_host 3
              null_flag_agent ltac:(vm_compute; reflexivity))
    as (a' & Hrun & Hb & _).
  exists a'. split; assumption.
Defined.

Lemma _collect_and_send_metrics_all_disabled_witness :
  _collect_and_send_metrics directories_service
    (collect_for_agent directories_service example_host) 3 idle_agent
  = Some (inr tt, idle_agent).
Proof.
  destruct (_collect_and_send_metrics_all_disabled directories_service example_host 3
              idle_agent) as [_ Hrun]; [| exact Hrun].
  unfold flags. cbn.
  repeat (apply Forall_cons; [first [left; reflexivity | right; reflexivity] |]).
  apply Forall_nil.
Defined.

(** The same payload twice: the first update changes the interval, the
    second changes nothing. *)
Lemma update_from_api_idempotent_witness :
  exists a1 : Agent,
    update_from_api (PDict [("data_collection_interval", PInt 60)]) fresh_agent
    = (inr true, a1)
    /\ update_from_api (PDict [("data_collection_interval", PInt 60)]) a1 = (inr false, a1).
Proof.
  set (a1 := snd (update_from_api (PDict [("data_collection_interval", PInt 60)])
                    fresh_agent)).
  exists a1. split; [vm_compute; reflexivity |].
  apply (update_from_api_idempotent [("data_collection_interval", PInt 60)] fresh_agent a1
           true).
  vm_compute; reflexivity.
Defined.

(** A heartbeat and a batch from an authenticated agent. *)
Lemma client_requests_authorized_witness :
  authorized authenticated_agent
  /\ authorized (snd (send_heartbeat (flaky 0) authenticated_agent))
  /\ (forall r a', send_metrics (flaky 0) 1 [cpu_metric] authenticated_agent = Some (r, a') ->
                   authorized a').
Proof.
  assert (H : authorized authenticated_agent) by (split; vm_compute; reflexivity).
  destruct (client_requests_authorized (flaky 0) 1 [cpu_metric] authenticated_agent H)
    as (_ & _ & Hh & _ & _ & Hs).
  split; [exact H |]. split; [exact Hh | exact Hs].
Defined.

(** A run stopped by a signal after three seconds: a login, the initial
    configuration fetch, a heartbeat, a configuration refresh, a directory
    fetch and one batch. *)
Lemma main_requests_authorized_witness :
  exists a : Agent,
    main directories_service (collect_for_agent directories_service example_host)
      (fun _ => Some 10) 200 example_argv 0 (Some 3000000)
    = Some (0, Some a)
    /\ List.length (calls a) = 6%nat
    /\ forallb authenticated_request (calls a) = true.
Proof.
  set (run := main directories_service (collect_for_agent directories_service example_host)
                (fun _ => Some 10) 200 example_argv 0 (Some 3000000)).
  set (a := match run with
            | Some (_, Some s) => s
            | _ => fresh_agent
            end).
  assert (Hrun : run = Some (0, Some a)) by (vm_compute; reflexivity).
  exists a. split; [exact Hrun |]. split; [vm_compute; reflexivity |].
  exact (proj2 (main_requests_authorized directories_service example_host
                  (fun _ => Some 10) 200 example_argv 0 (Some 3000000) 0 a Hrun)).
Defined.
